(** * ThinkRecoveryTools: the recovery USB maker

    A shallow embedding of the core of [RecoveryUSBMaker.py]: the IMZ
    password transform, the RMF manifest reader, the action executor, the
    post-processing stage and the progress queue, followed by the
    properties established about them.

    Conventions.
    - A Python [str] is the list of its Unicode code points ([pystr]);
      [ord] is the identity and [chr] checks the range of code points.
    - A Python exception is a value of [exn]; code that can raise returns
      an [outcome].
    - The operating system (file system, external tools, [os.path]) is an
      interface, [Platform]; the program is a function of an arbitrary
      implementation of it. *)

From Stdlib Require Import ZArith String Ascii List Bool Lia.
Import ListNotations.
Local Open Scope Z_scope.

(** ** Python strings *)

Definition pystr := list Z.

(** A literal of the source, as code points. *)
Definition str (s : string) : pystr :=
  map (fun a => Z.of_N (N_of_ascii a)) (list_ascii_of_string s).

Definition pystr_eqb (a b : pystr) : bool :=
  if list_eq_dec Z.eq_dec a b then true else false.

(** Truth value of a [str]: non-empty. *)
Definition truthy (s : pystr) : bool :=
  match s with [] => false | _ :: _ => true end.

(** Truth value of a [str] that may be [None]. *)
Definition truthy_opt (s : option pystr) : bool :=
  match s with Some s => truthy s | None => false end.

(** ** Exceptions *)

Inductive exn_class :=
  | ValueError | IndexError | StopIteration | AttributeError
  | FileNotFoundError | OSError.

Record exn := mkExn { exn_cls : exn_class; exn_str : pystr }.

Inductive outcome (A : Type) :=
  | Ret (a : A)
  | Raise (e : exn).
Arguments Ret {A} a.
Arguments Raise {A} e.

Definition obind {A B} (m : outcome A) (k : A -> outcome B) : outcome B :=
  match m with Ret a => k a | Raise e => Raise e end.

Fixpoint omap {A B} (f : A -> outcome B) (l : list A) : outcome (list B) :=
  match l with
  | [] => Ret []
  | x :: r => obind (f x) (fun y => obind (omap f r) (fun ys => Ret (y :: ys)))
  end.

Definition from_opt (s : option pystr) : pystr :=
  match s with Some s => s | None => [] end.

(** [str.isspace] on one code point: the white space of [str.strip()]. *)
Definition py_isspace (c : Z) : bool :=
  ((9 <=? c) && (c <=? 13)) || ((28 <=? c) && (c <=? 32))
  || (c =? 133) || (c =? 160) || (c =? 5760)
  || ((8192 <=? c) && (c <=? 8202))
  || (c =? 8232) || (c =? 8233) || (c =? 8239) || (c =? 8287) || (c =? 12288).

Fixpoint lstrip_by (p : Z -> bool) (s : pystr) : pystr :=
  match s with
  | [] => []
  | c :: r => if p c then lstrip_by p r else s
  end.

Definition rstrip_by (p : Z -> bool) (s : pystr) : pystr :=
  rev (lstrip_by p (rev s)).

Definition strip_by (p : Z -> bool) (s : pystr) : pystr :=
  rstrip_by p (lstrip_by p s).

(** [s.strip()] *)
Definition strip (s : pystr) : pystr := strip_by py_isspace s.

(** [s.strip(chars)] *)
Definition strip_chars (chars : pystr) (s : pystr) : pystr :=
  strip_by (fun c => existsb (Z.eqb c) chars) s.

(** [s.split(sep)] for a separator of one character: never empty. *)
Fixpoint split_on (sep : Z) (s : pystr) : list pystr :=
  match s with
  | [] => [[]]
  | c :: r =>
      if c =? sep then [] :: split_on sep r
      else match split_on sep r with
           | h :: t => (c :: h) :: t
           | [] => [[c]]
           end
  end.

(** [s.split(sep, 1)]: one piece when [sep] does not occur, else the text
    before and the text after its first occurrence. *)
Fixpoint split_once (sep : Z) (s : pystr) : list pystr :=
  match s with
  | [] => [[]]
  | c :: r =>
      if c =? sep then [[]; r]
      else match split_once sep r with
           | h :: t => (c :: h) :: t
           | [] => [[c]]
           end
  end.

(** [a, b = l]: unpacking a list into two names. *)
Definition unpack2 (l : list pystr) : outcome (pystr * pystr) :=
  match l with
  | [a; b] => Ret (a, b)
  | [] | [_] => Raise (mkExn ValueError (str "not enough values to unpack"))
  | _ => Raise (mkExn ValueError (str "too many values to unpack"))
  end.

(** [s.replace(a, b)] for single characters. *)
Definition replace_char (a b : Z) (s : pystr) : pystr :=
  map (fun c => if c =? a then b else c) s.

(** [sep.join(l)] *)
Fixpoint join (sep : pystr) (l : list pystr) : pystr :=
  match l with
  | [] => []
  | [x] => x
  | x :: r => x ++ sep ++ join sep r
  end.

(** [f"{s:<w}"]: left-aligned in a field of width [w], filled with spaces. *)
Definition ljust (w : nat) (s : pystr) : pystr :=
  s ++ repeat 32 (w - length s).

Fixpoint startswith (pre s : pystr) : bool :=
  match pre, s with
  | [], _ => true
  | a :: pre', b :: s' => (a =? b) && startswith pre' s'
  | _ :: _, [] => false
  end.

(** [s.endswith(suf)] *)
Definition endswith (suf s : pystr) : bool := startswith (rev suf) (rev s).

(** [sub in s] *)
Fixpoint contains (sub s : pystr) : bool :=
  startswith sub s ||
  match s with
  | [] => false
  | _ :: r => contains sub r
  end.

(** The lines of a text file as iteration and [readlines()] give them:
    each line keeps its newline, the last one may lack it. *)
Fixpoint readlines (s : pystr) : list pystr :=
  match s with
  | [] => []
  | c :: r =>
      if c =? 10 then [10] :: readlines r
      else match readlines r with
           | h :: t => (c :: h) :: t
           | [] => [[c]]
           end
  end.

(** [next(f)] on the lines still to be read. *)
Definition next_line (f : list pystr) : outcome (pystr * list pystr) :=
  match f with
  | [] => Raise (mkExn StopIteration [])
  | l :: r => Ret (l, r)
  end.

(** [[next(f) for _ in range(n)]] *)
Fixpoint next_lines (n : nat) (f : list pystr) : outcome (list pystr) :=
  match n with
  | O => Ret []
  | S n' =>
      obind (next_line f) (fun '(l, f') =>
      obind (next_lines n' f') (fun ls => Ret (l :: ls)))
  end.

(** [l[:n] = new] *)
Definition slice_assign_prefix {A} (n : nat) (l new : list A) : list A :=
  new ++ skipn n l.

(** [chr(n)]: a [ValueError] outside the range of code points. *)
Definition chr (n : Z) : outcome Z :=
  if (0 <=? n) && (n <=? 1114111) then Ret n
  else Raise (mkExn ValueError (str "chr() arg not in range(0x110000)")).

Definition ord (c : Z) : Z := c.

(** [s[i]] on a [str]: negative indices count from the end, an index out
    of range raises [IndexError]. *)
Definition str_index (s : pystr) (i : Z) : outcome Z :=
  let n := Z.of_nat (length s) in
  let j := if i <? 0 then i + n else i in
  if (0 <=? j) && (j <? n) then Ret (nth (Z.to_nat j) s 0)
  else Raise (mkExn IndexError (str "string index out of range")).

(** [range(n)] *)
Definition range (n : nat) : list Z := map Z.of_nat (seq 0 n).

(** ** The IMZ password transform *)

Definition IMZ_PW_CHARS : pystr := str "k`gybs0vampjd".

Definition encrypt_char (clear_password : pystr) (i : Z) : outcome Z :=
  obind (str_index clear_password i) (fun clear_char =>
  let char_index := ord clear_char mod 13 in
  obind (str_index IMZ_PW_CHARS char_index) (fun pwchars_char =>
  let ciphered_ordinal := ord pwchars_char - (i mod 3) + 2 in
  chr ciphered_ordinal)).

(** [clear_password] is the [key] attribute of a manifest node: a [str],
    or [None] when the attribute is absent. *)
Definition encrypt_imz_password (clear_password : option pystr) : outcome pystr :=
  match clear_password with
  | None => Ret []
  | Some s =>
      if negb (truthy s) then Ret []
      else omap (encrypt_char s) (range (length s))
  end.

(** ** The manifest: an [xml.etree.ElementTree] element *)

#[warnings="-register-all"]
Inductive Element := mkElement {
  el_tag : pystr;
  el_attrib : list (pystr * pystr);
  el_text : option pystr;
  el_children : list Element
}.

(** [node.get(key)] *)
Fixpoint attrib_get (key : pystr) (l : list (pystr * pystr)) : option pystr :=
  match l with
  | [] => None
  | (k, v) :: r => if pystr_eqb k key then Some v else attrib_get key r
  end.

Definition el_get (node : Element) (key : pystr) : option pystr :=
  attrib_get key (el_attrib node).

(** [node.get(key, default)] *)
Definition el_get_default (node : Element) (key default : pystr) : pystr :=
  match el_get node key with Some v => v | None => default end.

(** [node.findall(tag)]: the children with that tag, in document order. *)
Definition el_findall (node : Element) (tag : pystr) : list Element :=
  filter (fun c => pystr_eqb (el_tag c) tag) (el_children node).

(** [node.find(tag)]: the first child with that tag, or [None]. *)
Definition el_find (node : Element) (tag : pystr) : option Element :=
  List.find (fun c => pystr_eqb (el_tag c) tag) (el_children node).

(** [node.find(tag)] where [node] itself may be [None]. *)
Definition opt_find (node : option Element) (tag : pystr) : outcome (option Element) :=
  match node with
  | Some n => Ret (el_find n tag)
  | None =>
      Raise (mkExn AttributeError
               (str "'NoneType' object has no attribute 'find'"))
  end.

(** [fcontent_node is not None and fcontent_node.text] *)
Definition has_text (fcontent_node : option Element) : bool :=
  match fcontent_node with
  | Some n => truthy_opt (el_text n)
  | None => false
  end.

Definition text_of (fcontent_node : option Element) : pystr :=
  match fcontent_node with
  | Some n => from_opt (el_text n)
  | None => []
  end.

(** ** Progress events *)

Record event := mkEvent {
  action : pystr;
  filename : pystr;
  path : pystr;
  result : pystr
}.

Definition ACTION_DONE_TOKEN : pystr := str "PROCESS_DONE".

(** What a run leaves behind: the events put on the queue and, as a ghost
    record, each entry into an [except] clause, named by the line of the
    clause in [RecoveryUSBMaker.py], with the exception it caught, and the
    end of that clause. *)
Inductive item :=
  | Emit (ev : event)
  | Caught (line : nat) (e : exn)
  | Handled (line : nat).

(** The queue as the consumer sees it. *)
Fixpoint queue_of (t : list item) : list event :=
  match t with
  | [] => []
  | Emit ev :: r => ev :: queue_of r
  | Caught _ _ :: r => queue_of r
  | Handled _ :: r => queue_of r
  end.

(** The result of [subprocess.run(..., capture_output=True, text=True)]. *)
Record completed_process := mkProc {
  returncode : Z;
  stdout : pystr;
  stderr : pystr
}.

(** ** The platform *)

(** The operating system under the program, over a type [W] of its
    states. Queries read the state, operations change it and may raise;
    the [os.path] functions and the case mappings of [str] are pure. *)
Class Platform (W : Type) := {
  str_upper : pystr -> pystr;
  str_lower : pystr -> pystr;
  path_join : pystr -> pystr -> pystr;
  path_dirname : pystr -> pystr;
  path_basename : pystr -> pystr;
  path_splitext_root : pystr -> pystr;
  path_exists : pystr -> W -> bool;
  path_isdir : pystr -> W -> bool;
  os_makedirs : pystr -> W -> outcome unit * W;
  os_rename : pystr -> pystr -> W -> outcome unit * W;
  os_listdir : pystr -> W -> outcome (list pystr) * W;
  shutil_rmtree : pystr -> W -> outcome unit * W;
  shutil_copytree : pystr -> pystr -> W -> outcome unit * W;
  shutil_copy2 : pystr -> pystr -> W -> outcome unit * W;
  write_text : pystr -> pystr -> W -> outcome unit * W;
  read_text : pystr -> W -> outcome pystr * W;
  read_text_ignore : pystr -> W -> outcome pystr * W;
  subprocess_run : list pystr -> option pystr -> W -> outcome completed_process * W;
  et_parse : pystr -> W -> outcome Element * W
}.

(** ** The monad of the pipeline: state, exceptions and the trace *)

Section Pipeline.

Context {W : Type} {P : Platform W}.

Definition M (A : Type) : Type := W -> outcome A * W * list item.

Definition ret {A} (a : A) : M A := fun w => (Ret a, w, []).

Definition bind {A B} (m : M A) (k : A -> M B) : M B :=
  fun w =>
    match m w with
    | (Ret a, w1, t1) =>
        match k a w1 with
        | (r, w2, t2) => (r, w2, t1 ++ t2)
        end
    | (Raise e, w1, t1) => (Raise e, w1, t1)
    end.

Definition raise {A} (e : exn) : M A := fun w => (Raise e, w, []).

(** An operation of the platform. *)
Definition op {A} (f : W -> outcome A * W) : M A :=
  fun w => match f w with (r, w1) => (r, w1, []) end.

(** A query of the platform. *)
Definition query {A} (f : W -> A) : M A := fun w => (Ret (f w), w, []).

(** A pure computation that may raise. *)
Definition lift {A} (o : outcome A) : M A := fun w => (o, w, []).

(** [log_queue.put(ev)] *)
Definition put (ev : event) : M unit := fun w => (Ret tt, w, [Emit ev]).

(** [try: m / except ...: clause e]: [clause] gives the line of the
    [except] clause that takes the exception and what it runs. *)
Definition try_except {A} (m : M A) (clause : exn -> nat * M A) : M A :=
  fun w =>
    match m w with
    | (Ret a, w1, t1) => (Ret a, w1, t1)
    | (Raise e, w1, t1) =>
        match snd (clause e) w1 with
        | (r, w2, t2) =>
            (r, w2, t1 ++ Caught (fst (clause e)) e :: t2 ++ [Handled (fst (clause e))])
        end
    end.

(** [try: m / except Exception as e: h e], the clause at [line]. *)
Definition try_catch {A} (line : nat) (m : M A) (h : exn -> M A) : M A :=
  try_except m (fun e => (line, h e)).

(** [try: m / finally: f] *)
Definition try_finally {A} (m : M A) (f : M unit) : M A :=
  fun w =>
    match m w with
    | (r, w1, t1) =>
        match f w1 with
        | (Ret _, w2, t2) => (r, w2, t1 ++ t2)
        | (Raise e, w2, t2) => (Raise e, w2, t1 ++ t2)
        end
    end.

(** [for x in l: body x] *)
Fixpoint for_each {A} (body : A -> M unit) (l : list A) : M unit :=
  match l with
  | [] => ret tt
  | x :: r => bind (body x) (fun _ => for_each body r)
  end.

Notation "'do' x <- m ; k" := (bind m (fun x => k))
  (at level 10, x name, m at level 100, k at level 200).
Notation "m ;; k" := (bind m (fun _ => k))
  (at level 100, k at level 200, right associativity).

Definition log (a : string) (filename path result : pystr) : M unit :=
  put (mkEvent (str a) filename path result).

(** *** Post-processing *)

(** The loop over the patch directory (step 3): [Some filename] when a
    CRI/IMZ pair was copied (the loop then stops), else [None]. *)
Fixpoint cri_loop (patch_source target_rec_dir : pystr) (patch_files : list pystr)
  : M (option pystr) :=
  match patch_files with
  | [] => ret None
  | filename :: rest =>
      if endswith (str ".cri") (str_lower filename) then
        let cri_path := path_join patch_source filename in
        do is_arm <-
          try_catch 119
            (do content <- op (read_text_ignore cri_path);
             let content := str_upper content in
             ret (contains (str "ARM") content
                  && (contains (str "OS") content
                      || contains (str "PLATFORM") content)))
            (fun _ => ret false);
        if is_arm then
          log "SKIP" filename [] (str "ARM Architecture detected") ;;
          cri_loop patch_source target_rec_dir rest
        else
          let base_name := path_splitext_root filename in
          let imz_filename := base_name ++ str ".IMZ" in
          let imz_path := path_join patch_source imz_filename in
          do ex <- query (path_exists imz_path);
          if ex then
            op (shutil_copy2 cri_path target_rec_dir) ;;
            op (shutil_copy2 imz_path target_rec_dir) ;;
            log "COPY" (filename ++ str " & .IMZ") (str "RECOVERY")
                (str "Copied from Patch") ;;
            ret (Some filename)
          else cri_loop patch_source target_rec_dir rest
      else cri_loop patch_source target_rec_dir rest
  end.

(** The header of the backup index: its first four lines. *)
Definition read_header (org_text : pystr) : outcome (list pystr) :=
  next_lines 4 (readlines org_text).

(** The lines written back: the header in place of the first four lines,
    blank lines removed. *)
Definition final_lines (header_lines content_lines : list pystr) : list pystr :=
  let content_lines := slice_assign_prefix 4 content_lines header_lines in
  filter (fun line => truthy (strip line)) content_lines.

(** [f.writelines(lines)] writes their concatenation. *)
Definition writelines (lines : list pystr) : pystr := concat lines.

(** The body of the [try] of step 4; [true] when it left
    [post_process_files] through [return]. *)
Definition aod_processing (script_dir target_rec_dir aod_dat aod_org aod_stat
                           copied_cri_name : pystr) : M bool :=
  op (os_rename aod_dat aod_org) ;;
  let aodbuild_exe := path_join script_dir (str "aodbuild.exe") in
  do ex <- query (path_exists aodbuild_exe);
  if negb ex then
    log "ERROR" (str "aodbuild.exe") [] (str "Tool missing in script dir") ;;
    ret true
  else
    let cmd := [aodbuild_exe; str "/F:" ++ copied_cri_name; str "/P:AOD.ORG"] in
    do proc <- op (subprocess_run cmd (Some target_rec_dir));
    (if returncode proc =? 0 then
       log "EXEC" (str "aodbuild.exe") (str "RECOVERY") (str "Success")
     else
       log "EXEC" (str "aodbuild.exe") [] (str "Fail: " ++ stderr proc)) ;;
    do ex_stat <- query (path_exists aod_stat);
    if ex_stat then
      op (os_rename aod_stat aod_dat) ;;
      do org_text <- op (read_text aod_org);
      do header_lines <- lift (read_header org_text);
      do dat_text <- op (read_text aod_dat);
      let content_lines := readlines dat_text in
      op (write_text aod_dat (writelines (final_lines header_lines content_lines))) ;;
      log "MODIFY" (str "AOD.DAT") (str "RECOVERY") (str "Header updated & Cleaned") ;;
      ret false
    else
      log "ERROR" (str "aodstat.dat") [] (str "Not generated by aodbuild") ;;
      ret false.

Definition post_process_files (recovery_target patch_source script_dir : pystr)
  : M unit :=
  (* 1. Rename MFG -> mfg *)
  try_catch 86
    (let old_path := path_join recovery_target (str "MFG") in
     let new_path := path_join recovery_target (str "mfg") in
     do d <- query (path_isdir old_path);
     if d then
       op (os_rename old_path new_path) ;;
       log "MODIFY" (str "Folder MFG") (str "root") (str "Renamed to 'mfg'")
     else ret tt)
    (fun e => log "MODIFY" (str "Folder MFG") [] (str "Error: " ++ exn_str e)) ;;
  do has_patch <-
    (if truthy patch_source then query (path_exists patch_source) else ret false);
  do copied_cri_name <-
    (if has_patch then
       (* 2. Overwrite EFI *)
       try_catch 99
         (let source_efi := path_join patch_source (str "EFI") in
          let target_efi := path_join recovery_target (str "EFI") in
          do d <- query (path_isdir source_efi);
          if d then
            do ex <- query (path_exists target_efi);
            (if ex then op (shutil_rmtree target_efi) else ret tt) ;;
            op (shutil_copytree source_efi target_efi) ;;
            log "COPY" (str "EFI Folder") (str "root") (str "Overwritten from Patch")
          else ret tt)
         (fun e => log "COPY" (str "EFI Folder") [] (str "Error: " ++ exn_str e)) ;;
       (* 3. Handle CRI and IMZ *)
       try_catch 136
         (let target_rec_dir := path_join recovery_target (str "RECOVERY") in
          op (os_makedirs target_rec_dir) ;;
          do patch_files <- op (os_listdir patch_source);
          cri_loop patch_source target_rec_dir patch_files)
         (fun e =>
            log "COPY" (str "CRI/IMZ") [] (str "Error: " ++ exn_str e) ;;
            ret None)
     else ret None);
  (* 4. AOD Processing *)
  do returned <-
    (if truthy_opt copied_cri_name then
       let target_rec_dir := path_join recovery_target (str "RECOVERY") in
       let aod_dat := path_join target_rec_dir (str "AOD.DAT") in
       let aod_org := path_join target_rec_dir (str "AOD.ORG") in
       let aod_stat := path_join target_rec_dir (str "aodstat.dat") in
       do ex <- query (path_exists aod_dat);
       if ex then
         try_catch 185
           (aod_processing script_dir target_rec_dir aod_dat aod_org aod_stat
              (from_opt copied_cri_name))
           (fun e =>
              log "ERROR" (str "AOD Processing") [] (exn_str e) ;;
              ret false)
       else ret false
     else ret false);
  if returned then ret tt
  else put (mkEvent (str "STATUS") [] [] (str "Post-processing complete.")).

(** *** The confirmation text of VALUES.TXT *)

(** One line of the content, appended to the lines collected so far. *)
Definition format_line (acc : list pystr) (line : pystr) : list pystr :=
  if truthy (strip line) then
    match unpack2 (split_once 58 line) with
    | Ret (key_part, val_part) =>
        let formatted_line := ljust 8 (strip key_part) ++ str ":" ++ [9] ++ strip val_part in
        acc ++ [formatted_line]
    | Raise _ (* except ValueError *) =>
        acc ++ [strip line]
    end
  else acc.

Definition format_values (text : pystr) : pystr :=
  let content := strip text in
  let content := replace_char 9 32 content in
  let values_txt_content := fold_left format_line (split_on 10 content) [] in
  join [10] values_txt_content.

(** The loop over the [file] nodes of [manualfiles]; it stops at the first
    VALUES.TXT node that has content. *)
Fixpoint values_txt_loop (file_nodes : list Element) : option pystr :=
  match file_nodes with
  | [] => None
  | file_node :: rest =>
      if pystr_eqb (str_upper (el_get_default file_node (str "name") []))
                   (str "VALUES.TXT") then
        let fcontent_node := el_find file_node (str "fcontent") in
        if has_text fcontent_node then Some (format_values (text_of fcontent_node))
        else values_txt_loop rest
      else values_txt_loop rest
  end.

Definition parse_rmf_for_dialog (rmf_path : pystr)
  : M (option Element * option pystr) :=
  try_catch 243
    (do ex <- query (path_exists rmf_path);
     if negb ex then
       log "ERROR" (path_basename rmf_path) [] (str "RMF file not found.") ;;
       ret (None, None)
     else
       do root <- op (et_parse rmf_path);
       match el_find root (str "recovery") with
       | None =>
           log "ERROR" (path_basename rmf_path) []
               (str "Node 'recovery' not found in RMF.") ;;
           ret (None, None)
       | Some recovery_node =>
           match el_find recovery_node (str "manualfiles") with
           | None => ret (Some root, None)
           | Some manualfiles_node =>
               ret (Some root,
                    values_txt_loop (el_findall manualfiles_node (str "file")))
           end
       end)
    (fun e =>
       log "ERROR" (path_basename rmf_path) [] (str "XML Parse Fail: " ++ exn_str e) ;;
       ret (None, None)).

(** *** The executor *)

(** The test of line 271: a name and inline content. *)
Definition is_create_action (file_node : Element) : bool :=
  truthy_opt (el_get file_node (str "name"))
  && has_text (el_find file_node (str "fcontent")).

(** The test of line 294: a source. *)
Definition is_transfer_action (file_node : Element) : bool :=
  truthy_opt (el_get file_node (str "source")).

(** The body of the loop over [manualfiles] (lines 267-286). *)
Definition create_step (target_dir : pystr) (file_node : Element) : M unit :=
  let filename := el_get file_node (str "name") in
  let copypath_rel := strip_chars (str "/\") (el_get_default file_node (str "copypath") []) in
  let fcontent_node := el_find file_node (str "fcontent") in
  if is_create_action file_node then
    let filename := from_opt filename in
    let full_target_path := path_join (path_join target_dir copypath_rel) filename in
    op (os_makedirs (path_dirname full_target_path)) ;;
    try_catch 285
      (let log_msg :=
         if pystr_eqb (str_upper filename) (str "VALUES.TXT")
         then str "Content Verified (Written)" else str "Success" in
       op (write_text full_target_path (strip (text_of fcontent_node))) ;;
       log "CREATE" filename copypath_rel log_msg)
      (fun e => log "CREATE" filename copypath_rel (str "Error: " ++ exn_str e))
  else ret tt.

(** [x.strip().split('\n')[-1]] *)
Definition last_line (s : pystr) : pystr := last (split_on 10 (strip s)) [].

(** The body of the loop over [files] (lines 293-337). *)
Definition transfer_step (source_dir target_dir : pystr) (file_node : Element)
  : M unit :=
  let source_file := el_get file_node (str "source") in
  if negb (is_transfer_action file_node) then ret tt (* continue *)
  else
    let source_file := from_opt source_file in
    let copy_action := el_get file_node (str "copy") in
    let copypath_rel := strip_chars (str "/\") (el_get_default file_node (str "copypath") []) in
    let key := el_get file_node (str "key") in
    let name := el_get file_node (str "name") in
    let final_name := if truthy_opt name then from_opt name else path_basename source_file in
    let source_full_path := path_join source_dir source_file in
    let target_subdir := path_join target_dir copypath_rel in
    op (os_makedirs target_subdir) ;;
    do ex <- query (path_exists source_full_path);
    if negb ex then
      log "MISSING" source_file [] (str "Source not found") (* continue *)
    else
      match copy_action with
      | Some c =>
          if pystr_eqb c (str "1") then
            let target_full_path := path_join target_subdir final_name in
            try_catch 317
              (op (shutil_copy2 source_full_path target_full_path) ;;
               log "COPY" source_file copypath_rel (str "Success"))
              (fun e => log "COPY" source_file copypath_rel (str "Error: " ++ exn_str e))
          else if pystr_eqb c (str "0") then
            do password <- lift (encrypt_imz_password key);
            let cmd := [str "7z"; str "x"; source_full_path;
                        str "-o" ++ target_subdir; str "-y"] in
            let cmd := if truthy password then cmd ++ [str "-p" ++ password] else cmd in
            try_except
              (do proc <- op (subprocess_run cmd None);
               if returncode proc =? 0 then
                 log "UNPACK" source_file copypath_rel (str "Success")
               else
                 let out := if truthy (stderr proc) then stderr proc else stdout proc in
                 let error_output := last_line out in
                 log "UNPACK" source_file copypath_rel
                     (str "Fail (" ++ error_output ++ str ")"))
              (fun e =>
                 match exn_cls e with
                 | FileNotFoundError =>
                     (334%nat, log "UNPACK" (str "7z.exe") [] (str "Not Found in Path"))
                 | _ =>
                     (336%nat, log "UNPACK" source_file [] (str "Exception: " ++ exn_str e))
                 end)
          else ret tt
      | None => ret tt
      end.

(** The worker from line 252 on, for the directory [script_dir] that
    line 250 found. Line 250 itself, which stands before the [try] and
    can raise, is in [run_recovery_process_thread] below. *)
Definition run_recovery_process (script_dir : pystr) (rmf_root : Element)
    (source_dir patch_dir target_dir : pystr) : M unit :=
  try_finally
    (try_catch 344
       ((* 1. Create Target Directory *)
        op (os_makedirs target_dir) ;;
        log "INIT" (str "Target Dir") target_dir (str "Created/Verified") ;;
        let recovery_node := el_find rmf_root (str "recovery") in
        (* 2. Handle 'manualfiles' (CREATE) *)
        do manualfiles_node <- lift (opt_find recovery_node (str "manualfiles"));
        (match manualfiles_node with
         | Some manualfiles_node =>
             for_each (create_step target_dir) (el_findall manualfiles_node (str "file"))
         | None => ret tt
         end) ;;
        (* 3. Handle 'files' (COPY / UNPACK) *)
        do files_node <- lift (opt_find recovery_node (str "files"));
        (match files_node with
         | Some files_node =>
             let all_files := el_findall files_node (str "file") in
             for_each (transfer_step source_dir target_dir) all_files
         | None => ret tt
         end) ;;
        (* 4. Post-Processing *)
        post_process_files target_dir patch_dir script_dir ;;
        log "STATUS" [] [] (str "Recovery Creation Completed!"))
       (fun e => log "FATAL" (str "Main Loop") [] (exn_str e)))
    (put (mkEvent ACTION_DONE_TOKEN [] [] (str "Finished"))).

(** The executor on an action list, as the spec has it: the worker with
    its two loops running over the lists [creates] and [transfers], in
    place of the file nodes of the manifest. *)
Definition run_action_list (script_dir : pystr) (rmf_root : Element)
    (creates transfers : list Element)
    (source_dir patch_dir target_dir : pystr) : M unit :=
  try_finally
    (try_catch 344
       (op (os_makedirs target_dir) ;;
        log "INIT" (str "Target Dir") target_dir (str "Created/Verified") ;;
        let recovery_node := el_find rmf_root (str "recovery") in
        do manualfiles_node <- lift (opt_find recovery_node (str "manualfiles"));
        for_each (create_step target_dir) creates ;;
        do files_node <- lift (opt_find recovery_node (str "files"));
        for_each (transfer_step source_dir target_dir) transfers ;;
        post_process_files target_dir patch_dir script_dir ;;
        log "STATUS" [] [] (str "Recovery Creation Completed!"))
       (fun e => log "FATAL" (str "Main Loop") [] (exn_str e)))
    (put (mkEvent ACTION_DONE_TOKEN [] [] (str "Finished"))).

End Pipeline.

(** ** The process

    [sys.argv[0]] and [os.path.abspath]. For a relative path [abspath]
    asks for the working directory, and [os.getcwd()] raises
    [FileNotFoundError] when that directory has been removed. *)
Class Process (W : Type) := {
  sys_argv0 : pystr;
  path_abspath : pystr -> W -> outcome pystr
}.

Section Worker.

Context {W : Type} {P : Platform W} {R : Process W}.

(** [run_recovery_process(rmf_root, source_dir, patch_dir, target_dir,
    log_queue)] from its first line, as the thread started at line 762
    runs it. Line 250,
    [script_dir = os.path.dirname(os.path.abspath(sys.argv[0]))], stands
    before the [try] of line 255: an exception there leaves the function
    at once, past the [except] and the [finally]. *)
Definition run_recovery_process_thread (rmf_root : Element)
    (source_dir patch_dir target_dir : pystr) : M unit :=
  bind (op (fun w => (path_abspath sys_argv0 w, w)))
       (fun script_path =>
          let script_dir := path_dirname script_path in
          run_recovery_process script_dir rmf_root source_dir patch_dir target_dir).

End Worker.

(** ** A concrete platform

    A POSIX-like file system with no external tool installed, on which
    the program is run on concrete inputs. A file carries its text and the
    element tree that [ET.parse] makes of it, if it is well-formed XML. *)

Module Posix.

Inductive node :=
  | Dir
  | File (content : pystr) (doc : option Element).

Definition fs := list (pystr * node).

Definition is_slash (c : Z) : bool := c =? 47.

Definition upper (s : pystr) : pystr :=
  map (fun c => if (97 <=? c) && (c <=? 122) then c - 32 else c) s.

Definition lower (s : pystr) : pystr :=
  map (fun c => if (65 <=? c) && (c <=? 90) then c + 32 else c) s.

(** [posixpath.join] *)
Definition join (a b : pystr) : pystr :=
  if startswith [47] b then b
  else if negb (truthy a) || endswith [47] a then a ++ b
  else a ++ [47] ++ b.

Fixpoint take_while (p : Z -> bool) (s : pystr) : pystr :=
  match s with
  | [] => []
  | c :: r => if p c then c :: take_while p r else []
  end.

(** [posixpath.basename] *)
Definition basename (p : pystr) : pystr :=
  rev (take_while (fun c => negb (is_slash c)) (rev p)).

(** [posixpath.dirname] *)
Definition dirname (p : pystr) : pystr :=
  let head := firstn (length p - length (basename p)) p in
  if forallb is_slash head then head else rstrip_by is_slash head.

(** [posixpath.splitext(p)[0]] *)
Definition splitext_root (p : pystr) : pystr :=
  let b := basename p in
  let ext := rev (take_while (fun c => negb (c =? 46)) (rev b)) in
  if (length ext <? length b)%nat then
    let r := firstn (length b - length ext - 1) b in
    if forallb (fun c => c =? 46) r then p
    else firstn (length p - length ext - 1) p
  else p.

Definition norm (p : pystr) : pystr :=
  if forallb is_slash p then p else rstrip_by is_slash p.

Fixpoint lookup (p : pystr) (w : fs) : option node :=
  match w with
  | [] => None
  | (q, n) :: r => if pystr_eqb q p then Some n else lookup p r
  end.

Definition remove (p : pystr) (w : fs) : fs :=
  filter (fun e => negb (pystr_eqb (fst e) p)) w.

Definition set (p : pystr) (n : node) (w : fs) : fs := (p, n) :: remove p w.

Definition exists_ (p : pystr) (w : fs) : bool :=
  match lookup (norm p) w with Some _ => true | None => false end.

Definition isdir (p : pystr) (w : fs) : bool :=
  match lookup (norm p) w with Some Dir => true | _ => false end.

Definition os_error (msg : string) (p : pystr) : exn :=
  mkExn OSError (str msg ++ str "'" ++ p ++ str "'").

Definition not_found (p : pystr) : exn :=
  mkExn FileNotFoundError
        (str "[Errno 2] No such file or directory: " ++ str "'" ++ p ++ str "'").

(** The path itself and the directories above it, outermost first. *)
Fixpoint prefixes (acc : pystr) (comps : list pystr) : list pystr :=
  match comps with
  | [] => []
  | c :: r => let a := join acc c in a :: prefixes a r
  end.

Definition ancestors (p : pystr) : list pystr :=
  prefixes (if startswith [47] p then [47] else [])
           (filter truthy (split_on 47 p)).

Fixpoint make_all (ps : list pystr) (w : fs) : outcome unit * fs :=
  match ps with
  | [] => (Ret tt, w)
  | a :: r =>
      match lookup a w with
      | Some Dir => make_all r w
      | Some (File _ _) =>
          match r with
          | [] => (Raise (os_error "[Errno 17] File exists: " a), w)
          | below :: _ => (Raise (os_error "[Errno 20] Not a directory: " below), w)
          end
      | None => make_all r ((a, Dir) :: w)
      end
  end.

(** [os.makedirs(p, exist_ok=True)] *)
Definition makedirs (p : pystr) (w : fs) : outcome unit * fs :=
  if truthy p then make_all (ancestors p) w
  else (Raise (not_found p), w).

Definition parent_ok (p : pystr) (w : fs) : bool :=
  negb (truthy (dirname p)) || isdir (dirname p) w.

Definition put_file (p : pystr) (n : node) (w : fs) : outcome unit * fs :=
  match lookup (norm p) w with
  | Some Dir => (Raise (os_error "[Errno 21] Is a directory: " p), w)
  | _ => if parent_ok (norm p) w then (Ret tt, set (norm p) n w)
         else (Raise (not_found p), w)
  end.

Definition write (p text : pystr) (w : fs) : outcome unit * fs :=
  put_file p (File text None) w.

Definition read (p : pystr) (w : fs) : outcome pystr * fs :=
  match lookup (norm p) w with
  | Some (File t _) => (Ret t, w)
  | Some Dir => (Raise (os_error "[Errno 21] Is a directory: " p), w)
  | None => (Raise (not_found p), w)
  end.

Definition parse (p : pystr) (w : fs) : outcome Element * fs :=
  match lookup (norm p) w with
  | Some (File _ (Some root)) => (Ret root, w)
  | Some (File _ None) => (Raise (mkExn ValueError (str "syntax error: line 1, column 0")), w)
  | Some Dir => (Raise (os_error "[Errno 21] Is a directory: " p), w)
  | None => (Raise (not_found p), w)
  end.

Definition copy2 (src dst : pystr) (w : fs) : outcome unit * fs :=
  match lookup (norm src) w with
  | Some (File t d) =>
      let dst := if isdir dst w then join dst (basename src) else dst in
      put_file dst (File t d) w
  | Some Dir => (Raise (os_error "[Errno 21] Is a directory: " src), w)
  | None => (Raise (not_found src), w)
  end.

(** [q] is [p] or lies below it. *)
Definition under (p q : pystr) : bool :=
  pystr_eqb q p || startswith (p ++ [47]) q.

Definition rebase (a b q : pystr) : pystr := b ++ skipn (length a) q.

Definition rename_error (msg : string) (a b : pystr) : exn :=
  mkExn OSError (str msg ++ str "'" ++ a ++ str "' -> '" ++ b ++ str "'").

(** Something lies below the directory [p]. *)
Definition nonempty_dir (p : pystr) (w : fs) : bool :=
  existsb (fun e => startswith (p ++ [47]) (fst e)) w.

(** [os.rename]: the source must exist, and the parent of the
    destination; a file replaces a file, a directory replaces an empty
    directory, and every other meeting of the two raises. *)
Definition rename (a b : pystr) (w : fs) : outcome unit * fs :=
  let a := norm a in
  let b := norm b in
  let moved :=
    let kept := filter (fun e => negb (under b (fst e))) w in
    (Ret tt, map (fun e => if under a (fst e) then (rebase a b (fst e), snd e) else e) kept) in
  match lookup a w with
  | None =>
      (Raise (mkExn FileNotFoundError
                (str "[Errno 2] No such file or directory: '" ++ a ++ str "' -> '"
                 ++ b ++ str "'")), w)
  | Some src =>
      if pystr_eqb a b then (Ret tt, w)
      else if negb (parent_ok b w) then
        (Raise (mkExn FileNotFoundError
                  (str "[Errno 2] No such file or directory: '" ++ a ++ str "' -> '"
                   ++ b ++ str "'")), w)
      else
        match src, lookup b w with
        | File _ _, None => moved
        | Dir, None =>
            if under a b then (Raise (rename_error "[Errno 22] Invalid argument: " a b), w)
            else moved
        | File _ _, Some (File _ _) => moved
        | File _ _, Some Dir => (Raise (rename_error "[Errno 21] Is a directory: " a b), w)
        | Dir, Some (File _ _) => (Raise (rename_error "[Errno 20] Not a directory: " a b), w)
        | Dir, Some Dir =>
            if nonempty_dir b w
            then (Raise (rename_error "[Errno 39] Directory not empty: " a b), w)
            else moved
        end
  end.

Definition listdir (p : pystr) (w : fs) : outcome (list pystr) * fs :=
  if isdir p w then
    (Ret (map (fun e => basename (fst e))
              (filter (fun e => pystr_eqb (dirname (fst e)) (norm p)) w)), w)
  else (Raise (not_found p), w).

Definition rmtree (p : pystr) (w : fs) : outcome unit * fs :=
  if isdir p w then (Ret tt, filter (fun e => negb (under (norm p) (fst e))) w)
  else (Raise (not_found p), w).

Definition copytree (a b : pystr) (w : fs) : outcome unit * fs :=
  let a := norm a in
  let b := norm b in
  if negb (isdir a w) then (Raise (not_found a), w)
  else if exists_ b w then (Raise (os_error "[Errno 17] File exists: " b), w)
  else (Ret tt,
        map (fun e => (rebase a b (fst e), snd e)) (filter (fun e => under a (fst e)) w)
        ++ w).

(** No program can be started on this machine. *)
Definition run (cmd : list pystr) (cwd : option pystr) (w : fs)
  : outcome completed_process * fs :=
  let prog := hd [] cmd in
  if exists_ prog w then (Raise (os_error "[Errno 8] Exec format error: " prog), w)
  else (Raise (not_found prog), w).

#[export] Instance platform : Platform fs := {|
  str_upper := upper;
  str_lower := lower;
  path_join := join;
  path_dirname := dirname;
  path_basename := basename;
  path_splitext_root := splitext_root;
  path_exists := exists_;
  path_isdir := isdir;
  os_makedirs := makedirs;
  os_rename := rename;
  os_listdir := listdir;
  shutil_rmtree := rmtree;
  shutil_copytree := copytree;
  shutil_copy2 := copy2;
  write_text := write;
  read_text := read;
  read_text_ignore := read;
  subprocess_run := run;
  et_parse := parse
|}.

(** The process: started as [python RecoveryUSBMaker.py] in the directory
    [/work]. Relative paths are kept in the file system as the program
    names them; the working directory itself is the entry [/work], and
    [os.getcwd()] raises once it is not a directory any more. *)
Definition cwd : pystr := str "/work".

Definition argv0 : pystr := str "RecoveryUSBMaker.py".

Definition getcwd (w : fs) : outcome pystr :=
  if isdir cwd w then Ret cwd
  else Raise (mkExn FileNotFoundError (str "[Errno 2] No such file or directory")).

(** [posixpath.abspath], for paths without [.] and [..] components. *)
Definition abspath (p : pystr) (w : fs) : outcome pystr :=
  if startswith [47] p then Ret (norm p)
  else obind (getcwd w) (fun c => Ret (norm (join c p))).

#[export] Instance process : Process fs := {|
  sys_argv0 := argv0;
  path_abspath := abspath
|}.

End Posix.

(** ** Properties of traces *)

(** [ev] describes the failure [e]: its result text is the message of the
    exception, alone or after one of the prefixes the handlers use, or it
    names the missing archive tool. *)
Definition reports (e : exn) (ev : event) : bool :=
  pystr_eqb (result ev) (exn_str e)
  || pystr_eqb (result ev) (str "Error: " ++ exn_str e)
  || pystr_eqb (result ev) (str "Exception: " ++ exn_str e)
  || (match exn_cls e with FileNotFoundError => true | _ => false end
      && pystr_eqb (result ev) (str "Not Found in Path")).

(** Every [except] clause entered puts exactly one event on the queue,
    which describes the failure, before it ends; the clauses at the lines
    in [silent] are allowed to put nothing. *)
Fixpoint accounted (silent : nat -> bool) (t : list item) : bool :=
  match t with
  | [] => true
  | Emit _ :: r => accounted silent r
  | Caught l e :: Emit ev :: Handled l' :: r =>
      (l =? l')%nat && reports e ev && accounted silent r
  | Caught l e :: Handled l' :: r =>
      (l =? l')%nat && silent l && accounted silent r
  | _ => false
  end.

Definition no_silent_clause (l : nat) : bool := false.

(** The one silent clause of the program: line 119. *)
Definition classification_read (l : nat) : bool := (l =? 119)%nat.

Definition is_done (ev : event) : bool := pystr_eqb (action ev) ACTION_DONE_TOKEN.

Definition is_status (ev : event) : bool := pystr_eqb (action ev) (str "STATUS").

Definition has_action (a : string) (ev : event) : bool := pystr_eqb (action ev) (str a).

(** [l1] is [l2] with some elements left out, the order kept. *)
Inductive subseq {A} : list A -> list A -> Prop :=
  | subseq_nil : subseq [] []
  | subseq_keep x l1 l2 : subseq l1 l2 -> subseq (x :: l1) (x :: l2)
  | subseq_skip x l1 l2 : subseq l1 l2 -> subseq l1 (x :: l2).

(** ** The action list of a manifest *)

Definition file_nodes_of (manifest : Element) (section : string) : list Element :=
  match el_find manifest (str "recovery") with
  | Some recovery_node =>
      match el_find recovery_node (str section) with
      | Some n => el_findall n (str "file")
      | None => []
      end
  | None => []
  end.

(** The create-type and transfer-type nodes the executor acts on. *)
Definition create_actions (manifest : Element) : list Element :=
  filter is_create_action (file_nodes_of manifest "manualfiles").

Definition transfer_actions (manifest : Element) : list Element :=
  filter is_transfer_action (file_nodes_of manifest "files").

(** ** The header splice as one function of the two files *)

Definition splice (org_text dat_text : pystr) : outcome pystr :=
  obind (read_header org_text) (fun header_lines =>
  Ret (writelines (final_lines header_lines (readlines dat_text)))).

Definition nonblank (line : pystr) : bool := truthy (strip line).

(** A complete line: it ends with its newline. *)
Definition ended (line : pystr) : bool := endswith [10] line.

(** Every line but the last is complete, as in the lines of a file. *)
Fixpoint ended_but_last (lines : list pystr) : bool :=
  match lines with
  | [] => true
  | line :: rest =>
      match rest with
      | [] => true
      | _ :: _ => ended line && ended_but_last rest
      end
  end.

(** ** The confirmation text as the specification words it

    Each non-blank line with a colon becomes the label, padded to 8
    characters, a colon, a tab and the value; a non-blank line without a
    colon is kept verbatim; blank lines are dropped. *)
Definition stated_line (line : pystr) : option pystr :=
  if nonblank line then
    match split_once 58 line with
    | [label; value] => Some (ljust 8 label ++ [58] ++ [9] ++ value)
    | _ => Some line
    end
  else None.

Fixpoint keep_some {A} (l : list (option A)) : list A :=
  match l with
  | [] => []
  | Some x :: r => x :: keep_some r
  | None :: r => keep_some r
  end.

Definition stated_confirmation_text (content : pystr) : pystr :=
  join [10] (keep_some (map stated_line (split_on 10 content))).

(** What the program makes of one non-blank line of VALUES.TXT. *)
Definition rendered (line out : pystr) : Prop :=
  (forall label value,
     line = label ++ 58 :: value -> ~ In 58 label ->
     out = ljust 8 (strip label) ++ [58; 9] ++ strip value)
  /\ (~ In 58 line -> out = strip line).

Definition is_values_txt {W} {P : Platform W} (file_node : Element) : bool :=
  pystr_eqb (str_upper (el_get_default file_node (str "name") [])) (str "VALUES.TXT")
  && has_text (el_find file_node (str "fcontent")).

(** ** The code point the transform produces at position [i] of [s] *)
Definition cipher_code (s : pystr) (i : nat) : Z :=
  ord (nth (Z.to_nat (ord (nth i s 0) mod 13)) IMZ_PW_CHARS 0) - (Z.of_nat i mod 3) + 2.

(** ** Well-behaved computations *)

(** A trace in which every failure caught is reported, the classification
    read apart, and in which the done token does not occur. *)
Definition quiet (t : list item) : Prop :=
  accounted classification_read t = true
  /\ forallb (fun ev => negb (is_done ev)) (queue_of t) = true.

(** A computation all of whose traces are [quiet]. *)
Definition sound {W A} (m : W -> outcome A * W * list item) : Prop :=
  forall w, quiet (snd (m w)).

(** A computation that never lets an exception escape. *)
Definition returns {W A} (m : W -> outcome A * W * list item) : Prop :=
  forall w, exists a, fst (fst (m w)) = Ret a.

(** A handler that puts one event describing the exception, and nothing else. *)
Definition reporting {W A} (h : exn -> W -> outcome A * W * list item) : Prop :=
  forall e w, exists ev,
    snd (h e w) = [Emit ev] /\ reports e ev = true /\ is_done ev = false.

(** ** Concrete runs *)

Module Scenario.

Local Open Scope string_scope.

(** An element from literals. *)
Definition xml (tag : string) (attrs : list (string * string))
    (text : option string) (children : list Element) : Element :=
  mkElement (str tag) (map (fun kv => (str (fst kv), str (snd kv))) attrs)
            (option_map str text) children.

Definition file (attrs : list (string * string)) (content : option string) : Element :=
  xml "file" attrs None
      match content with
      | Some c => [xml "fcontent" [] (Some c) []]
      | None => []
      end.

Definition manifest (manualfiles files : list Element) : Element :=
  xml "rmf" [] None
      [xml "recovery" [] None
           [xml "manualfiles" [] None manualfiles; xml "files" [] None files]].

Definition run (m : Element) (patch_dir : string) (w : Posix.fs)
  : outcome unit * Posix.fs * list item :=
  run_recovery_process (P:=Posix.platform) (str "APP") m (str "SRC") (str patch_dir) (str "USB") w.

(** The source tree: one file, [a.bin]. *)
Definition source_tree : Posix.fs :=
  [(str "SRC", Posix.Dir); (str "SRC/a.bin", Posix.File (str "payload") None)].

(** A create action whose destination directory, [USB/X], is a file: the
    first action wrote it. *)
Definition blocked_create : Element :=
  manifest
    [file [("name", "X"); ("copypath", "")] (Some "hello");
     file [("name", "f.txt"); ("copypath", "X")] (Some "data")]
    [file [("source", "a.bin"); ("copy", "1"); ("copypath", "RECOVERY")] None].

(** A transfer action whose source is missing and whose destination
    directory, [USB/DATA], is a file. *)
Definition blocked_missing : Element :=
  manifest
    [file [("name", "DATA"); ("copypath", "")] (Some "hello")]
    [file [("source", "missing.bin"); ("copy", "1"); ("copypath", "DATA")] None;
     file [("source", "a.bin"); ("copy", "1"); ("copypath", "RECOVERY")] None].

(** The same transfer actions with a destination that can be created. *)
Definition plain_missing : Element :=
  manifest
    []
    [file [("source", "missing.bin"); ("copy", "1"); ("copypath", "DATA")] None;
     file [("source", "a.bin"); ("copy", "1"); ("copypath", "RECOVERY")] None].

Definition empty_manifest : Element := manifest [] [].

(** A patch directory in which [x.cri] cannot be read: it is a directory. *)
Definition unreadable_cri : Posix.fs :=
  [(str "PATCH", Posix.Dir); (str "PATCH/x.cri", Posix.Dir)].

(** A patch directory with a CRI/IMZ pair, a target with an index, and a
    program directory without [aodbuild.exe]. *)
Definition no_aodbuild : Posix.fs :=
  [(str "PATCH", Posix.Dir);
   (str "PATCH/a.cri", Posix.File (str "CPU=x64") None);
   (str "PATCH/a.IMZ", Posix.File (str "image") None);
   (str "USB", Posix.Dir);
   (str "USB/RECOVERY", Posix.Dir);
   (str "USB/RECOVERY/AOD.DAT", Posix.File (str "index") None);
   (str "APP", Posix.Dir)].

Definition ev (a f p r : string) : event := mkEvent (str a) (str f) (str p) (str r).

(** The machine after the working directory of the program, [/work], has
    been removed: the manifest, the source tree and the target are given
    by absolute paths and are all there. *)
Definition no_working_directory : Posix.fs :=
  [(str "/data", Posix.Dir);
   (str "/data/SRC", Posix.Dir);
   (str "/data/SRC/a.bin", Posix.File (str "payload") None);
   (str "/mnt", Posix.Dir);
   (str "/mnt/usb", Posix.Dir)].

(** The same machine with the working directory in place. *)
Definition working_directory : Posix.fs :=
  (str "/work", Posix.Dir) :: no_working_directory.

(** A manifest with five file nodes, of which three are actions: a create
    node without a name and a transfer node without a source are left
    out. *)
Definition named : Element := file [("name", "X"); ("copypath", "")] (Some "hello").

Definition nameless : Element := file [("copypath", "")] (Some "nameless").

Definition lost : Element := file [("source", "missing.bin"); ("copy", "1")] None.

Definition mixed : Element :=
  manifest
    [named; nameless; file [("name", "Y"); ("copypath", "")] (Some "there")]
    [file [("copy", "1")] None; lost].

(** One copy action. *)
Definition one_copy : Element :=
  manifest [] [file [("source", "a.bin"); ("copy", "1"); ("copypath", "RECOVERY")] None].

(** The worker thread on these machines. *)
Definition thread (w : Posix.fs) : outcome unit * Posix.fs * list item :=
  run_recovery_process_thread (P:=Posix.platform) (R:=Posix.process)
    one_copy (str "/data/SRC") [] (str "/mnt/usb") w.

End Scenario.

(** ** Concrete index files and a concrete VALUES.TXT *)

Module Sample.

Definition nl : pystr := [10].
Definition tab : pystr := [9].

(** A backup index whose second line is blank. *)
Definition org_blank : pystr :=
  str "A" ++ nl ++ nl ++ str "C" ++ nl ++ str "D" ++ nl ++ str "E" ++ nl.

(** A backup index of five lines, none blank. *)
Definition org_full : pystr :=
  str "A" ++ nl ++ str "B" ++ nl ++ str "C" ++ nl ++ str "D" ++ nl ++ str "E" ++ nl.

(** A backup index of four lines, the last without its newline. *)
Definition org_open : pystr :=
  str "A" ++ nl ++ str "B" ++ nl ++ str "C" ++ nl ++ str "D".

(** A rebuilt index of five lines, none blank. *)
Definition dat_five : pystr :=
  str "1" ++ nl ++ str "2" ++ nl ++ str "3" ++ nl ++ str "4" ++ nl ++ str "E" ++ nl.

(** A rebuilt index of six lines, the fifth blank. *)
Definition dat : pystr :=
  str "1" ++ nl ++ str "2" ++ nl ++ str "3" ++ nl ++ str "4" ++ nl
  ++ str "  " ++ nl ++ str "6" ++ nl.

(** A VALUES.TXT of two lines: one with a colon, one without; both hold a tab. *)
Definition values_txt : pystr :=
  str "0) Name:" ++ tab ++ str "Unit Test" ++ nl ++ str "Disc" ++ tab ++ str "1 of 1".

Definition values_node : Element :=
  mkElement (str "file") [(str "name", str "VALUES.TXT"); (str "copypath", [])] None
    [mkElement (str "fcontent") [] (Some values_txt) []].

Definition manualfiles_node : Element :=
  mkElement (str "manualfiles") [] None [values_node].

Definition recovery_node : Element :=
  mkElement (str "recovery") [] None
    [manualfiles_node; mkElement (str "files") [] None []].

Definition values_manifest : Element :=
  mkElement (str "rmf") [] None [recovery_node].

(** A machine holding that manifest as [job.rmf]. *)
Definition desk : Posix.fs := [(str "job.rmf", Posix.File [] (Some values_manifest))].

End Sample.

(** A line as [readlines] gives it: non-empty, a newline at its end or
    nowhere. *)
Inductive line_shape : pystr -> Prop :=
  | line_ended body : ~ In 10 body -> line_shape (body ++ [10])
  | line_open c body : ~ In 10 (c :: body) -> line_shape (c :: body).

(** ** How [post_process_files] ends *)

Definition status_event : event :=
  mkEvent (str "STATUS") [] [] (str "Post-processing complete.").

Definition tool_missing_event : event :=
  mkEvent (str "ERROR") (str "aodbuild.exe") [] (str "Tool missing in script dir").

Definition ends_with (ev : event) (t : list item) : Prop :=
  exists t', t = t' ++ [Emit ev].

(** A computation that returns, its trace ending with one of the two events. *)
Definition closing {W} (m : W -> outcome unit * W * list item) : Prop :=
  forall w,
    fst (fst (m w)) = Ret tt
    /\ (ends_with status_event (snd (m w)) \/ ends_with tool_missing_event (snd (m w))).

(** A computation that does not return [true]. *)
Definition never_true {W} (m : W -> outcome bool * W * list item) : Prop :=
  forall w, fst (fst (m w)) <> Ret true.

(** A computation whose trace ends with the tool-missing event whenever it
    returns [true]. *)
Definition true_after_error {W} (m : W -> outcome bool * W * list item) : Prop :=
  forall w, fst (fst (m w)) = Ret true -> ends_with tool_missing_event (snd (m w)).

(** ** The action tags of the events *)

(** The tags the executor and the post-processor put before the run ends. *)
Definition body_tags : list pystr :=
  map str ["INIT"; "CREATE"; "COPY"; "UNPACK"; "MODIFY"; "SKIP"; "MISSING";
           "ERROR"; "EXEC"; "STATUS"]%string.

(** All the tags of a run. *)
Definition run_tags : list pystr := body_tags ++ [str "FATAL"; ACTION_DONE_TOKEN].

Definition tagged (tags : list pystr) (ev : event) : bool :=
  existsb (pystr_eqb (action ev)) tags.

(** A computation all of whose events satisfy [Q]. *)
Definition emits {W A} (Q : event -> bool) (m : W -> outcome A * W * list item) : Prop :=
  forall w, forallb Q (queue_of (snd (m w))) = true.

Definition done_event : event := mkEvent ACTION_DONE_TOKEN [] [] (str "Finished").

Definition completed_event : event :=
  mkEvent (str "STATUS") [] [] (str "Recovery Creation Completed!").

Definition fatal_event (e : exn) : event :=
  mkEvent (str "FATAL") (str "Main Loop") [] (exn_str e).

Definition init_event (target_dir : pystr) : event :=
  mkEvent (str "INIT") (str "Target Dir") target_dir (str "Created/Verified").

(** ** Concrete inputs for the worker *)

Module Edge.

(** A machine on which the target path [SRC/a.bin] is a file. *)
Definition run_into_file (m : Element) : outcome unit * Posix.fs * list item :=
  run_recovery_process (P:=Posix.platform) (str "APP") m (str "SRC") [] (str "SRC/a.bin")
    Scenario.source_tree.

(** A manifest root without a [recovery] element. *)
Definition no_recovery : Element := Scenario.xml "rmf" [] None [].

End Edge.

(** A computation whose trace ends with [ev] whenever it returns. *)
Definition ends_in {W A} (ev : event) (m : W -> outcome A * W * list item) : Prop :=
  forall w, (exists a, fst (fst (m w)) = Ret a) -> ends_with ev (snd (m w)).

(** ** One transfer action, its parts named *)

Definition transfer_source (file_node : Element) : pystr :=
  from_opt (el_get file_node (str "source")).

Definition transfer_copypath (file_node : Element) : pystr :=
  strip_chars (str "/\") (el_get_default file_node (str "copypath") []).

(** The 7z command line of an unpack action: the password argument is
    there when the key is, and holds the transformed key. *)
Definition unpack_command (source_full_path target_subdir : pystr)
    (key : option pystr) : list pystr :=
  [str "7z"; str "x"; source_full_path; str "-o" ++ target_subdir; str "-y"]
  ++ (if truthy_opt key
      then [str "-p" ++ map (cipher_code (from_opt key)) (seq 0 (length (from_opt key)))]
      else []).

Definition unpack_event (file_node : Element) (r : outcome completed_process)
  : list item :=
  let source_file := transfer_source file_node in
  let copypath_rel := transfer_copypath file_node in
  match r with
  | Ret proc =>
      if returncode proc =? 0 then
        [Emit (mkEvent (str "UNPACK") source_file copypath_rel (str "Success"))]
      else
        [Emit (mkEvent (str "UNPACK") source_file copypath_rel
                 (str "Fail ("
                  ++ last_line (if truthy (stderr proc) then stderr proc else stdout proc)
                  ++ str ")"))]
  | Raise e =>
      match exn_cls e with
      | FileNotFoundError =>
          [Caught 334 e;
           Emit (mkEvent (str "UNPACK") (str "7z.exe") [] (str "Not Found in Path"));
           Handled 334]
      | _ =>
          [Caught 336 e;
           Emit (mkEvent (str "UNPACK") source_file [] (str "Exception: " ++ exn_str e));
           Handled 336]
      end
  end.

Definition copy_event (file_node : Element) (r : outcome unit) : list item :=
  let source_file := transfer_source file_node in
  let copypath_rel := transfer_copypath file_node in
  match r with
  | Ret _ => [Emit (mkEvent (str "COPY") source_file copypath_rel (str "Success"))]
  | Raise e =>
      [Caught 317 e;
       Emit (mkEvent (str "COPY") source_file copypath_rel (str "Error: " ++ exn_str e));
       Handled 317]
  end.

Module Transfer.

Local Open Scope string_scope.

(** The target directory made, the source tree beside it. *)
Definition ready : Posix.fs := (str "USB", Posix.Dir) :: Scenario.source_tree.

Definition copy_node : Element :=
  Scenario.file [("source", "a.bin"); ("copy", "1"); ("copypath", "RECOVERY");
                 ("name", "b.bin")] None.

Definition unpack_node : Element :=
  Scenario.file [("source", "a.bin"); ("copy", "0"); ("copypath", "RECOVERY");
                 ("key", "an")] None.

Definition odd_node : Element :=
  Scenario.file [("source", "a.bin"); ("copy", "2"); ("copypath", "RECOVERY")] None.

Definition step (n : Element) : outcome unit * Posix.fs * list item :=
  transfer_step (P:=Posix.platform) (str "SRC") (str "USB") n ready.

End Transfer.

(** ** Events of the loader and of post-processing, named *)

Definition loader_error (rmf_path result : pystr) {W} {P : Platform W} : event :=
  mkEvent (str "ERROR") (path_basename rmf_path) [] result.

Definition pair_copied_event (filename : pystr) : event :=
  mkEvent (str "COPY") (filename ++ str " & .IMZ") (str "RECOVERY") (str "Copied from Patch").

Definition skip_event (filename : pystr) : event :=
  mkEvent (str "SKIP") filename [] (str "ARM Architecture detected").

(** The events of the loop over the patch directory up to an adoption:
    SKIP events only, each for a listed recipe file. *)
Definition skips_only {W} {P : Platform W} (patch_files : list pystr) (t : list item)
  : Prop :=
  Forall (fun ev => exists f, In f patch_files
                              /\ endswith (str ".cri") (str_lower f) = true
                              /\ ev = skip_event f)
         (queue_of t).

(** Truth value of a list: non-empty. *)
Definition truthy_list {A} (l : list A) : bool :=
  match l with [] => false | _ :: _ => true end.

(** Both files of the pair of the recipe [f] were copied: the image was
    there, [shutil.copy2] returned for the recipe and then for the image,
    and left the machine [w]. *)
Definition pair_copied {W} {P : Platform W} (patch_source target_rec_dir f : pystr)
    (w : W) : Prop :=
  let cri_path := path_join patch_source f in
  let imz_path := path_join patch_source (path_splitext_root f ++ str ".IMZ") in
  exists w1 w2,
    path_exists imz_path w1 = true
    /\ shutil_copy2 cri_path target_rec_dir w1 = (Ret tt, w2)
    /\ shutil_copy2 imz_path target_rec_dir w2 = (Ret tt, w).

(** What the loop over the patch directory may leave: a name adopted, both
    files of its pair copied and, last, the COPY event of the pair; before
    it, or otherwise, SKIP events of listed recipe files only. *)
Definition adoption {W} {P : Platform W} (patch_source target_rec_dir : pystr)
    (patch_files : list pystr) (r : outcome (option pystr) * W * list item) : Prop :=
  match r with
  | (Ret (Some f), w, t) =>
      In f patch_files
      /\ endswith (str ".cri") (str_lower f) = true
      /\ pair_copied patch_source target_rec_dir f w
      /\ exists t', t = t' ++ [Emit (pair_copied_event f)] /\ skips_only patch_files t'
  | (_, _, t) => skips_only patch_files t
  end.

(** ** The log of the interactive front end *)

(** A [dict] with [str] keys and values, as the queue carries them. *)
Definition dict := list (pystr * pystr).

(** [item.get(key, default)] *)
Definition dict_get (item : dict) (key default : pystr) : pystr :=
  match attrib_get key item with Some v => v | None => default end.

(** The dict that [log] puts on the queue for an event. *)
Definition event_dict (ev : event) : dict :=
  [(str "action", action ev); (str "filename", filename ev);
   (str "path", path ev); (str "result", result ev)].

(** ["{:<8} {:<25} {:<25} {:<20}".format(action, filename[:25], path[:25], result)] *)
Definition format_log (item : dict) : pystr :=
  let action := dict_get item (str "action") [] in
  let filename := dict_get item (str "filename") [] in
  let path := dict_get item (str "path") [] in
  let result := dict_get item (str "result") [] in
  let log_line :=
    ljust 8 action ++ str " " ++ ljust 25 (firstn 25 filename) ++ str " "
    ++ ljust 25 (firstn 25 path) ++ str " " ++ ljust 20 result in
  log_line.

(** The state of [main] that the log and the keys act on. *)
Record ui_state := mkUI {
  focus_index : Z;
  is_running : bool;
  input_values : dict;
  log_lines : list pystr;
  log_scroll_offset : Z;
  user_scrolled : bool
}.

Definition len {A} (l : list A) : Z := Z.of_nat (length l).

Definition finished_item : dict :=
  [(str "action", str "STATUS"); (str "filename", str "Process");
   (str "path", str "Execution"); (str "result", str "Finished.")].

(** One turn of the loop of lines 656-669 of [main]: an item taken from
    the queue; the state and [max_scroll] after it. *)
Definition take_log_item (log_content_h : Z) (acc : ui_state * Z) (log_item : event)
  : ui_state * Z :=
  let st := fst acc in
  let st :=
    if pystr_eqb (action log_item) ACTION_DONE_TOKEN then
      mkUI (focus_index st) false (input_values st)
           (log_lines st ++ [format_log finished_item])
           (log_scroll_offset st) (user_scrolled st)
    else
      mkUI (focus_index st) (is_running st) (input_values st)
           (log_lines st ++ [format_log (event_dict log_item)])
           (log_scroll_offset st) (user_scrolled st) in
  let st :=
    if negb (user_scrolled st) then
      mkUI (focus_index st) (is_running st) (input_values st) (log_lines st)
           (Z.max 0 (len (log_lines st) - log_content_h)) (user_scrolled st)
    else st in
  (st, Z.max 0 (len (log_lines st) - log_content_h)).

(** Part B of an iteration of [main] (lines 654-669): [max_scroll] is
    computed, then the queue is emptied; [batch] is what it held. *)
Definition process_log_queue (log_content_h : Z) (st : ui_state) (batch : list event)
  : ui_state * Z :=
  fold_left (take_log_item log_content_h) batch
            (st, Z.max 0 (len (log_lines st) - log_content_h)).

(** The line the front end appends for an item of the queue. *)
Definition line_of (log_item : event) : pystr :=
  if is_done log_item then format_log finished_item
  else format_log (event_dict log_item).

(** ** The keys and the failures of curses *)

(** The key codes of the curses library in use. *)
Class Keys := {
  KEY_UP : Z;
  KEY_DOWN : Z;
  KEY_LEFT : Z;
  KEY_RIGHT : Z;
  KEY_ENTER : Z;
  KEY_RESIZE : Z;
  KEY_BACKSPACE : Z
}.

(** The codes of ncurses. *)
Definition ncurses_keys : Keys := {|
  KEY_UP := 259;
  KEY_DOWN := 258;
  KEY_LEFT := 260;
  KEY_RIGHT := 261;
  KEY_ENTER := 343;
  KEY_RESIZE := 410;
  KEY_BACKSPACE := 263
|}.

(** What a call into curses or into the runtime may raise in the front
    end: [curses.error], or another exception. *)
Inductive ui_exn :=
  | CursesError
  | OtherError (e : exn).

(** ** The confirmation dialog *)

(** How a call of [show_modal_dialog] ends: it returns [True], [False]
    or [None]; it raises; or, the keys read so far deciding nothing, it is
    still waiting, with the focus on one of the two buttons. *)
Inductive modal_outcome :=
  | Returned (v : option bool)
  | Raised (e : ui_exn)
  | Waiting (focus_index : Z).

Section Modal.

Context {K : Keys}.

(** The handling of one key (lines 425-439): the new focus, or the value
    returned. *)
Definition modal_key (focus_index c : Z) : Z + option bool :=
  if (c =? 121) || (c =? 89) then inr (Some true)
  else if (c =? 110) || (c =? 78) then inr (Some false)
  else if c =? KEY_LEFT then inl (Z.max 0 (focus_index - 1))
  else if c =? KEY_RIGHT then inl (Z.min 1 (focus_index + 1))
  else if (c =? KEY_ENTER) || (c =? 10) || (c =? 13) then inr (Some (focus_index =? 0))
  else if (c =? 113) || (c =? 81) then inr None
  else inl focus_index.

(** The loop: each pass draws the window (a failure of the drawing ends
    the call with the exception), then reads a key. *)
Fixpoint modal_loop (focus_index : Z) (passes : list (option ui_exn * Z))
  : modal_outcome :=
  match passes with
  | [] => Waiting focus_index
  | (Some e, _) :: _ => Raised e
  | (None, c) :: rest =>
      match modal_key focus_index c with
      | inl f => modal_loop f rest
      | inr v => Returned v
      end
  end.

(** [show_modal_dialog(stdscr, title, message, prompt, default_yes)] on a
    screen of [H] lines and [W] columns. [newwin] tells whether the window
    of the computed size and place can be made; [passes] gives, for each
    pass of the loop, whether the drawing fails and the key read. *)
Definition show_modal_dialog (H W : Z) (title message prompt : pystr)
    (default_yes : bool) (newwin : Z -> Z -> Z -> Z -> option ui_exn)
    (passes : list (option ui_exn * Z)) : modal_outcome :=
  let message_lines := split_on 10 message in
  let max_line_len := fold_right Z.max 0 (map len message_lines) in
  let win_w := Z.min (W - 4) (max_line_len + 8) in
  let win_h := len message_lines + 8 in
  let start_y := (H - win_h) / 2 in
  let start_x := (W - win_w) / 2 in
  match newwin win_h win_w start_y start_x with
  | Some e => Raised e
  | None =>
      let focus_index := 0 in
      modal_loop focus_index passes
  end.



End Modal.

(** ** The main loop of the front end *)

(** [input_values[key] = value] *)
Fixpoint dict_set (d : dict) (key value : pystr) : dict :=
  match d with
  | [] => [(key, value)]
  | (k, v) :: r =>
      if pystr_eqb k key then (key, value) :: r else (k, v) :: dict_set r key value
  end.

(** The labels, keys and default values of the input fields;
    [DEFAULT_TARGET] is [os.path.join(os.getcwd(), "USB")]. *)
Definition INPUT_FIELDS (DEFAULT_TARGET : pystr) : list (pystr * pystr * pystr) :=
  [(str "1. .RMF File Path:", str "rmf_path", []);
   (str "2. Recovery Source Directory:", str "source_dir",
    str "c:\ProgramData\Lenovo\USBRecoveryCreator\Downloads");
   (str "3. Patch Source Directory (Optional):", str "patch_dir",
    str "c:\ProgramData\Lenovo\USBRecoveryCreator\Patch");
   (str "4. Target USB Directory:", str "target_dir", DEFAULT_TARGET)].

Definition NUM_INPUTS : Z := len (INPUT_FIELDS []).

(** [INPUT_FIELDS[i][1]], for [0 <= i < NUM_INPUTS]. *)
Definition field_key (i : Z) : pystr :=
  snd (fst (nth (Z.to_nat i) (INPUT_FIELDS []) ([], [], []))).

Definition title_h : Z := 1.
Definition input_h : Z := NUM_INPUTS * 2 + 4.

(** The arguments of the worker thread. *)
Definition worker_args : Type := Element * pystr * pystr * pystr.

(** How an iteration of the loop ends: it goes on to the next one, it
    leaves the loop ([break]), an exception is on its way, or it is held
    in the dialog, which has not been answered. *)
Inductive control :=
  | Next
  | Stop
  | Thrown (e : ui_exn)
  | Held.

(** What an iteration leaves: the state, how it ended, the worker it
    started if any, the events it put on the queue itself, the machine. *)
Record handled {W : Type} := mkHandled {
  h_state : ui_state;
  h_control : control;
  h_spawn : option worker_args;
  h_puts : list event;
  h_world : W
}.
Arguments handled W : clear implicits.
Arguments mkHandled {W} _ _ _ _ _.

(** What an iteration meets: the size of the screen, whether each
    drawing fails, what the queue holds, the key read, the machine, and
    what happens in the dialog. *)
Record moment {W : Type} := mkMoment {
  m_size : Z * Z;
  m_draw : option ui_exn;
  m_batch : list event;
  m_key : Z;
  m_clear : option ui_exn;
  m_world : W;
  m_draw_log : option ui_exn;
  m_modal_size : Z * Z;
  m_newwin : Z -> Z -> Z -> Z -> option ui_exn;
  m_passes : list (option ui_exn * Z);
  m_restore : option ui_exn;
  m_start : option ui_exn;
  m_draw_input : option ui_exn;
  m_fatal_draw : option ui_exn
}.
Arguments moment W : clear implicits.
Arguments mkMoment {W} _ _ _ _ _ _ _ _ _ _ _ _ _ _.

(** The input handling either ends the iteration or falls through to
    what follows. *)
Inductive flow {W : Type} :=
  | Fall (st : ui_state) (spawn : option worker_args) (puts : list event) (w : W)
  | End_ (h : handled W).
Arguments flow W : clear implicits.

Definition set_focus (st : ui_state) (f : Z) : ui_state :=
  mkUI f (is_running st) (input_values st) (log_lines st)
       (log_scroll_offset st) (user_scrolled st).

Definition set_running (st : ui_state) (b : bool) : ui_state :=
  mkUI (focus_index st) b (input_values st) (log_lines st)
       (log_scroll_offset st) (user_scrolled st).

Definition set_inputs (st : ui_state) (d : dict) : ui_state :=
  mkUI (focus_index st) (is_running st) d (log_lines st)
       (log_scroll_offset st) (user_scrolled st).

Definition set_lines (st : ui_state) (l : list pystr) : ui_state :=
  mkUI (focus_index st) (is_running st) (input_values st) l
       (log_scroll_offset st) (user_scrolled st).

Definition set_scroll (st : ui_state) (offset : Z) (scrolled : bool) : ui_state :=
  mkUI (focus_index st) (is_running st) (input_values st) (log_lines st)
       offset scrolled.

Definition append_line (st : ui_state) (a f p r : string) : ui_state :=
  set_lines st (log_lines st ++ [format_log (event_dict (mkEvent (str a) (str f) (str p) (str r)))]).

Section Main.

Context {W : Type} {P : Platform W} {K : Keys}.

(** START pressed (lines 706-769). *)
Definition start_pressed (st : ui_state) (m : moment W) : flow W :=
  let w := m_world m in
  let rmf := strip (dict_get (input_values st) (str "rmf_path") []) in
  let src := strip (dict_get (input_values st) (str "source_dir") []) in
  let patch := strip (dict_get (input_values st) (str "patch_dir") []) in
  let target := strip (dict_get (input_values st) (str "target_dir") []) in
  if negb (truthy rmf) || negb (path_exists rmf w)
     || negb (truthy src) || negb (path_exists src w) then
    let st := set_lines st [format_log (event_dict
                  (mkEvent (str "ERROR") (str "Validation") []
                           (str "RMF/Source path missing or invalid.")))] in
    let st := set_scroll st 0 false in
    End_ (mkHandled st Next None [] w)
  else
    (* 1. Clear log and set status *)
    let st := set_lines st [] in
    let st := set_scroll st 0 false in
    let st := append_line st "STATUS" "RMF" "Parsing" "Checking for VALUES.TXT..." in
    match m_draw_log m with
    | Some e => End_ (mkHandled st (Thrown e) None [] w)
    | None =>
        (* 2. Parse RMF in main thread *)
        match parse_rmf_for_dialog rmf w with
        | (Raise e, w1, t) =>
            End_ (mkHandled st (Thrown (OtherError e)) None (queue_of t) w1)
        | (Ret (rmf_root, values_txt_content), w1, t) =>
            let puts := queue_of t in
            match rmf_root with
            | None => End_ (mkHandled st Next None puts w1)
            | Some rmf_root =>
                (* 4. Start the worker thread *)
                let start (st : ui_state) : flow W :=
                  let st := set_running st true in
                  let st := append_line st "STATUS" "Process" "Execution"
                                        "Starting worker thread..." in
                  match m_start m with
                  | Some e => End_ (mkHandled st (Thrown e) None puts w1)
                  | None => Fall st (Some (rmf_root, src, patch, target)) puts w1
                  end in
                (* 3. Handle Dialog if VALUES.TXT is found *)
                if truthy_opt values_txt_content then
                  let st := append_line st "STATUS" "Dialog" "VALUES.TXT"
                                        "Found. Awaiting confirmation." in
                  match show_modal_dialog (fst (m_modal_size m)) (snd (m_modal_size m))
                          (str "RMF Metadata Verification") (from_opt values_txt_content)
                          (str "Proceed? (Y/N)") true (m_newwin m) (m_passes m) with
                  | Raised e => End_ (mkHandled st (Thrown e) None puts w1)
                  | Waiting _ => End_ (mkHandled st Held None puts w1)
                  | Returned modal_result =>
                      match m_restore m with
                      | Some e => End_ (mkHandled st (Thrown e) None puts w1)
                      | None =>
                          match modal_result with
                          | None => End_ (mkHandled st Stop None puts w1)
                          | Some false =>
                              let st := append_line st "STATUS" "Process" "Aborted"
                                                    "Cancelled by user." in
                              Fall st None puts w1
                          | Some true => start st
                          end
                      end
                  end
                else start st
            end
        end
    end.

(** Text editing (lines 778-790). *)
Definition text_editing (st : ui_state) (c : Z) (m : moment W)
    (spawn : option worker_args) (puts : list event) (w : W) : handled W :=
  if (0 <=? focus_index st) && (focus_index st <? NUM_INPUTS) && negb (is_running st) then
    let key_to_edit := field_key (focus_index st) in
    let current_value := dict_get (input_values st) key_to_edit [] in
    let st :=
      if (32 <=? c) && (c <=? 126) then
        set_inputs st (dict_set (input_values st) key_to_edit (current_value ++ [c]))
      else if (c =? KEY_BACKSPACE) || (c =? 127) || (c =? 8) then
        set_inputs st (dict_set (input_values st) key_to_edit (removelast current_value))
      else st in
    match m_draw_input m with
    | Some e => mkHandled st (Thrown e) spawn puts w
    | None => mkHandled st Next spawn puts w
    end
  else mkHandled st Next spawn puts w.

(** Part C of an iteration (lines 674-790): the key is handled. *)
Definition handle_input (st : ui_state) (max_scroll : Z) (m : moment W) : handled W :=
  let c := m_key m in
  let w := m_world m in
  if c =? -1 then mkHandled st Next None [] w
  else if (c =? 113) || (c =? 81) then mkHandled st Stop None [] w
  else if c =? KEY_RESIZE then
    match m_clear m with
    | Some e => mkHandled st (Thrown e) None [] w
    | None => mkHandled st Next None [] w
    end
  else if is_running st then
    (* Scrolling Logic *)
    let st :=
      if c =? KEY_UP then
        set_scroll st (Z.max 0 (log_scroll_offset st - 1)) true
      else if c =? KEY_DOWN then
        let offset := Z.min max_scroll (log_scroll_offset st + 1) in
        set_scroll st offset (if offset =? max_scroll then false else user_scrolled st)
      else st in
    mkHandled st Next None [] w
  else
    (* Input Navigation *)
    let nav : flow W :=
      if c =? KEY_UP then
        Fall (set_focus st (Z.max 0 (focus_index st - 1))) None [] w
      else if (c =? KEY_DOWN) || (c =? 9) then
        Fall (set_focus st (Z.min NUM_INPUTS (focus_index st + 1))) None [] w
      else if (c =? KEY_ENTER) || (c =? 10) || (c =? 13) then
        if focus_index st =? NUM_INPUTS then start_pressed st m
        else if (0 <=? focus_index st) && (focus_index st <? NUM_INPUTS) then
          Fall (set_focus st (Z.min NUM_INPUTS (focus_index st + 1))) None [] w
        else Fall st None [] w
      else Fall st None [] w in
    match nav with
    | End_ h => h
    | Fall st spawn puts w1 => text_editing st c m spawn puts w1
    end.

(** One iteration of the loop of [main] (lines 631-801): the drawing,
    the queue, the key, and the two handlers around them. *)
Definition main_iteration (st : ui_state) (m : moment W) : handled W :=
  let r :=
    match m_draw m with
    | Some e => mkHandled st (Thrown e) None [] (m_world m)
    | None =>
        let log_content_h := fst (m_size m) - input_h - title_h - 3 in
        match process_log_queue log_content_h st (m_batch m) with
        | (st, max_scroll) => handle_input st max_scroll m
        end
    end in
  match h_control r with
  | Thrown CursesError =>
      (* except curses.error: pass *)
      mkHandled (h_state r) Next (h_spawn r) (h_puts r) (h_world r)
  | Thrown (OtherError e) =>
      (* except Exception as e *)
      let st := h_state r in
      let st := set_lines st
                  (log_lines st
                   ++ [format_log (event_dict
                         (mkEvent (str "FATAL") (str "UI") []
                                  (str "Exception: " ++ exn_str e)))]) in
      let st := set_running st false in
      match m_fatal_draw m with
      | Some e' => mkHandled st (Thrown e') (h_spawn r) (h_puts r) (h_world r)
      | None => mkHandled st Stop (h_spawn r) (h_puts r) (h_world r)
      end
  | _ => r
  end.

(** The iteration without its two handlers. *)
Definition unhandled (st : ui_state) (m : moment W) : handled W :=
  match m_draw m with
  | Some e => mkHandled st (Thrown e) None [] (m_world m)
  | None =>
      match process_log_queue (fst (m_size m) - input_h - title_h - 3) st (m_batch m) with
      | (st, max_scroll) => handle_input st max_scroll m
      end
  end.

End Main.

(** A moment and a state for running the loop: the button START in
    focus, Enter pressed, the sample manifest on the desk beside the
    source tree, and y typed in the dialog. *)
Module Session.

Definition world : Posix.fs := Sample.desk ++ Scenario.source_tree.

Definition inputs : dict :=
  [(str "rmf_path", str "job.rmf"); (str "source_dir", str "SRC");
   (str "patch_dir", []); (str "target_dir", str "USB")].

Definition at_start : ui_state := mkUI 4 false inputs [] 0 false.

Definition busy : ui_state := mkUI 4 true inputs [] 0 false.

Definition enter_then (passes : list (option ui_exn * Z)) : moment Posix.fs :=
  mkMoment (24, 80) None [] 10 None world None (24, 80) (fun _ _ _ _ => None)
           passes None None None None.

Definition typing (c : Z) : moment Posix.fs :=
  mkMoment (24, 80) None [] c None world None (24, 80) (fun _ _ _ _ => None)
           [] None None None None.

Definition on_field : ui_state := mkUI 0 false inputs [] 0 false.

End Session.

(** What must hold for an iteration to start a worker with [args]: no
    build in flight once the queue is emptied, START in focus, Enter
    pressed, the manifest path and the source path not blank and present,
    the manifest loaded, and the dialog, if there is a confirmation text,
    answered Yes. *)
Definition start_conditions {W} {P : Platform W} {K : Keys}
    (st : ui_state) (m : moment W) (args : worker_args) : Prop :=
  let w := m_world m in
  let rmf := strip (dict_get (input_values st) (str "rmf_path") []) in
  let src := strip (dict_get (input_values st) (str "source_dir") []) in
  let patch := strip (dict_get (input_values st) (str "patch_dir") []) in
  let target := strip (dict_get (input_values st) (str "target_dir") []) in
  m_draw m = None
  /\ is_running st && forallb (fun ev => negb (is_done ev)) (m_batch m) = false
  /\ focus_index st = NUM_INPUTS
  /\ (m_key m = KEY_ENTER \/ m_key m = 10 \/ m_key m = 13)
  /\ truthy rmf = true /\ path_exists rmf w = true
  /\ truthy src = true /\ path_exists src w = true
  /\ m_start m = None
  /\ exists rmf_root text w1 t,
       args = (rmf_root, src, patch, target)
       /\ parse_rmf_for_dialog rmf w = (Ret (Some rmf_root, text), w1, t)
       /\ (truthy_opt text = false
           \/ show_modal_dialog (fst (m_modal_size m)) (snd (m_modal_size m))
                (str "RMF Metadata Verification") (from_opt text)
                (str "Proceed? (Y/N)") true (m_newwin m) (m_passes m)
              = Returned (Some true)).

(** The ways an iteration may change the input fields, [focus] being
    the index in focus: not at all, by one printable character other
    than q and Q appended to the field in focus, or by the last character
    of that field removed. *)
Definition field_edit {K : Keys} (focus : Z) (before after : dict) (c : Z) : Prop :=
  after = before
  \/ (0 <= focus < NUM_INPUTS
      /\ ((32 <= c <= 126 /\ c <> 113 /\ c <> 81
           /\ after = dict_set before (field_key focus)
                        (dict_get before (field_key focus) [] ++ [c]))
          \/ ((c = KEY_BACKSPACE \/ c = 127 \/ c = 8)
              /\ after = dict_set before (field_key focus)
                           (removelast (dict_get before (field_key focus) []))))).

(** ** The input panel *)

(** [s[a:b]]: a negative bound counts from the end, each bound is brought
    into the string, and nothing is left when they cross. *)
Definition slice_bound (n i : Z) : Z :=
  if i <? 0 then Z.max 0 (i + n) else Z.min i n.

Definition py_slice {A} (s : list A) (a b : Z) : list A :=
  let a := slice_bound (len s) a in
  let b := slice_bound (len s) b in
  firstn (Z.to_nat (b - a)) (skipn (Z.to_nat a) s).

(** [s.ljust(w)[:w]] *)
Definition fit (w : Z) (s : pystr) : pystr := py_slice (ljust (Z.to_nat w) s) 0 w.

(** The attributes of curses. *)
Class Attrs := {
  A_NORMAL : Z;
  A_BOLD : Z;
  A_REVERSE : Z;
  color_pair : Z -> Z
}.

(** A call on the window. *)
Inductive call :=
  | Addstr (y x : Z) (text : pystr) (attr : option Z)
  | Move (y x : Z)
  | CursSet (visibility : Z)
  | Erase
  | Border
  | Refresh.

(** [enumerate(l)] *)
Definition enumerate {A} (l : list A) : list (Z * A) :=
  combine (map Z.of_nat (seq 0 (length l))) l.

Section InputPanel.

Context {T : Attrs}.

(** [draw_input_panel(stdscr, input_values, focus_index, max_width)]: the
    calls it makes on the window, in order, when none of them raises (a
    call that raises ends the function there). *)
Definition draw_input_panel (DEFAULT_TARGET : pystr) (input_values : dict)
    (focus_index max_width : Z) : list call :=
  let fields := INPUT_FIELDS DEFAULT_TARGET in
  let label_width := fold_right Z.max 0 (map (fun f => len (fst (fst f))) fields) in
  let input_start_col := label_width + 4 in
  let input_width := max_width - input_start_col - 2 in
  [CursSet 0]
  ++ flat_map
       (fun entry =>
          let i := fst entry in
          let label := fst (fst (snd entry)) in
          let key := snd (fst (snd entry)) in
          let row := i * 2 + 1 in
          let value := dict_get input_values key [] in
          [Addstr row 2 label None]
          ++ (if i =? focus_index then
                let cursor_pos := len value in
                let display_start := Z.max 0 (cursor_pos - input_width + 1) in
                [CursSet 1; Move row (input_start_col + (cursor_pos - display_start))]
              else []))
       (enumerate fields)
  ++ [Erase; Border; Addstr 0 2 (str " Configuration ") (Some A_BOLD)]
  ++ flat_map
       (fun entry =>
          let i := fst entry in
          let label := fst (fst (snd entry)) in
          let key := snd (fst (snd entry)) in
          let row := i * 2 + 1 in
          let value := dict_get input_values key [] in
          [Addstr row 2 label None]
          ++ (if i =? focus_index then
                let cursor_pos := len value in
                let display_start := Z.max 0 (cursor_pos - input_width + 1) in
                let display_value :=
                  py_slice value display_start (display_start + input_width) in
                [CursSet 1; Move row (input_start_col + (cursor_pos - display_start));
                 Addstr row (input_start_col - 1) (str "[") (Some A_BOLD);
                 Addstr row input_start_col (fit input_width display_value)
                        (Some (Z.lor A_REVERSE A_BOLD));
                 Addstr row (input_start_col + input_width) (str "]") (Some A_BOLD)]
              else
                let display_value := py_slice value 0 input_width in
                [Addstr row (input_start_col - 1) (str "[") (Some A_BOLD);
                 Addstr row input_start_col (fit input_width display_value)
                        (Some A_NORMAL);
                 Addstr row (input_start_col + input_width) (str "]") (Some A_BOLD)]))
       (enumerate fields)
  ++ (let btn_row := NUM_INPUTS * 2 + 2 in
      let btn_text := str " START RECOVERY CREATION (ENTER) " in
      let btn_start_col := (max_width - len btn_text) / 2 in
      let btn_attr := Z.lor (color_pair 1) A_BOLD in
      (if focus_index =? NUM_INPUTS then
         [CursSet 0; Addstr btn_row btn_start_col btn_text (Some (Z.lor btn_attr A_REVERSE))]
       else [Addstr btn_row btn_start_col btn_text (Some btn_attr)])
      ++ [Refresh]).

End InputPanel.

(** The last [n] characters of [s]. *)
Definition lastn {A} (n : nat) (s : list A) : list A := skipn (length s - n) s.

(** The box of a field: its first column and its width on a window of
    [max_width] columns. *)
Definition input_start_col : Z := 41.
Definition input_width (max_width : Z) : Z := max_width - input_start_col - 2.

(** The attribute values of ncurses. *)
Definition ncurses_attrs : Attrs := {|
  A_NORMAL := 0;
  A_BOLD := 2097152;
  A_REVERSE := 262144;
  color_pair := fun n => Z.shiftl n 8
|}.

(* ------------------------------------------------------------------ *)
(** * RecoveryLite.py: the two panes of modules *)

Module Lite.

(** [s.split(sep, 1)] for a separator that is not empty: the text before
    the first occurrence of [sep] and the text after it, or the text alone
    when [sep] does not occur. *)
Fixpoint split_first (sep s : pystr) : list pystr :=
  if startswith sep s then [[]; skipn (length sep) s]
  else match s with
       | [] => [[]]
       | c :: rest =>
           match split_first sep rest with
           | a :: parts => (c :: a) :: parts
           | [] => [s]
           end
       end.

(** [items[i] = f(items[i])] *)
Fixpoint update_nth {A} (i : nat) (f : A -> A) (items : list A) : list A :=
  match items, i with
  | [], _ => []
  | x :: rest, O => f x :: rest
  | x :: rest, S j => x :: update_nth j f rest
  end.

(** [class RecoveryItem] *)
Record RecoveryItem := mkItem {
  cri_path : pystr;
  imz_path : option pystr;
  module_name : pystr;
  module_this : pystr;
  description : pystr;
  image_file : pystr;
  selected : bool
}.

Definition set_selected (b : bool) (item : RecoveryItem) : RecoveryItem :=
  mkItem (cri_path item) (imz_path item) (module_name item) (module_this item)
         (description item) (image_file item) b.

Section Items.

Context {W : Type} {P : Platform W}.

(** [RecoveryItem.basename] *)
Definition basename (item : RecoveryItem) : pystr :=
  path_splitext_root (path_basename (cri_path item)).

(** [RecoveryItem.display_text] *)
Definition display_text (item : RecoveryItem) : pystr :=
  let checkbox := if selected item then str "[X]" else str "[ ]" in
  let mt :=
    if truthy (module_this item) then module_this item
    else if truthy (module_name item) then module_name item
    else basename item in
  let desc := if truthy (description item) then description item else [] in
  let suffix :=
    if truthy_opt (imz_path item)
    then str " (Payload: " ++ path_basename (from_opt (imz_path item)) ++ str ")"
    else [] in
  checkbox ++ str " " ++ mt ++ str " - " ++ desc ++ suffix.

End Items.

(** [class RecoveryUI], with the two lists of its manager. *)
Record RecoveryUI := mkRecoveryUI {
  recovery_items : list RecoveryItem;
  archive_items : list RecoveryItem;
  focus_archives : bool;
  cursor_idx_left : Z;
  cursor_idx_right : Z;
  scroll_left : Z;
  scroll_right : Z
}.

(** [RecoveryUI._clamp_index] *)
Definition _clamp_index (idx n : Z) : Z :=
  if n <=? 0 then 0 else Z.max 0 (Z.min idx (n - 1)).

(** [RecoveryUI._clamp_cursors] *)
Definition _clamp_cursors (self : RecoveryUI) : RecoveryUI :=
  let recovery := recovery_items self in
  let archives := archive_items self in
  mkRecoveryUI recovery archives (focus_archives self)
    (_clamp_index (cursor_idx_left self) (len recovery))
    (_clamp_index (cursor_idx_right self) (len archives))
    (Z.max 0 (Z.min (scroll_left self) (Z.max 0 (len recovery - 1))))
    (Z.max 0 (Z.min (scroll_right self) (Z.max 0 (len archives - 1)))).

(** [RecoveryUI._current_list] *)
Definition _current_list (self : RecoveryUI) : list RecoveryItem * Z * Z :=
  if focus_archives self
  then (archive_items self, cursor_idx_right self, scroll_right self)
  else (recovery_items self, cursor_idx_left self, scroll_left self).

(** [RecoveryUI._set_current_cursor_scroll] *)
Definition _set_current_cursor_scroll (self : RecoveryUI) (cursor_idx scroll : Z)
    : RecoveryUI :=
  if focus_archives self
  then mkRecoveryUI (recovery_items self) (archive_items self) (focus_archives self)
         (cursor_idx_left self) cursor_idx (scroll_left self) scroll
  else mkRecoveryUI (recovery_items self) (archive_items self) (focus_archives self)
         cursor_idx (cursor_idx_right self) scroll (scroll_right self).

(** [RecoveryUI._move_cursor] *)
Definition _move_cursor (self : RecoveryUI) (delta content_h : Z) : RecoveryUI :=
  let '(items, cursor_idx, scroll) := _current_list self in
  match items with
  | [] => self
  | _ :: _ =>
      let cursor_idx := Z.max 0 (Z.min (cursor_idx + delta) (len items - 1)) in
      let viewport_h := Z.max 1 (content_h - 1) in
      let scroll :=
        if cursor_idx <? scroll then cursor_idx
        else if cursor_idx >=? scroll + viewport_h then cursor_idx - viewport_h + 1
        else scroll in
      let max_scroll := Z.max 0 (len items - viewport_h) in
      let scroll := Z.max 0 (Z.min scroll max_scroll) in
      _set_current_cursor_scroll self cursor_idx scroll
  end.

(** The list in focus, replaced. *)
Definition set_current_items (self : RecoveryUI) (items : list RecoveryItem)
    : RecoveryUI :=
  if focus_archives self
  then mkRecoveryUI (recovery_items self) items (focus_archives self)
         (cursor_idx_left self) (cursor_idx_right self)
         (scroll_left self) (scroll_right self)
  else mkRecoveryUI items (archive_items self) (focus_archives self)
         (cursor_idx_left self) (cursor_idx_right self)
         (scroll_left self) (scroll_right self).

(** [RecoveryUI._toggle_selection]: the item under the cursor is changed
    in place, in the list in focus. *)
Definition _toggle_selection (self : RecoveryUI) : RecoveryUI :=
  let '(items, cursor_idx, _) := _current_list self in
  match items with
  | [] => self
  | _ :: _ =>
      if (0 <=? cursor_idx) && (cursor_idx <? len items)
      then set_current_items self
             (update_nth (Z.to_nat cursor_idx)
                         (fun item => set_selected (negb (selected item)) item) items)
      else self
  end.

(** [RecoveryUI._split_prefix_desc] *)
Definition _split_prefix_desc (row_text : pystr) : pystr * pystr :=
  let parts := split_first (str " - ") row_text in
  match parts with
  | [a; b] => (a ++ str " - ", b)
  | _ => (row_text, [])
  end.

(** The cursor of the pane in focus is on an item and on a row of a
    viewport of [content_h - 1] rows (one at least), which begins at the
    scroll position. *)
Definition cursor_visible (self : RecoveryUI) (content_h : Z) : Prop :=
  let '(items, cursor_idx, scroll) := _current_list self in
  let viewport_h := Z.max 1 (content_h - 1) in
  0 <= cursor_idx < len items
  /\ 0 <= scroll <= Z.max 0 (len items - viewport_h)
  /\ scroll <= cursor_idx < scroll + viewport_h.

(** [after] is the item [before] but for its mark, which is the opposite
    one when [flipped]. *)
Definition same_but_mark (flipped : bool) (before after : RecoveryItem) : Prop :=
  cri_path after = cri_path before
  /\ imz_path after = imz_path before
  /\ module_name after = module_name before
  /\ module_this after = module_this before
  /\ description after = description before
  /\ image_file after = image_file before
  /\ selected after = if flipped then negb (selected before) else selected before.

(** The pane out of focus. *)
Definition other_list (self : RecoveryUI) : list RecoveryItem * Z * Z :=
  if focus_archives self
  then (recovery_items self, cursor_idx_left self, scroll_left self)
  else (archive_items self, cursor_idx_right self, scroll_right self).

(** Cursors and scroll positions within the lists, as [_clamp_cursors]
    leaves them. *)
Definition within (n i : Z) : Prop := 0 <= i <= Z.max 0 (n - 1).

Definition clamped (self : RecoveryUI) : Prop :=
  within (len (recovery_items self)) (cursor_idx_left self)
  /\ within (len (archive_items self)) (cursor_idx_right self)
  /\ within (len (recovery_items self)) (scroll_left self)
  /\ within (len (archive_items self)) (scroll_right self).

End Lite.

(** ** A machine with the index tool

    The concrete platform again, but [aodbuild.exe], where it is
    installed, can be run: it writes a rebuilt index of five lines as
    [aodstat.dat] in its working directory and exits with 0. *)

Module Workshop.

Definition rebuilt : pystr :=
  str "1" ++ [10] ++ str "2" ++ [10] ++ str "3" ++ [10] ++ str "4" ++ [10]
  ++ str "E" ++ [10].

Definition run (cmd : list pystr) (cwd : option pystr) (w : Posix.fs)
  : outcome completed_process * Posix.fs :=
  let prog := hd [] cmd in
  if Posix.exists_ prog w && endswith (str "aodbuild.exe") prog then
    match Posix.write (Posix.join (from_opt cwd) (str "aodstat.dat")) rebuilt w with
    | (Ret _, w1) => (Ret (mkProc 0 [] []), w1)
    | (Raise e, w1) => (Ret (mkProc 1 [] (exn_str e)), w1)
    end
  else Posix.run cmd cwd w.

#[export] Instance platform : Platform Posix.fs := {|
  str_upper := Posix.upper;
  str_lower := Posix.lower;
  path_join := Posix.join;
  path_dirname := Posix.dirname;
  path_basename := Posix.basename;
  path_splitext_root := Posix.splitext_root;
  path_exists := Posix.exists_;
  path_isdir := Posix.isdir;
  os_makedirs := Posix.makedirs;
  os_rename := Posix.rename;
  os_listdir := Posix.listdir;
  shutil_rmtree := Posix.rmtree;
  shutil_copytree := Posix.copytree;
  shutil_copy2 := Posix.copy2;
  write_text := Posix.write;
  read_text := Posix.read;
  read_text_ignore := Posix.read;
  subprocess_run := run;
  et_parse := Posix.parse
|}.

(** A target whose index has three lines only, and the tool installed. *)
Definition short_index : Posix.fs :=
  [(str "USB", Posix.Dir);
   (str "USB/RECOVERY", Posix.Dir);
   (str "USB/RECOVERY/AOD.DAT",
    Posix.File (str "A" ++ [10] ++ str "B" ++ [10] ++ str "C" ++ [10]) None);
   (str "APP", Posix.Dir);
   (str "APP/aodbuild.exe", Posix.File (str "MZ") None)].

(** Step 4 on that machine. *)
Definition step : outcome bool * Posix.fs * list item :=
  aod_processing (P:=platform) (str "APP") (str "USB/RECOVERY")
    (str "USB/RECOVERY/AOD.DAT") (str "USB/RECOVERY/AOD.ORG")
    (str "USB/RECOVERY/aodstat.dat") (str "a.cri") short_index.

End Workshop.

(** The EXEC event of the index tool, by its exit code. *)
Definition exec_event (proc : completed_process) : event :=
  if returncode proc =? 0
  then mkEvent (str "EXEC") (str "aodbuild.exe") (str "RECOVERY") (str "Success")
  else mkEvent (str "EXEC") (str "aodbuild.exe") [] (str "Fail: " ++ stderr proc).

Definition index_updated_event : event :=
  mkEvent (str "MODIFY") (str "AOD.DAT") (str "RECOVERY") (str "Header updated & Cleaned").

(* ------------------------------------------------------------------ *)
(** * Properties *)

Lemma startswith_app (p x : pystr) : startswith p (p ++ x) = true.
Proof. induction p as [|a p IH]; [reflexivity|]. cbn. now rewrite Z.eqb_refl, IH. Qed.

Lemma endswith_app (suf a : pystr) : endswith suf (a ++ suf) = true.
Proof. unfold endswith. rewrite rev_app_distr. apply startswith_app. Qed.

Lemma pystr_eqb_eq a b : pystr_eqb a b = true <-> a = b.
Proof. unfold pystr_eqb. destruct (list_eq_dec Z.eq_dec a b); split; congruence. Qed.

Lemma pystr_eqb_refl a : pystr_eqb a a = true.
Proof. now apply pystr_eqb_eq. Qed.

Lemma pystr_eqb_neq a b : pystr_eqb a b = false <-> a <> b.
Proof. unfold pystr_eqb. destruct (list_eq_dec Z.eq_dec a b); split; congruence. Qed.

(** ** The password transform *)

Lemma omap_pointwise {A B} (f : A -> outcome B) (g : A -> B) (l : list A) :
  (forall x, In x l -> f x = Ret (g x)) -> omap f l = Ret (map g l).
Proof.
  induction l as [|x r IH]; intros H; simpl; [reflexivity|].
  rewrite (H x (or_introl eq_refl)). simpl.
  rewrite IH by (intros y Hy; apply H; now right). reflexivity.
Qed.

Lemma str_index_in_range (s : pystr) (i : nat) :
  (i < length s)%nat -> str_index s (Z.of_nat i) = Ret (nth i s 0).
Proof.
  intros Hi. unfold str_index.
  replace (Z.of_nat i <? 0) with false by (symmetry; apply Z.ltb_ge; lia).
  replace (0 <=? Z.of_nat i) with true by (symmetry; apply Z.leb_le; lia).
  replace (Z.of_nat i <? Z.of_nat (length s)) with true
    by (symmetry; apply Z.ltb_lt; lia).
  simpl. now rewrite Nat2Z.id.
Qed.

(** The alphabet has 13 letters, all between ['0'] and ['y']. *)
Lemma alphabet_lookup (k : Z) :
  0 <= k < 13 ->
  str_index IMZ_PW_CHARS k = Ret (nth (Z.to_nat k) IMZ_PW_CHARS 0)
  /\ 48 <= nth (Z.to_nat k) IMZ_PW_CHARS 0 <= 121.
Proof.
  intros Hk.
  assert (Hc : k = 0 \/ k = 1 \/ k = 2 \/ k = 3 \/ k = 4 \/ k = 5 \/ k = 6 \/
               k = 7 \/ k = 8 \/ k = 9 \/ k = 10 \/ k = 11 \/ k = 12) by lia.
  repeat (destruct Hc as [-> | Hc]); try subst k; (split; [reflexivity | simpl; lia]).
Qed.

Lemma chr_in_range (n : Z) : 0 <= n <= 1114111 -> chr n = Ret n.
Proof.
  intros H. unfold chr.
  replace (0 <=? n) with true by (symmetry; apply Z.leb_le; lia).
  replace (n <=? 1114111) with true by (symmetry; apply Z.leb_le; lia).
  reflexivity.
Qed.

Lemma cipher_code_bounds (s : pystr) (i : nat) : 48 <= cipher_code s i <= 123.
Proof.
  unfold cipher_code, ord.
  pose proof (Z.mod_pos_bound (nth i s 0) 13 ltac:(lia)) as Hk.
  pose proof (Z.mod_pos_bound (Z.of_nat i) 3 ltac:(lia)) as Hm.
  destruct (alphabet_lookup _ Hk) as [_ Ha]. lia.
Qed.

Lemma encrypt_char_code (s : pystr) (i : nat) :
  (i < length s)%nat -> encrypt_char s (Z.of_nat i) = Ret (cipher_code s i).
Proof.
  intros Hi. unfold encrypt_char.
  rewrite (str_index_in_range s i Hi). simpl.
  pose proof (Z.mod_pos_bound (ord (nth i s 0)) 13 ltac:(lia)) as Hk.
  destruct (alphabet_lookup _ Hk) as [-> _]. simpl.
  apply chr_in_range. pose proof (cipher_code_bounds s i). unfold cipher_code in *. lia.
Qed.

Lemma encrypt_imz_password_closed (s : pystr) :
  encrypt_imz_password (Some s) = Ret (map (cipher_code s) (seq 0 (length s))).
Proof.
  unfold encrypt_imz_password. destruct s as [|c r] eqn:E; [reflexivity|].
  rewrite <- E. replace (negb (truthy s)) with false by (subst; reflexivity).
  unfold range. 
  assert (H : forall l, (forall i, In i l -> (i < length s)%nat) ->
          omap (encrypt_char s) (map Z.of_nat l) = Ret (map (cipher_code s) l)).
  { induction l as [|i l IH]; intros Hl; simpl; [reflexivity|].
    rewrite encrypt_char_code by (apply Hl; now left). simpl.
    rewrite IH by (intros j Hj; apply Hl; now right). reflexivity. }
  apply H. intros i Hi. apply in_seq in Hi. lia.
Qed.

(** C1. For every string [s] the transform returns a string of the same
    length whose character at position [i] is
    [chr(ord(A[ord(s[i]) mod 13]) - (i mod 3) + 2)], [A] being the
    alphabet [IMZ_PW_CHARS]; the empty string goes to the empty string and
    ["a"] goes to ["2"]. *)
Theorem encrypt_imz_password_positions :
  (forall s : pystr,
     exists out,
       encrypt_imz_password (Some s) = Ret out
       /\ length out = length s
       /\ forall i, (i < length s)%nat ->
            nth i out 0 = cipher_code s i
            /\ chr (cipher_code s i) = Ret (nth i out 0))
  /\ IMZ_PW_CHARS = str "k`gybs0vampjd"
  /\ encrypt_imz_password (Some []) = Ret []
  /\ encrypt_imz_password (Some (str "a")) = Ret (str "2").
Proof.
  split; [| repeat split; reflexivity].
  intros s. exists (map (cipher_code s) (seq 0 (length s))).
  split; [apply encrypt_imz_password_closed|].
  split; [now rewrite length_map, length_seq|].
  intros i Hi.
  assert (E : nth i (map (cipher_code s) (seq 0 (length s))) 0 = cipher_code s i).
  { rewrite (nth_indep _ 0 (cipher_code s 0%nat))
      by (now rewrite length_map, length_seq).
    rewrite map_nth, seq_nth by exact Hi. reflexivity. }
  rewrite E. split; [reflexivity|].
  apply chr_in_range. pose proof (cipher_code_bounds s i). lia.
Qed.

(** C10. The transform is total: on every string, whatever its characters
    and length, it returns a string; each index [ord(c) mod 13] lies
    inside the 13-letter alphabet, whose code points are in [48, 121];
    the adjustment [-(i mod 3) + 2] is in [0, 2]; every code point of the
    output is in [48, 123], so [chr] never raises. *)
Theorem encrypt_imz_password_total :
  forall s : pystr,
    (exists out,
       encrypt_imz_password (Some s) = Ret out
       /\ Forall (fun z => 48 <= z <= 123) out)
    /\ (forall c, In c s ->
          0 <= ord c mod 13 < Z.of_nat (length IMZ_PW_CHARS)
          /\ exists a, str_index IMZ_PW_CHARS (ord c mod 13) = Ret a /\ 48 <= a <= 121)
    /\ (forall i : Z, 0 <= - (i mod 3) + 2 <= 2)
    /\ (forall i, (i < length s)%nat -> exists z, chr (cipher_code s i) = Ret z).
Proof.
  intros s. split; [|split; [|split]].
  - exists (map (cipher_code s) (seq 0 (length s))).
    split; [apply encrypt_imz_password_closed|].
    apply Forall_forall. intros z Hz. apply in_map_iff in Hz.
    destruct Hz as [i [<- _]]. apply cipher_code_bounds.
  - intros c _.
    pose proof (Z.mod_pos_bound (ord c) 13 ltac:(lia)) as Hk.
    split; [simpl; lia|].
    destruct (alphabet_lookup _ Hk) as [E B]. eauto.
  - intros i. pose proof (Z.mod_pos_bound i 3 ltac:(lia)). lia.
  - intros i _. exists (cipher_code s i). apply chr_in_range.
    pose proof (cipher_code_bounds s i). lia.
Qed.

(** ** Traces *)

Lemma queue_of_app (t1 t2 : list item) :
  queue_of (t1 ++ t2) = queue_of t1 ++ queue_of t2.
Proof.
  induction t1 as [|[ev|l e|l] r IH]; simpl; rewrite ?IH; reflexivity.
Qed.

Lemma accounted_app_gen (silent : nat -> bool) (n : nat) :
  forall t1 t2, (length t1 <= n)%nat ->
    accounted silent t1 = true ->
    accounted silent (t1 ++ t2) = accounted silent t2.
Proof.
  induction n as [|n IH]; intros t1 t2 Hn H1.
  - destruct t1; [reflexivity | simpl in Hn; lia].
  - destruct t1 as [|[ev|l e|l] r]; [reflexivity| | |discriminate].
    + simpl in *. apply IH; [lia | exact H1].
    + destruct r as [|[ev|l1 e1|l1] r]; try discriminate.
      * destruct r as [|[ev2|l2 e2|l2] r]; try discriminate.
        simpl in H1. apply andb_prop in H1. destruct H1 as [Ha Hr].
        change (accounted silent ((Caught l e :: Emit ev :: Handled l2 :: r) ++ t2))
          with ((l =? l2)%nat && reports e ev && accounted silent (r ++ t2)).
        rewrite Ha. simpl. apply IH; [simpl in Hn; lia | exact Hr].
      * simpl in H1. apply andb_prop in H1. destruct H1 as [Ha Hr].
        change (accounted silent ((Caught l e :: Handled l1 :: r) ++ t2))
          with ((l =? l1)%nat && silent l && accounted silent (r ++ t2)).
        rewrite Ha. simpl. apply IH; [simpl in Hn; lia | exact Hr].
Qed.

Lemma accounted_app (silent : nat -> bool) (t1 t2 : list item) :
  accounted silent t1 = true -> accounted silent t2 = true ->
  accounted silent (t1 ++ t2) = true.
Proof.
  intros H1 H2. rewrite (accounted_app_gen silent (length t1)); auto.
Qed.

Lemma quiet_nil : quiet [].
Proof. split; reflexivity. Qed.

Lemma quiet_app (t1 t2 : list item) : quiet t1 -> quiet t2 -> quiet (t1 ++ t2).
Proof.
  intros [A1 D1] [A2 D2]. split.
  - now apply accounted_app.
  - rewrite queue_of_app, forallb_app, D1, D2. reflexivity.
Qed.

Lemma quiet_report (l : nat) (e : exn) (ev : event) :
  reports e ev = true -> is_done ev = false ->
  quiet [Caught l e; Emit ev; Handled l].
Proof.
  intros Hr Hd. split; simpl.
  - now rewrite Nat.eqb_refl, Hr.
  - now rewrite Hd.
Qed.

Lemma quiet_silent (e : exn) : quiet [Caught 119 e; Handled 119].
Proof. split; reflexivity. Qed.

(** ** The monad *)

Section MonadLemmas.

Context {W : Type} {P : Platform W}.

Lemma sound_ret {A} (a : A) : sound (ret (W:=W) a).
Proof. intros w. apply quiet_nil. Qed.

Lemma sound_op {A} (f : W -> outcome A * W) : sound (op f).
Proof. intros w. unfold op. destruct (f w). apply quiet_nil. Qed.

Lemma sound_query {A} (f : W -> A) : sound (query f).
Proof. intros w. apply quiet_nil. Qed.

Lemma sound_lift {A} (o : outcome A) : sound (lift (W:=W) o).
Proof. intros w. apply quiet_nil. Qed.

Lemma sound_put (ev : event) : is_done ev = false -> sound (put (W:=W) ev).
Proof. intros H w. split; simpl; [reflexivity | now rewrite H]. Qed.

Lemma sound_log (a : string) (f p r : pystr) :
  pystr_eqb (str a) ACTION_DONE_TOKEN = false -> sound (log (W:=W) a f p r).
Proof. intros H. apply sound_put. exact H. Qed.

Lemma sound_bind {A B} (m : M A) (k : A -> M B) :
  sound m -> (forall a, sound (k a)) -> sound (bind (W:=W) m k).
Proof.
  intros Hm Hk w. unfold bind. specialize (Hm w).
  destruct (m w) as [[[a|e] w1] t1]; simpl in *; [|exact Hm].
  specialize (Hk a w1). destruct (k a w1) as [[r w2] t2]. simpl in *.
  now apply quiet_app.
Qed.

Lemma sound_try_except {A} (m : M A) (clause : exn -> nat * M A) :
  sound m -> reporting (W:=W) (fun e => snd (clause e)) -> sound (try_except (W:=W) m clause).
Proof.
  intros Hm Hh w. unfold try_except. specialize (Hm w).
  destruct (m w) as [[[a|e] w1] t1]; simpl in *; [exact Hm|].
  destruct (Hh e w1) as [ev [Et [Hr Hd]]].
  destruct (snd (clause e) w1) as [[r w2] t2]. simpl in *. subst t2.
  apply quiet_app; [exact Hm|]. now apply quiet_report.
Qed.

Lemma sound_try_catch {A} (line : nat) (m : M A) (h : exn -> M A) :
  sound m -> reporting h -> sound (try_catch (W:=W) line m h).
Proof. intros Hm Hh. now apply sound_try_except. Qed.

Lemma sound_try_catch_silent {A} (m : M A) (a : A) :
  sound m -> sound (try_catch (W:=W) 119 m (fun _ => ret a)).
Proof.
  intros Hm w. unfold try_catch, try_except. specialize (Hm w).
  destruct (m w) as [[[x|e] w1] t1]; simpl in *; [exact Hm|].
  apply quiet_app; [exact Hm|]. apply quiet_silent.
Qed.

Lemma sound_for_each {A} (body : A -> M unit) (l : list A) :
  (forall x, sound (body x)) -> sound (for_each (W:=W) body l).
Proof.
  intros Hb. induction l as [|x r IH]; simpl.
  - apply sound_ret.
  - apply sound_bind; [apply Hb | intros _; exact IH].
Qed.

Lemma reporting_log (a : string) (f p : pystr) (r : exn -> pystr) :
  pystr_eqb (str a) ACTION_DONE_TOKEN = false ->
  (forall e, reports e (mkEvent (str a) f p (r e)) = true) ->
  reporting (W:=W) (fun e => log a f p (r e)).
Proof.
  intros Ha Hr e w. exists (mkEvent (str a) f p (r e)).
  split; [reflexivity|]. split; [apply Hr | exact Ha].
Qed.

Lemma reporting_log_ret {A} (a : string) (f p : pystr) (r : exn -> pystr) (x : A) :
  pystr_eqb (str a) ACTION_DONE_TOKEN = false ->
  (forall e, reports e (mkEvent (str a) f p (r e)) = true) ->
  reporting (W:=W) (fun e => bind (log a f p (r e)) (fun _ => ret x)).
Proof.
  intros Ha Hr e w. exists (mkEvent (str a) f p (r e)).
  split; [reflexivity|]. split; [apply Hr | exact Ha].
Qed.

Lemma reports_plain e a f p : reports e (mkEvent a f p (exn_str e)) = true.
Proof. unfold reports. simpl. now rewrite pystr_eqb_refl. Qed.

Lemma reports_error e a f p :
  reports e (mkEvent a f p (str "Error: " ++ exn_str e)) = true.
Proof.
  unfold reports. cbn [result]. rewrite (pystr_eqb_refl (str "Error: " ++ exn_str e)).
  now rewrite orb_true_r.
Qed.

Lemma reports_exception e a f p :
  reports e (mkEvent a f p (str "Exception: " ++ exn_str e)) = true.
Proof.
  unfold reports. cbn [result]. rewrite (pystr_eqb_refl (str "Exception: " ++ exn_str e)).
  now rewrite !orb_true_r.
Qed.

End MonadLemmas.

(** ** Every part of the pipeline is sound *)

Section PipelineSound.

Context {W : Type} {P : Platform W}.

Ltac reporting_tac :=
  first
    [ apply reporting_log; [reflexivity | intros; first [apply reports_plain | apply reports_error | apply reports_exception]]
    | apply reporting_log_ret; [reflexivity | intros; first [apply reports_plain | apply reports_error | apply reports_exception]] ].

Ltac sound_step :=
  lazymatch goal with
  | |- sound (bind _ _) => apply sound_bind; [| intros ?]
  | |- sound (ret _) => apply sound_ret
  | |- sound (op _) => apply sound_op
  | |- sound (query _) => apply sound_query
  | |- sound (lift _) => apply sound_lift
  | |- sound (log _ _ _ _) => apply sound_log; reflexivity
  | |- sound (put _) => apply sound_put; reflexivity
  | |- sound (try_catch 119 _ _) => apply sound_try_catch_silent
  | |- sound (try_catch _ _ _) => apply sound_try_catch; [| reporting_tac]
  | |- sound (for_each _ _) => apply sound_for_each; intros ?
  | |- sound (if ?b then _ else _) => destruct b
  | |- sound (match ?x with _ => _ end) => destruct x
  end.

Ltac sound_tac := cbv zeta; repeat (sound_step; cbv zeta).

Lemma sound_cri_loop (patch_source target_rec_dir : pystr) (patch_files : list pystr) :
  sound (cri_loop (W:=W) patch_source target_rec_dir patch_files).
Proof.
  induction patch_files as [|filename rest IH]; simpl.
  - apply sound_ret.
  - destruct (endswith _ _); [|exact IH].
    sound_tac; exact IH.
Qed.

Lemma sound_aod_processing (script_dir d dat org stat cri : pystr) :
  sound (aod_processing (W:=W) script_dir d dat org stat cri).
Proof. unfold aod_processing. sound_tac. Qed.

Lemma sound_post_process_files (recovery_target patch_source script_dir : pystr) :
  sound (post_process_files (W:=W) recovery_target patch_source script_dir).
Proof.
  unfold post_process_files. sound_tac;
    first [apply sound_cri_loop | apply sound_aod_processing].
Qed.

Lemma sound_create_step (target_dir : pystr) (file_node : Element) :
  sound (create_step (W:=W) target_dir file_node).
Proof. unfold create_step. sound_tac. Qed.

Lemma reporting_unpack (source_file : pystr) :
  reporting (W:=W) (fun e =>
    snd (match exn_cls e with
         | FileNotFoundError =>
             (334%nat, log "UNPACK" (str "7z.exe") [] (str "Not Found in Path"))
         | _ =>
             (336%nat, log "UNPACK" source_file [] (str "Exception: " ++ exn_str e))
         end)).
Proof.
  intros e w.
  destruct (exn_cls e) eqn:E;
    try (eexists; split; [reflexivity | split; [apply reports_exception | reflexivity]]).
  eexists; split; [reflexivity | split; [| reflexivity]].
  unfold reports. rewrite E. cbn [result]. rewrite (pystr_eqb_refl (str "Not Found in Path")).
  now rewrite !orb_true_r.
Qed.

Lemma sound_transfer_step (source_dir target_dir : pystr) (file_node : Element) :
  sound (transfer_step (W:=W) source_dir target_dir file_node).
Proof.
  unfold transfer_step. sound_tac.
  apply sound_try_except; [sound_tac | apply reporting_unpack].
Qed.

Lemma try_catch_returns {A} (line : nat) (m : M A) (h : exn -> M A) :
  (forall e, returns (h e)) -> returns (try_catch (W:=W) line m h).
Proof.
  intros Hh w. unfold try_catch, try_except.
  destruct (m w) as [[[a|e] w1] t1]; simpl; [eauto|].
  destruct (Hh e w1) as [a Ha].
  destruct (h e w1) as [[r w2] t2]. simpl in *. eauto.
Qed.

(** The event of the [finally] block. *)
Lemma run_recovery_process_trace (script_dir : pystr) (rmf_root : Element)
    (source_dir patch_dir target_dir : pystr) (w : W) :
  exists t,
    snd (run_recovery_process script_dir rmf_root source_dir patch_dir target_dir w)
      = t ++ [Emit (mkEvent ACTION_DONE_TOKEN [] [] (str "Finished"))]
    /\ quiet t
    /\ fst (fst (run_recovery_process script_dir rmf_root source_dir patch_dir
                   target_dir w)) = Ret tt.
Proof.
  unfold run_recovery_process, try_finally.
  match goal with
  | |- context [try_catch 344 ?b ?h] => set (m := try_catch 344 b h)
  end.
  assert (Hs : sound m).
  { subst m. sound_tac;
      first [apply sound_create_step | apply sound_transfer_step
            | apply sound_post_process_files]. }
  assert (Hr : returns m).
  { subst m. apply try_catch_returns. intros e w'. exists tt. reflexivity. }
  specialize (Hs w). destruct (Hr w) as [[] Ha].
  destruct (m w) as [[r w1] t1]. simpl in *. subst r.
  exists t1. auto.
Qed.

End PipelineSound.

(** ** The worker and its queue *)

(** Past line 250 the done token is put on the queue exactly once and is
    the last event of the run, whatever happened before it, a FATAL event
    included, and the worker returns. *)
Lemma done_token_last :
  forall (W : Type) (P : Platform W) (script_dir : pystr) (rmf_root : Element)
         (source_dir patch_dir target_dir : pystr) (w : W),
    let r := run_recovery_process script_dir rmf_root source_dir patch_dir target_dir w in
    exists evs,
      queue_of (snd r) = evs ++ [mkEvent ACTION_DONE_TOKEN [] [] (str "Finished")]
      /\ forallb (fun ev => negb (is_done ev)) evs = true
      /\ length (filter is_done (queue_of (snd r))) = 1%nat
      /\ fst (fst r) = Ret tt.
Proof.
  intros W P script_dir rmf_root source_dir patch_dir target_dir w r.
  destruct (run_recovery_process_trace script_dir rmf_root source_dir patch_dir
              target_dir w) as [t [Et [[_ Hd] Hr]]].
  fold r in Et, Hr. exists (queue_of t).
  rewrite Et, queue_of_app. simpl. repeat split; auto.
  rewrite filter_app. simpl.
  assert (E : filter is_done (queue_of t) = []).
  { clear -Hd. induction (queue_of t) as [|ev l IH]; [reflexivity|].
    simpl in *. apply andb_prop in Hd. destruct Hd as [H1 H2].
    destruct (is_done ev); [discriminate | auto]. }
  rewrite E. reflexivity.
Qed.

(** Line 250: an exception there is the end of the worker, with nothing
    put; otherwise the worker goes on with the directory found. *)
Lemma run_recovery_process_thread_cases {W : Type} {P : Platform W} {R : Process W}
    (rmf_root : Element) (source_dir patch_dir target_dir : pystr) (w : W) :
  match path_abspath sys_argv0 w with
  | Raise e =>
      run_recovery_process_thread rmf_root source_dir patch_dir target_dir w
      = (Raise e, w, [])
  | Ret script_path =>
      run_recovery_process_thread rmf_root source_dir patch_dir target_dir w
      = run_recovery_process (path_dirname script_path) rmf_root source_dir patch_dir
                             target_dir w
  end.
Proof.
  unfold run_recovery_process_thread, bind, op.
  destruct (path_abspath sys_argv0 w) as [script_path|e]; [|reflexivity].
  destruct (run_recovery_process _ _ _ _ _ w) as [[r w2] t2]. reflexivity.
Qed.

(** C5. The done token is not put on every run. The program was started
    as [python RecoveryUSBMaker.py] and its working directory has been
    removed since; the worker, started on a manifest, a source tree and a
    target that are all there, raises [FileNotFoundError] at line 250,
    before the [try] of line 255: it puts nothing on the queue, neither
    FATAL nor the done token, and copies nothing. With the working
    directory in place the same run copies the file and ends with the
    done token. *)
Theorem done_token_missing_without_working_directory :
  Scenario.thread Scenario.no_working_directory
  = (Raise (mkExn FileNotFoundError (str "[Errno 2] No such file or directory")),
     Scenario.no_working_directory, [])
  /\ queue_of (snd (Scenario.thread Scenario.working_directory))
     = [Scenario.ev "INIT" "Target Dir" "/mnt/usb" "Created/Verified";
        Scenario.ev "COPY" "a.bin" "RECOVERY" "Success";
        Scenario.ev "STATUS" "" "" "Post-processing complete.";
        Scenario.ev "STATUS" "" "" "Recovery Creation Completed!";
        Scenario.ev "PROCESS_DONE" "" "" "Finished"].
Proof. split; vm_compute; reflexivity. Qed.

(** C3, as amended. Every failure caught in the pipeline, in the executor
    or in post-processing, puts exactly one event describing it on the
    queue, except a failure of the classification read of a recipe file
    (line 119), which is dropped without an event. *)
Theorem caught_failures_reported :
  forall (W : Type) (P : Platform W) (script_dir : pystr) (rmf_root : Element)
         (source_dir patch_dir target_dir : pystr) (w : W),
    accounted classification_read
      (snd (run_recovery_process script_dir rmf_root source_dir patch_dir target_dir w))
    = true.
Proof.
  intros W P script_dir rmf_root source_dir patch_dir target_dir w.
  destruct (run_recovery_process_trace script_dir rmf_root source_dir patch_dir
              target_dir w) as [t [Et [[Ha _] _]]].
  rewrite Et. apply accounted_app; [exact Ha | reflexivity].
Qed.

(** C3, as stated, fails: when a recipe file of the patch directory cannot
    be read, the failure is caught at line 119 and no event is put. *)
Lemma classification_failure_is_silent :
  let r := Scenario.run Scenario.empty_manifest "PATCH" Scenario.unreadable_cri in
  accounted no_silent_clause (snd r) = false
  /\ snd r =
     [Emit (Scenario.ev "INIT" "Target Dir" "USB" "Created/Verified");
      Caught 119 (Posix.os_error "[Errno 21] Is a directory: " (str "PATCH/x.cri"));
      Handled 119;
      Emit (Scenario.ev "STATUS" "" "" "Post-processing complete.");
      Emit (Scenario.ev "STATUS" "" "" "Recovery Creation Completed!");
      Emit (Scenario.ev "PROCESS_DONE" "" "" "Finished")].
Proof. vm_compute. split; reflexivity. Qed.

(** ** The executor *)

(** C2, on the code. The second create action cannot get its destination
    directory ([USB/X] is the file the first action wrote): the failure
    is not turned into a CREATE event, it ends the run with FATAL, and the
    transfer of [a.bin], which is present, is never attempted. *)
Theorem create_directory_failure_is_fatal :
  let r := Scenario.run Scenario.blocked_create "" Scenario.source_tree in
  queue_of (snd r) =
    [Scenario.ev "INIT" "Target Dir" "USB" "Created/Verified";
     Scenario.ev "CREATE" "X" "" "Success";
     Scenario.ev "FATAL" "Main Loop" "" "[Errno 17] File exists: 'USB/X'";
     Scenario.ev "PROCESS_DONE" "" "" "Finished"]
  /\ Posix.exists_ (str "USB/RECOVERY/a.bin") (snd (fst r)) = false.
Proof. vm_compute. split; reflexivity. Qed.

(** C7, on the code. The source [missing.bin] does not exist, but the
    destination directory is made first and cannot be ([USB/DATA] is a
    file): no MISSING event is put, the run ends with FATAL and the next
    transfer is never attempted. *)
Theorem missing_source_without_event :
  let r := Scenario.run Scenario.blocked_missing "" Scenario.source_tree in
  Posix.exists_ (str "SRC/missing.bin") Scenario.source_tree = false
  /\ existsb (has_action "MISSING") (queue_of (snd r)) = false
  /\ queue_of (snd r) =
       [Scenario.ev "INIT" "Target Dir" "USB" "Created/Verified";
        Scenario.ev "CREATE" "DATA" "" "Success";
        Scenario.ev "FATAL" "Main Loop" "" "[Errno 17] File exists: 'USB/DATA'";
        Scenario.ev "PROCESS_DONE" "" "" "Finished"].
Proof. vm_compute. repeat split; reflexivity. Qed.

(** ** Post-processing *)

(** C4, on the code. With a recipe pair adopted, an index present and
    [aodbuild.exe] absent, [post_process_files] returns after the ERROR
    event: its STATUS event is not put. *)
Theorem missing_tool_skips_status :
  let r := post_process_files (P:=Posix.platform) (str "USB") (str "PATCH") (str "APP")
             Scenario.no_aodbuild in
  queue_of (snd r) =
    [Scenario.ev "COPY" "a.cri & .IMZ" "RECOVERY" "Copied from Patch";
     Scenario.ev "ERROR" "aodbuild.exe" "" "Tool missing in script dir"]
  /\ existsb is_status (queue_of (snd r)) = false
  /\ queue_of (snd (Scenario.run Scenario.empty_manifest "PATCH" Scenario.no_aodbuild)) =
       [Scenario.ev "INIT" "Target Dir" "USB" "Created/Verified";
        Scenario.ev "COPY" "a.cri & .IMZ" "RECOVERY" "Copied from Patch";
        Scenario.ev "ERROR" "aodbuild.exe" "" "Tool missing in script dir";
        Scenario.ev "STATUS" "" "" "Recovery Creation Completed!";
        Scenario.ev "PROCESS_DONE" "" "" "Finished"].
Proof. vm_compute. repeat split; reflexivity. Qed.

(** With the destination directories free, the same two transfers give
    MISSING for the absent source and the copy of the present one. *)
Lemma missing_source_reported :
  queue_of (snd (Scenario.run Scenario.plain_missing "" Scenario.source_tree)) =
    [Scenario.ev "INIT" "Target Dir" "USB" "Created/Verified";
     Scenario.ev "MISSING" "missing.bin" "" "Source not found";
     Scenario.ev "COPY" "a.bin" "RECOVERY" "Success";
     Scenario.ev "STATUS" "" "" "Post-processing complete.";
     Scenario.ev "STATUS" "" "" "Recovery Creation Completed!";
     Scenario.ev "PROCESS_DONE" "" "" "Finished"].
Proof. vm_compute. reflexivity. Qed.

(** When the destination directory can be made, a missing source gives
    the MISSING event and nothing else, and the loop goes on. *)
Lemma transfer_step_missing {W : Type} {P : Platform W}
    (source_dir target_dir : pystr) (file_node : Element) (w w1 : W) :
  is_transfer_action file_node = true ->
  let source_file := from_opt (el_get file_node (str "source")) in
  let copypath_rel :=
    strip_chars (str "/\") (el_get_default file_node (str "copypath") []) in
  os_makedirs (path_join target_dir copypath_rel) w = (Ret tt, w1) ->
  path_exists (path_join source_dir source_file) w1 = false ->
  transfer_step source_dir target_dir file_node w
  = (Ret tt, w1, [Emit (mkEvent (str "MISSING") source_file [] (str "Source not found"))]).
Proof.
  intros Ht. cbv zeta. intros Hmk Hex.
  unfold transfer_step. rewrite Ht. cbv zeta.
  unfold bind, op, query. cbn [negb]. cbv iota.
  rewrite Hmk, Hex. reflexivity.
Qed.

(** ** The action list *)

Lemma subseq_filter {A} (f : A -> bool) (l : list A) : subseq (filter f l) l.
Proof.
  induction l as [|x r IH]; simpl; [constructor|].
  destruct (f x); now constructor.
Qed.

Lemma truthy_opt_spec (o : option pystr) :
  truthy_opt o = true <-> exists s, o = Some s /\ s <> [].
Proof.
  destruct o as [[|c r]|]; simpl; split; intros H;
    try discriminate; try reflexivity.
  - destruct H as [s [E N]]. inversion E. congruence.
  - eexists; split; [reflexivity | discriminate].
  - destruct H as [s [E _]]. discriminate.
Qed.

Lemma is_create_action_spec (n : Element) :
  is_create_action n = true <->
  (exists name, el_get n (str "name") = Some name /\ name <> [])
  /\ (exists fc text, el_find n (str "fcontent") = Some fc
                      /\ el_text fc = Some text /\ text <> []).
Proof.
  unfold is_create_action, has_text. rewrite andb_true_iff, truthy_opt_spec.
  split; intros [H1 H2]; (split; [exact H1|]).
  - destruct (el_find n (str "fcontent")) as [fc|]; [|discriminate].
    apply truthy_opt_spec in H2. destruct H2 as [t [E N]]. eauto.
  - destruct H2 as [fc [t [E1 [E2 N]]]]. rewrite E1.
    apply truthy_opt_spec. eauto.
Qed.

Lemma is_transfer_action_spec (n : Element) :
  is_transfer_action n = true <->
  exists source, el_get n (str "source") = Some source /\ source <> [].
Proof. unfold is_transfer_action. apply truthy_opt_spec. Qed.

Lemma bind_ret_tt {W : Type} {P : Platform W} (k : unit -> M unit) (w : W) :
  bind (ret tt) k w = k tt w.
Proof. unfold bind, ret. destruct (k tt w) as [[r w2] t2]. reflexivity. Qed.

Lemma for_each_filter {W : Type} {P : Platform W} {A}
    (guard : A -> bool) (body : A -> M unit) (l : list A) :
  (forall x, guard x = false -> body x = ret tt) ->
  forall w : W, for_each body l w = for_each body (filter guard l) w.
Proof.
  intros Hskip. induction l as [|x r IH]; intros w; simpl; [reflexivity|].
  destruct (guard x) eqn:G; simpl.
  - unfold bind. destruct (body x w) as [[[[]|e] w1] t1]; [|reflexivity].
    rewrite IH. reflexivity.
  - rewrite (Hskip x G), bind_ret_tt. apply IH.
Qed.

Lemma create_step_skips {W : Type} {P : Platform W} (target_dir : pystr) (n : Element) :
  is_create_action n = false -> create_step (W:=W) target_dir n = ret tt.
Proof. intros H. unfold create_step. now rewrite H. Qed.

Lemma transfer_step_skips {W : Type} {P : Platform W}
    (source_dir target_dir : pystr) (n : Element) :
  is_transfer_action n = false -> transfer_step (W:=W) source_dir target_dir n = ret tt.
Proof. intros H. unfold transfer_step. now rewrite H. Qed.

Lemma bind_ext {W : Type} {P : Platform W} {A B} (m : M A) (k1 k2 : A -> M B) (w : W) :
  (forall a w', k1 a w' = k2 a w') -> bind m k1 w = bind m k2 w.
Proof.
  intros H. unfold bind. destruct (m w) as [[[a|e] w1] t1]; [|reflexivity].
  now rewrite H.
Qed.

Lemma bind_ext_l {W : Type} {P : Platform W} {A B} (m1 m2 : M A) (k : A -> M B) (w : W) :
  m1 w = m2 w -> bind m1 k w = bind m2 k w.
Proof. intros H. unfold bind. now rewrite H. Qed.

Lemma try_catch_ext {W : Type} {P : Platform W} {A} (line : nat) (m1 m2 : M A)
    (h : exn -> M A) (w : W) :
  m1 w = m2 w -> try_catch line m1 h w = try_catch line m2 h w.
Proof. intros H. unfold try_catch, try_except. now rewrite H. Qed.

Lemma try_finally_ext {W : Type} {P : Platform W} {A} (m1 m2 : M A) (f : M unit) (w : W) :
  m1 w = m2 w -> try_finally m1 f w = try_finally m2 f w.
Proof. intros H. unfold try_finally. now rewrite H. Qed.

Lemma bind_lift_ret {W : Type} {P : Platform W} {A B} (a : A) (k : A -> M B) (w : W) :
  bind (lift (Ret a)) k w = k a w.
Proof. unfold bind, lift. destruct (k a w) as [[r w2] t2]. reflexivity. Qed.

Lemma bind_lift_raise {W : Type} {P : Platform W} {A B} (e : exn) (k : A -> M B) (w : W) :
  bind (lift (Raise e)) k w = (Raise e, w, []).
Proof. reflexivity. Qed.

(** The worker does on the file nodes of the manifest what the executor
    does on the action list. *)
Lemma run_recovery_process_on_actions {W : Type} {P : Platform W}
    (script_dir : pystr) (manifest : Element)
    (source_dir patch_dir target_dir : pystr) (w : W) :
  run_recovery_process script_dir manifest source_dir patch_dir target_dir w
  = run_action_list script_dir manifest (create_actions manifest)
      (transfer_actions manifest) source_dir patch_dir target_dir w.
Proof.
  unfold run_recovery_process, run_action_list, create_actions, transfer_actions,
    file_nodes_of.
  apply try_finally_ext, try_catch_ext.
  apply bind_ext. intros _ w1. apply bind_ext. intros _ w2. cbv zeta.
  destruct (el_find manifest (str "recovery")) as [recovery_node|];
    [|unfold opt_find; now rewrite !bind_lift_raise].
  unfold opt_find. rewrite !bind_lift_ret.
  assert (Hc : forall w',
             match el_find recovery_node (str "manualfiles") with
             | Some n => for_each (create_step target_dir) (el_findall n (str "file"))
             | None => ret tt
             end w'
             = for_each (create_step target_dir)
                 (filter is_create_action
                    match el_find recovery_node (str "manualfiles") with
                    | Some n => el_findall n (str "file")
                    | None => []
                    end) w').
  { intros w'. destruct (el_find recovery_node (str "manualfiles")); [|reflexivity].
    apply for_each_filter. intros x Hx. now apply create_step_skips. }
  assert (Ht : forall w',
             match el_find recovery_node (str "files") with
             | Some n =>
                 for_each (transfer_step source_dir target_dir) (el_findall n (str "file"))
             | None => ret tt
             end w'
             = for_each (transfer_step source_dir target_dir)
                 (filter is_transfer_action
                    match el_find recovery_node (str "files") with
                    | Some n => el_findall n (str "file")
                    | None => []
                    end) w').
  { intros w'. destruct (el_find recovery_node (str "files")); [|reflexivity].
    apply for_each_filter. intros x Hx. now apply transfer_step_skips. }
  rewrite (bind_ext_l _ _ _ _ (Hc w2)). apply bind_ext. intros _ w3.
  rewrite !bind_lift_ret. apply bind_ext_l, Ht.
Qed.

(** A node the action list keeps is acted on: a create action makes its
    directory, outside the [try], then writes and reports. *)
Lemma create_step_acts {W : Type} {P : Platform W}
    (target_dir : pystr) (n : Element) (w : W) :
  is_create_action n = true ->
  let name := from_opt (el_get n (str "name")) in
  let copypath_rel := strip_chars (str "/\") (el_get_default n (str "copypath") []) in
  let full_target_path := path_join (path_join target_dir copypath_rel) name in
  let text := strip (text_of (el_find n (str "fcontent"))) in
  let log_msg :=
    if pystr_eqb (str_upper name) (str "VALUES.TXT")
    then str "Content Verified (Written)" else str "Success" in
  create_step target_dir n w
  = match os_makedirs (path_dirname full_target_path) w with
    | (Raise e, w1) => (Raise e, w1, [])
    | (Ret _, w1) =>
        match write_text full_target_path text w1 with
        | (Ret _, w2) =>
            (Ret tt, w2, [Emit (mkEvent (str "CREATE") name copypath_rel log_msg)])
        | (Raise e, w2) =>
            (Ret tt, w2,
             [Caught 285 e;
              Emit (mkEvent (str "CREATE") name copypath_rel (str "Error: " ++ exn_str e));
              Handled 285])
        end
    end.
Proof.
  intros Hc. cbv zeta. unfold create_step. rewrite Hc. cbv zeta.
  unfold bind at 1. unfold op at 1.
  destruct (os_makedirs _ w) as [[[]|e] w1]; [|reflexivity].
  unfold try_catch, try_except, bind, op, log, put.
  destruct (write_text _ _ w1) as [[[]|e] w2]; reflexivity.
Qed.

(** A transfer action makes its directory, outside any [try], and then
    looks for its source. *)
Lemma transfer_step_acts {W : Type} {P : Platform W}
    (source_dir target_dir : pystr) (n : Element) (w : W) :
  is_transfer_action n = true ->
  let source_file := from_opt (el_get n (str "source")) in
  let copypath_rel := strip_chars (str "/\") (el_get_default n (str "copypath") []) in
  match os_makedirs (path_join target_dir copypath_rel) w with
  | (Raise e, w1) => transfer_step source_dir target_dir n w = (Raise e, w1, [])
  | (Ret _, w1) =>
      path_exists (path_join source_dir source_file) w1 = false ->
      transfer_step source_dir target_dir n w
      = (Ret tt, w1, [Emit (mkEvent (str "MISSING") source_file [] (str "Source not found"))])
  end.
Proof.
  intros Ht. cbv zeta.
  destruct (os_makedirs _ w) as [[[]|e] w1] eqn:Hmk.
  - intros Hex. now apply transfer_step_missing.
  - unfold transfer_step. rewrite Ht. cbv zeta.
    unfold bind at 1. unfold op at 1. cbn [negb]. cbv iota. now rewrite Hmk.
Qed.

(** C6. For every manifest the action list holds exactly the create-type
    nodes with a non-empty name and inline content and exactly the
    transfer-type nodes with a non-empty source; the others are left
    out, the document order is kept and there are at most as many actions
    as file nodes. The list is what the worker acts on: its run on the
    manifest is the run of the executor on the action list; a node left
    out is passed without any effect; a create action of the list makes
    its directory, writes its file and reports; a transfer action of the
    list makes its directory and looks for its source. *)
Theorem action_list_of_manifest :
  forall manifest : Element,
    let creates := file_nodes_of manifest "manualfiles" in
    let transfers := file_nodes_of manifest "files" in
    (forall n, In n (create_actions manifest) <->
       In n creates
       /\ (exists name, el_get n (str "name") = Some name /\ name <> [])
       /\ (exists fc text, el_find n (str "fcontent") = Some fc
                           /\ el_text fc = Some text /\ text <> []))
    /\ (forall n, In n (transfer_actions manifest) <->
          In n transfers
          /\ exists source, el_get n (str "source") = Some source /\ source <> [])
    /\ subseq (create_actions manifest) creates
    /\ subseq (transfer_actions manifest) transfers
    /\ (length (create_actions manifest ++ transfer_actions manifest)
        <= length (creates ++ transfers))%nat
    /\ (forall (W : Type) (P : Platform W) (script_dir source_dir patch_dir
               target_dir : pystr) (w : W),
          run_recovery_process script_dir manifest source_dir patch_dir target_dir w
          = run_action_list script_dir manifest (create_actions manifest)
              (transfer_actions manifest) source_dir patch_dir target_dir w)
    /\ (forall (W : Type) (P : Platform W) (source_dir target_dir : pystr) (w : W) n,
          (In n creates -> ~ In n (create_actions manifest) ->
           create_step target_dir n w = (Ret tt, w, []))
          /\ (In n transfers -> ~ In n (transfer_actions manifest) ->
              transfer_step source_dir target_dir n w = (Ret tt, w, [])))
    /\ (forall (W : Type) (P : Platform W) (target_dir : pystr) (w : W) n,
          In n (create_actions manifest) ->
          let name := from_opt (el_get n (str "name")) in
          let copypath_rel :=
            strip_chars (str "/\") (el_get_default n (str "copypath") []) in
          let full_target_path := path_join (path_join target_dir copypath_rel) name in
          let text := strip (text_of (el_find n (str "fcontent"))) in
          let log_msg :=
            if pystr_eqb (str_upper name) (str "VALUES.TXT")
            then str "Content Verified (Written)" else str "Success" in
          create_step target_dir n w
          = match os_makedirs (path_dirname full_target_path) w with
            | (Raise e, w1) => (Raise e, w1, [])
            | (Ret _, w1) =>
                match write_text full_target_path text w1 with
                | (Ret _, w2) =>
                    (Ret tt, w2,
                     [Emit (mkEvent (str "CREATE") name copypath_rel log_msg)])
                | (Raise e, w2) =>
                    (Ret tt, w2,
                     [Caught 285 e;
                      Emit (mkEvent (str "CREATE") name copypath_rel
                                    (str "Error: " ++ exn_str e));
                      Handled 285])
                end
            end)
    /\ (forall (W : Type) (P : Platform W) (source_dir target_dir : pystr) (w : W) n,
          In n (transfer_actions manifest) ->
          let source_file := from_opt (el_get n (str "source")) in
          let copypath_rel :=
            strip_chars (str "/\") (el_get_default n (str "copypath") []) in
          match os_makedirs (path_join target_dir copypath_rel) w with
          | (Raise e, w1) => transfer_step source_dir target_dir n w = (Raise e, w1, [])
          | (Ret _, w1) =>
              path_exists (path_join source_dir source_file) w1 = false ->
              transfer_step source_dir target_dir n w
              = (Ret tt, w1,
                 [Emit (mkEvent (str "MISSING") source_file [] (str "Source not found"))])
          end).
Proof.
  intros manifest creates transfers.
  split; [|split; [|split; [|split; [|split; [|split; [|split; [|split]]]]]]].
  - intros n. unfold create_actions. fold creates.
    rewrite filter_In, is_create_action_spec. tauto.
  - intros n. unfold transfer_actions. fold transfers.
    rewrite filter_In, is_transfer_action_spec. tauto.
  - apply subseq_filter.
  - apply subseq_filter.
  - unfold create_actions, transfer_actions. fold creates transfers.
    rewrite !length_app.
    pose proof (filter_length_le is_create_action creates).
    pose proof (filter_length_le is_transfer_action transfers). lia.
  - intros W P script_dir source_dir patch_dir target_dir w.
    apply run_recovery_process_on_actions.
  - intros W P source_dir target_dir w n. split; intros Hin Hout.
    + rewrite create_step_skips; [reflexivity|].
      destruct (is_create_action n) eqn:E; [|reflexivity].
      exfalso. apply Hout. apply filter_In. now split.
    + rewrite transfer_step_skips; [reflexivity|].
      destruct (is_transfer_action n) eqn:E; [|reflexivity].
      exfalso. apply Hout. apply filter_In. now split.
  - intros W P target_dir w n Hin. apply filter_In in Hin.
    apply create_step_acts. tauto.
  - intros W P source_dir target_dir w n Hin. apply filter_In in Hin.
    apply transfer_step_acts. tauto.
Qed.

(** The action list of a manifest with one node of each kind left out. *)
Lemma action_list_of_manifest_witness :
  In Scenario.named
     (create_actions Scenario.mixed)
  /\ create_step (P:=Posix.platform) (str "/mnt/usb")
       Scenario.named
       Scenario.no_working_directory
     = (Ret tt,
        (str "/mnt/usb/X", Posix.File (str "hello") None) :: Scenario.no_working_directory,
        [Emit (Scenario.ev "CREATE" "X" "" "Success")])
  /\ create_step (P:=Posix.platform) (str "/mnt/usb")
       Scenario.nameless
       Scenario.no_working_directory
     = (Ret tt, Scenario.no_working_directory, [])
  /\ transfer_step (P:=Posix.platform) (str "/data/SRC") (str "/mnt/usb")
       Scenario.lost
       Scenario.no_working_directory
     = (Ret tt, Scenario.no_working_directory,
        [Emit (Scenario.ev "MISSING" "missing.bin" "" "Source not found")]).
Proof.
  destruct (action_list_of_manifest Scenario.mixed)
    as (_ & _ & _ & _ & _ & _ & Hskip & Hcreate & Htransfer).
  assert (Hin : In Scenario.named
                   (create_actions Scenario.mixed)) by (vm_compute; auto).
  split; [exact Hin|]. split; [|split].
  - rewrite (Hcreate _ Posix.platform (str "/mnt/usb") Scenario.no_working_directory _ Hin).
    vm_compute. reflexivity.
  - apply (Hskip _ Posix.platform (str "/data/SRC") (str "/mnt/usb")
             Scenario.no_working_directory).
    + vm_compute. auto.
    + vm_compute. intros [H|[H|[]]]; discriminate.
  - assert (Hin2 : In Scenario.lost
                      (transfer_actions Scenario.mixed)) by (vm_compute; auto).
    pose proof (Htransfer _ Posix.platform (str "/data/SRC") (str "/mnt/usb")
                  Scenario.no_working_directory _ Hin2) as H.
    vm_compute in H. vm_compute. apply H. reflexivity.
Defined.

(** ** Lines and blank lines *)

Lemma lstrip_by_nil_iff (p : Z -> bool) (s : pystr) :
  lstrip_by p s = [] <-> forallb p s = true.
Proof.
  induction s as [|c r IH]; simpl; [tauto|].
  destruct (p c); simpl; [exact IH|]. split; discriminate.
Qed.

Lemma lstrip_by_keeps (p : Z -> bool) (s : pystr) (c : Z) :
  p c = false -> lstrip_by p (s ++ [c]) <> [].
Proof.
  intros Hc H. apply lstrip_by_nil_iff in H.
  rewrite forallb_app in H. simpl in H. rewrite Hc in H.
  rewrite andb_false_r in H. discriminate.
Qed.

Lemma lstrip_by_cases (p : Z -> bool) (s : pystr) :
  lstrip_by p s = [] \/ exists c r, lstrip_by p s = c :: r /\ p c = false.
Proof.
  induction s as [|c r IH]; simpl; [now left|].
  destruct (p c) eqn:E; [exact IH|]. right. eauto.
Qed.

(** A line is non-blank exactly when it holds a character that is not
    white space. *)
Lemma nonblank_spec (s : pystr) :
  nonblank s = existsb (fun c => negb (py_isspace c)) s.
Proof.
  unfold nonblank, strip, strip_by, rstrip_by.
  destruct (existsb (fun c => negb (py_isspace c)) s) eqn:E.
  - destruct (lstrip_by_cases py_isspace s) as [H | [c [r [H Hc]]]].
    + apply lstrip_by_nil_iff in H.
      apply existsb_exists in E. destruct E as [x [Hx Hn]].
      rewrite forallb_forall in H. rewrite (H x Hx) in Hn. discriminate.
    + rewrite H. simpl rev.
      destruct (lstrip_by py_isspace (rev r ++ [c])) as [|d u] eqn:F.
      * exfalso. revert F. now apply lstrip_by_keeps.
      * simpl. destruct (rev u ++ [d]) eqn:G; [|reflexivity].
        destruct (rev u); discriminate.
  - assert (H : lstrip_by py_isspace s = []).
    { apply lstrip_by_nil_iff. apply forallb_forall. intros x Hx.
      destruct (py_isspace x) eqn:Ex; [reflexivity|].
      assert (existsb (fun c => negb (py_isspace c)) s = true)
        by (apply existsb_exists; exists x; split; [exact Hx | now rewrite Ex]).
      congruence. }
    rewrite H. reflexivity.
Qed.

Lemma nonblank_app_l (a b : pystr) : nonblank a = true -> nonblank (a ++ b) = true.
Proof. rewrite !nonblank_spec, existsb_app. intros ->. reflexivity. Qed.

Lemma readlines_shape (s : pystr) : Forall line_shape (readlines s).
Proof.
  induction s as [|c r IH]; simpl; [constructor|].
  destruct (Z.eqb_spec c 10) as [->|Hc].
  - constructor; [|exact IH]. apply (line_ended []). intros [].
  - destruct (readlines r) as [|h t].
    + constructor; [|constructor].
      apply line_open. intros [H|[]]. congruence.
    + inversion IH as [|? ? Hh Ht]; subst. constructor; [|exact Ht].
      inversion Hh as [body Hb | d body Hb]; subst.
      * apply (line_ended (c :: body)). intros [H|H]; [congruence | contradiction].
      * apply line_open. intros [H|H]; [congruence | contradiction].
Qed.

Lemma readlines_ended (body s : pystr) :
  ~ In 10 body -> readlines ((body ++ [10]) ++ s) = (body ++ [10]) :: readlines s.
Proof.
  induction body as [|c b IH]; intros Hb; simpl.
  - reflexivity.
  - destruct (Z.eqb_spec c 10) as [->|Hc]; [exfalso; apply Hb; now left|].
    rewrite IH by (intros H; apply Hb; now right). reflexivity.
Qed.

Lemma readlines_open (body s : pystr) (c : Z) :
  ~ In 10 (c :: body) ->
  readlines ((c :: body) ++ s)
  = match readlines s with
    | h :: t => ((c :: body) ++ h) :: t
    | [] => [c :: body]
    end.
Proof.
  revert c. induction body as [|d b IH]; intros c Hb.
  - simpl. destruct (Z.eqb_spec c 10) as [->|Hc]; [exfalso; apply Hb; now left|].
    destruct (readlines s); reflexivity.
  - change ((c :: d :: b) ++ s) with (c :: ((d :: b) ++ s)).
    cbn [readlines].
    destruct (Z.eqb_spec c 10) as [->|Hc]; [exfalso; apply Hb; now left|].
    rewrite IH by (intros H; apply Hb; now right).
    destruct (readlines s); reflexivity.
Qed.

(** Written one after the other, non-blank lines give a text without
    blank lines. *)
Lemma readlines_concat_nonblank (ls : list pystr) :
  Forall line_shape ls -> Forall (fun l => nonblank l = true) ls ->
  Forall (fun l => nonblank l = true) (readlines (concat ls)).
Proof.
  induction ls as [|l r IH]; intros Hs Hn; simpl; [constructor|].
  inversion Hs as [|? ? Hl Hr]; subst. inversion Hn as [|? ? Nl Nr]; subst.
  specialize (IH Hr Nr).
  inversion Hl as [body Hb | c body Hb]; subst.
  - rewrite readlines_ended by exact Hb. now constructor.
  - rewrite readlines_open by exact Hb.
    destruct (readlines (concat r)) as [|h t].
    + constructor; [exact Nl | constructor].
    + inversion IH; subst. constructor; [now apply nonblank_app_l | assumption].
Qed.

Lemma next_lines_firstn (n : nat) (l : list pystr) :
  (n <= length l)%nat -> next_lines n l = Ret (firstn n l).
Proof.
  revert l. induction n as [|n IH]; intros l Hn; simpl; [reflexivity|].
  destruct l as [|x r]; [simpl in Hn; lia|]. simpl.
  rewrite IH by (simpl in Hn; lia). reflexivity.
Qed.

Lemma Forall_filter {A} (f : A -> bool) (Q : A -> Prop) (l : list A) :
  Forall Q l -> Forall Q (filter f l).
Proof.
  intros H. apply Forall_forall. intros x Hx. apply filter_In in Hx.
  rewrite Forall_forall in H. now apply H.
Qed.

Lemma Forall_firstn_of {A} (Q : A -> Prop) (n : nat) (l : list A) :
  Forall Q l -> Forall Q (firstn n l).
Proof.
  revert l. induction n as [|n IH]; intros l H; simpl; [constructor|].
  destruct H; constructor; auto.
Qed.

Lemma Forall_skipn_of {A} (Q : A -> Prop) (n : nat) (l : list A) :
  Forall Q l -> Forall Q (skipn n l).
Proof.
  revert l. induction n as [|n IH]; intros l H; simpl; [exact H|].
  destruct H; [constructor | auto].
Qed.

Lemma Forall_filter_true {A} (f : A -> bool) (l : list A) :
  Forall (fun x => f x = true) (filter f l).
Proof. apply Forall_forall. intros x Hx. now apply filter_In in Hx. Qed.

Lemma filter_all {A} (f : A -> bool) (l : list A) :
  forallb f l = true -> filter f l = l.
Proof.
  induction l as [|x r IH]; simpl; [reflexivity|].
  intros H. apply andb_prop in H. destruct H as [-> H]. now rewrite IH.
Qed.

(** *** The lines of the text written *)

Lemma ended_spec (line : pystr) :
  line_shape line -> ended line = true ->
  exists body, line = body ++ [10] /\ ~ In 10 body.
Proof.
  intros Hs He. inversion Hs as [body Hb | c body Hb]; subst; [eauto|].
  exfalso. apply Hb. unfold ended, endswith in He.
  change (rev [10]) with [10] in He.
  apply in_rev. destruct (rev (c :: body)) as [|d u]; [discriminate|].
  cbn [startswith] in He. apply andb_prop in He. destruct He as [He _].
  apply Z.eqb_eq in He. subst d. now left.
Qed.

Lemma ended_line (body : pystr) : ended (body ++ [10]) = true.
Proof. apply endswith_app. Qed.

Lemma readlines_concat (ls : list pystr) :
  Forall line_shape ls -> ended_but_last ls = true -> readlines (concat ls) = ls.
Proof.
  induction ls as [|l r IH]; intros Hs He; [reflexivity|].
  inversion Hs as [|? ? Hl Hr]; subst. cbn [concat].
  destruct r as [|l2 r].
  - cbn [concat]. inversion Hl as [body Hb | c body Hb]; subst.
    + rewrite readlines_ended by exact Hb. reflexivity.
    + rewrite readlines_open by exact Hb. reflexivity.
  - cbn [ended_but_last] in He. apply andb_prop in He. destruct He as [E1 E2].
    destruct (ended_spec l Hl E1) as [body [-> Hb]].
    rewrite readlines_ended by exact Hb. now rewrite IH.
Qed.

Lemma readlines_ended_but_last (s : pystr) : ended_but_last (readlines s) = true.
Proof.
  induction s as [|c r IH]; [reflexivity|]. cbn [readlines].
  destruct (Z.eqb_spec c 10) as [->|Hc].
  - cbn [ended_but_last]. destruct (readlines r); [reflexivity|].
    rewrite IH. reflexivity.
  - pose proof (readlines_shape r) as Hs.
    destruct (readlines r) as [|h t]; [reflexivity|].
    cbn [ended_but_last] in *. destruct t as [|h2 t]; [reflexivity|].
    apply andb_prop in IH. destruct IH as [E1 E2]. rewrite E2, andb_true_r.
    inversion Hs as [|? ? Hh _]; subst.
    destruct (ended_spec h Hh E1) as [body [-> _]].
    apply (ended_line (c :: body)).
Qed.

Lemma ended_but_last_tail (l : pystr) (r : list pystr) :
  ended_but_last (l :: r) = true -> ended_but_last r = true.
Proof.
  cbn [ended_but_last]. destruct r; [reflexivity|].
  intros H. now apply andb_prop in H.
Qed.

Lemma ended_but_last_skipn (n : nat) (ls : list pystr) :
  ended_but_last ls = true -> ended_but_last (skipn n ls) = true.
Proof.
  revert ls. induction n as [|n IH]; intros [|l r] H; try exact H.
  cbn [skipn]. apply IH. now apply ended_but_last_tail in H.
Qed.

Lemma ended_but_last_cons (l : pystr) (r : list pystr) :
  ended l = true -> ended_but_last r = true -> ended_but_last (l :: r) = true.
Proof. intros E H. cbn [ended_but_last]. destruct r; [reflexivity|]. now rewrite E. Qed.

Lemma ended_but_last_filter (f : pystr -> bool) (ls : list pystr) :
  ended_but_last ls = true -> ended_but_last (filter f ls) = true.
Proof.
  induction ls as [|l r IH]; intros H; [reflexivity|].
  pose proof (ended_but_last_tail _ _ H) as Hr. cbn [filter].
  destruct (f l); [|now apply IH].
  destruct (filter f r) as [|l2 r2] eqn:F; [reflexivity|].
  apply ended_but_last_cons; [|now apply IH].
  destruct r as [|x r']; [discriminate|].
  cbn [ended_but_last] in H. now apply andb_prop in H.
Qed.

Lemma ended_but_last_app (a b : list pystr) :
  forallb ended a = true -> ended_but_last b = true -> ended_but_last (a ++ b) = true.
Proof.
  induction a as [|l r IH]; intros Ha Hb; [exact Hb|].
  cbn [forallb] in Ha. apply andb_prop in Ha. destruct Ha as [E Ha].
  cbn [app]. apply ended_but_last_cons; auto.
Qed.

Lemma forallb_filter_of {A} (f g : A -> bool) (l : list A) :
  forallb g l = true -> forallb g (filter f l) = true.
Proof.
  intros H. apply forallb_forall. intros x Hx. apply filter_In in Hx.
  rewrite forallb_forall in H. now apply H.
Qed.

Lemma skipn_subseq {A} (n : nat) (l : list A) : subseq (skipn n l) l.
Proof.
  revert l. induction n as [|n IH]; intros [|x r]; simpl; try constructor.
  - clear. induction r; now constructor.
  - apply IH.
Qed.

Lemma subseq_trans {A} (a b c : list A) : subseq a b -> subseq b c -> subseq a c.
Proof.
  intros Hab Hbc. revert a Hab. induction Hbc; intros a Hab.
  - exact Hab.
  - inversion Hab; subst; constructor; auto.
  - constructor. auto.
Qed.

(** C8, as amended. For every backup index of at least 4 lines, each of
    the first 4 ending with its newline, and every rebuilt index, the
    splice succeeds and the lines of the file written are the non-blank
    lines among the first 4 lines of the backup followed by the non-blank
    lines of the rebuilt index after its first 4 lines, in their order.
    So when none of the 4 header lines is blank they are the first 4
    lines of the file, verbatim; the file has no blank line; and every
    non-blank line of the rebuilt index after the first 4 is a line of
    the file. *)
Theorem header_splice :
  forall org_text dat_text : pystr,
    (4 <= length (readlines org_text))%nat ->
    forallb ended (firstn 4 (readlines org_text)) = true ->
    let header := firstn 4 (readlines org_text) in
    let rest := skipn 4 (readlines dat_text) in
    exists out,
      splice org_text dat_text = Ret out
      /\ readlines out = filter nonblank header ++ filter nonblank rest
      /\ (forallb nonblank header = true ->
          firstn 4 (readlines out) = header
          /\ skipn 4 (readlines out) = filter nonblank rest
          /\ startswith (concat header) out = true)
      /\ Forall (fun l => nonblank l = true) (readlines out)
      /\ (forall l, In l rest -> nonblank l = true -> In l (readlines out))
      /\ subseq (skipn (length (filter nonblank header)) (readlines out))
                (readlines dat_text).
Proof.
  intros org_text dat_text H4 Hended header rest.
  set (written := final_lines header (readlines dat_text)).
  exists (concat written).
  assert (Ew : written = filter nonblank header ++ filter nonblank rest).
  { unfold written, final_lines, slice_assign_prefix. fold rest.
    now rewrite filter_app. }
  assert (Hlines : readlines (concat written) = written).
  { apply readlines_concat.
    - rewrite Ew. apply Forall_app. split; apply Forall_filter.
      + unfold header. apply Forall_firstn_of. apply readlines_shape.
      + unfold rest. apply Forall_skipn_of. apply readlines_shape.
    - rewrite Ew. apply ended_but_last_app.
      + now apply forallb_filter_of.
      + apply ended_but_last_filter, ended_but_last_skipn, readlines_ended_but_last. }
  assert (Hlen : length header = 4%nat).
  { unfold header. rewrite firstn_length_le; [reflexivity | exact H4]. }
  split.
  { unfold splice, read_header. rewrite next_lines_firstn by exact H4. reflexivity. }
  rewrite Hlines. split; [exact Ew|]. split.
  { intros Hh. rewrite Ew, (filter_all _ _ Hh). rewrite <- Hlen. split; [|split].
    - rewrite firstn_app, Nat.sub_diag, firstn_O, app_nil_r. apply firstn_all.
    - rewrite skipn_app, Nat.sub_diag, skipn_all. reflexivity.
    - rewrite concat_app. apply startswith_app. }
  split.
  { rewrite Ew. apply Forall_app. split; apply Forall_filter_true. }
  split.
  { intros l Hl Nl. rewrite Ew. apply in_or_app. right. apply filter_In. auto. }
  { rewrite Ew, skipn_app, Nat.sub_diag, skipn_all. cbn [skipn app].
    apply (subseq_trans _ rest); [apply subseq_filter | apply skipn_subseq]. }
Qed.

(** A run of the amended C8 on a backup of five lines. *)
Lemma header_splice_witness :
  (4 <= length (readlines Sample.org_full))%nat
  /\ forallb ended (firstn 4 (readlines Sample.org_full)) = true
  /\ exists out, splice Sample.org_full Sample.dat = Ret out
                 /\ readlines out
                    = [str "A" ++ Sample.nl; str "B" ++ Sample.nl; str "C" ++ Sample.nl;
                       str "D" ++ Sample.nl; str "6" ++ Sample.nl].
Proof.
  assert (H : (4 <= length (readlines Sample.org_full))%nat) by (vm_compute; lia).
  assert (E4 : forallb ended (firstn 4 (readlines Sample.org_full)) = true)
    by reflexivity.
  split; [exact H|]. split; [exact E4|].
  destruct (header_splice Sample.org_full Sample.dat H E4) as [out [E [V _]]].
  exists out. split; [exact E | rewrite V; reflexivity].
Defined.

(** C8, as stated, fails in two ways. A blank line among the first 4
    lines of the backup is dropped with the others, so the file written
    does not start with those 4 lines. And when the backup is exactly 4
    lines long and its last line has no newline, that line and the first
    line kept of the rebuilt index are written as one line: the first 4
    lines of the file are not those of the backup, and the line [E] of
    the rebuilt index is not a line of the file. *)
Lemma header_lines_not_verbatim :
  ((4 <= length (readlines Sample.org_blank))%nat
   /\ splice Sample.org_blank Sample.dat
      = Ret (str "A" ++ Sample.nl ++ str "C" ++ Sample.nl ++ str "D" ++ Sample.nl
             ++ str "6" ++ Sample.nl)
   /\ forall out, splice Sample.org_blank Sample.dat = Ret out ->
        startswith (concat (firstn 4 (readlines Sample.org_blank))) out = false)
  /\ ((4 <= length (readlines Sample.org_open))%nat
      /\ splice Sample.org_open Sample.dat_five
         = Ret (str "A" ++ Sample.nl ++ str "B" ++ Sample.nl ++ str "C" ++ Sample.nl
                ++ str "DE" ++ Sample.nl)
      /\ forall out, splice Sample.org_open Sample.dat_five = Ret out ->
           firstn 4 (readlines out) <> firstn 4 (readlines Sample.org_open)
           /\ In (str "E" ++ Sample.nl) (skipn 4 (readlines Sample.dat_five))
           /\ ~ In (str "E" ++ Sample.nl) (readlines out)).
Proof.
  split.
  - split; [vm_compute; lia|]. split; [reflexivity|].
    intros out H. vm_compute in H. inversion H. reflexivity.
  - split; [vm_compute; lia|]. split; [reflexivity|].
    intros out H. vm_compute in H. inversion H. subst out. clear H.
    split; [vm_compute; discriminate|]. split; [vm_compute; auto|].
    vm_compute. intros [H|[H|[H|[H|[]]]]]; discriminate.
Qed.

(** ** The confirmation text *)

Lemma split_once_at (label value : pystr) :
  ~ In 58 label -> split_once 58 (label ++ 58 :: value) = [label; value].
Proof.
  induction label as [|c r IH]; intros H; simpl.
  - reflexivity.
  - destruct (Z.eqb_spec c 58) as [->|Hc]; [exfalso; apply H; now left|].
    rewrite IH by (intros Hr; apply H; now right). reflexivity.
Qed.

Lemma split_once_none (line : pystr) : ~ In 58 line -> split_once 58 line = [line].
Proof.
  induction line as [|c r IH]; intros H; simpl.
  - reflexivity.
  - destruct (Z.eqb_spec c 58) as [->|Hc]; [exfalso; apply H; now left|].
    rewrite IH by (intros Hr; apply H; now right). reflexivity.
Qed.

(** The line the program makes of a non-blank line. *)
Lemma format_line_nonblank (acc : list pystr) (line : pystr) :
  nonblank line = true ->
  exists out, format_line acc line = acc ++ [out] /\ rendered line out.
Proof.
  intros Hn. unfold format_line. fold (nonblank line). rewrite Hn.
  destruct (in_dec Z.eq_dec 58 line) as [Hin | Hnot].
  - assert (D : exists label value, line = label ++ 58 :: value /\ ~ In 58 label).
    { clear Hn. induction line as [|c r IH]; [contradiction|].
      destruct (Z.eq_dec c 58) as [->|Hc].
      - exists [], r. split; [reflexivity | intros []].
      - destruct Hin as [E|Hin]; [congruence|].
        destruct (IH Hin) as [label [value [E Hl]]].
        exists (c :: label), value. split; [simpl; now rewrite E|].
        intros [H|H]; [congruence | contradiction]. }
    destruct D as [label [value [E Hl]]].
    pose proof (split_once_at label value Hl) as S. rewrite <- E in S.
    rewrite S. simpl.
    eexists. split; [reflexivity|]. split.
    + intros label' value' E' Hl'.
      pose proof (split_once_at label' value' Hl') as S'. rewrite <- E' in S'.
      rewrite S in S'. inversion S'; subst. reflexivity.
    + intros Hno. contradiction.
  - rewrite split_once_none by exact Hnot. simpl.
    eexists. split; [reflexivity|]. split.
    + intros label value E _. exfalso. apply Hnot. rewrite E.
      apply in_or_app. right. now left.
    + reflexivity.
Qed.

Lemma format_line_blank (acc : list pystr) (line : pystr) :
  nonblank line = false -> format_line acc line = acc.
Proof. intros Hn. unfold format_line. fold (nonblank line). now rewrite Hn. Qed.

Lemma fold_format_line (lines acc : list pystr) :
  exists outs,
    fold_left format_line lines acc = acc ++ outs
    /\ Forall2 rendered (filter nonblank lines) outs.
Proof.
  revert acc. induction lines as [|line r IH]; intros acc; simpl.
  - exists []. split; [now rewrite app_nil_r | constructor].
  - destruct (nonblank line) eqn:Hn.
    + destruct (format_line_nonblank acc line Hn) as [out [E R]].
      destruct (IH (acc ++ [out])) as [outs [E2 F]].
      exists (out :: outs). split; [|now constructor].
      rewrite E, E2, <- app_assoc. reflexivity.
    + rewrite (format_line_blank acc line Hn). apply IH.
Qed.

Lemma values_txt_loop_find {W : Type} {P : Platform W} (file_nodes : list Element) :
  values_txt_loop file_nodes
  = option_map (fun n => format_values (text_of (el_find n (str "fcontent"))))
               (List.find is_values_txt file_nodes).
Proof.
  induction file_nodes as [|n r IH]; simpl; [reflexivity|].
  unfold is_values_txt at 1.
  destruct (pystr_eqb _ _); simpl; [|exact IH].
  destruct (has_text _); simpl; [reflexivity | exact IH].
Qed.

(** C9, as amended. When the manifest has a VALUES.TXT create action (the
    first file node of [manualfiles] whose upper-cased name is VALUES.TXT
    and which has content), the confirmation text is made from its
    content, stripped and with each tab replaced by a space, line by line:
    a non-blank line with a colon is split at the first colon and gives
    the stripped label, left-aligned and padded with spaces to 8
    characters, a colon, a tab and the stripped value; a non-blank line
    without a colon gives the stripped line; blank lines are dropped; the
    lines are joined by newlines. *)
Theorem confirmation_text :
  forall (W : Type) (P : Platform W) (rmf_path : pystr) (w w1 : W)
         (root recovery_node manualfiles_node file_node : Element),
    path_exists rmf_path w = true ->
    et_parse rmf_path w = (Ret root, w1) ->
    el_find root (str "recovery") = Some recovery_node ->
    el_find recovery_node (str "manualfiles") = Some manualfiles_node ->
    List.find is_values_txt (el_findall manualfiles_node (str "file")) = Some file_node ->
    let content := replace_char 9 32 (strip (text_of (el_find file_node (str "fcontent")))) in
    exists outs,
      parse_rmf_for_dialog rmf_path w = (Ret (Some root, Some (join [10] outs)), w1, [])
      /\ Forall2 rendered (filter nonblank (split_on 10 content)) outs.
Proof.
  intros W P rmf_path w w1 root recovery_node manualfiles_node file_node
         Hex Hparse Hrec Hman Hfind content.
  destruct (fold_format_line (split_on 10 content) []) as [outs [E F]].
  exists outs. split; [|exact F].
  unfold parse_rmf_for_dialog, try_catch, try_except, bind, query, op.
  rewrite Hex. cbn [negb]. cbv iota. rewrite Hparse, Hrec, Hman.
  unfold ret. rewrite values_txt_loop_find, Hfind. cbn [option_map].
  unfold format_values. fold content. rewrite E. reflexivity.
Qed.

(** A run of the amended C9 on the sample manifest. *)
Lemma confirmation_text_witness :
  exists outs,
    parse_rmf_for_dialog (P:=Posix.platform) (str "job.rmf") Sample.desk
    = (Ret (Some Sample.values_manifest, Some (join [10] outs)), Sample.desk, [])
    /\ Forall2 rendered
         (filter nonblank (split_on 10 (replace_char 9 32 (strip Sample.values_txt))))
         outs.
Proof.
  apply (confirmation_text Posix.fs Posix.platform (str "job.rmf") Sample.desk Sample.desk
           Sample.values_manifest Sample.recovery_node Sample.manualfiles_node
           Sample.values_node);
    vm_compute; reflexivity.
Defined.

(** C9, as stated, fails: on the sample VALUES.TXT the program gives
    ["0) Name :<TAB>Unit Test"] and ["Disc 1 of 1"], while the wording
    gives the value with its tab and keeps ["Disc<TAB>1 of 1"] verbatim. *)
Lemma colonless_line_not_verbatim :
  parse_rmf_for_dialog (P:=Posix.platform) (str "job.rmf") Sample.desk
  = (Ret (Some Sample.values_manifest,
          Some (str "0) Name :" ++ Sample.tab ++ str "Unit Test" ++ Sample.nl
                ++ str "Disc 1 of 1")),
     Sample.desk, [])
  /\ stated_confirmation_text Sample.values_txt
     = str "0) Name :" ++ Sample.tab ++ Sample.tab ++ str "Unit Test" ++ Sample.nl
       ++ str "Disc" ++ Sample.tab ++ str "1 of 1"
  /\ format_values Sample.values_txt <> stated_confirmation_text Sample.values_txt.
Proof.
  split; [vm_compute; reflexivity|]. split; [vm_compute; reflexivity|].
  vm_compute. discriminate.
Qed.

(** ** The last event of post-processing *)

Section PostProcessEnd.

Context {W : Type} {P : Platform W}.

Lemma ends_with_app (ev : event) (t1 t2 : list item) :
  ends_with ev t2 -> ends_with ev (t1 ++ t2).
Proof. intros [t' ->]. exists (t1 ++ t'). now rewrite app_assoc. Qed.

Lemma returns_ret {A} (a : A) : returns (ret (W:=W) a).
Proof. intros w. now exists a. Qed.

Lemma returns_query {A} (f : W -> A) : returns (query f).
Proof. intros w. now exists (f w). Qed.

Lemma returns_log (a : string) (f p r : pystr) : returns (log (W:=W) a f p r).
Proof. intros w. now exists tt. Qed.

Lemma returns_bind {A B} (m : M A) (k : A -> M B) :
  returns m -> (forall a, returns (k a)) -> returns (bind (W:=W) m k).
Proof.
  intros Hm Hk w. unfold bind. destruct (Hm w) as [a Ha].
  destruct (m w) as [[r w1] t1]. simpl in Ha. subst r.
  destruct (Hk a w1) as [b Hb]. destruct (k a w1) as [[r w2] t2]. simpl in *. eauto.
Qed.

Lemma closing_bind {A} (m : M A) (k : A -> M unit) :
  returns m -> (forall a, closing (k a)) -> closing (bind (W:=W) m k).
Proof.
  intros Hm Hk w. unfold bind. destruct (Hm w) as [a Ha].
  destruct (m w) as [[r w1] t1]. simpl in Ha. subst r.
  destruct (Hk a w1) as [Hr He]. destruct (k a w1) as [[r w2] t2]. simpl in *.
  split; [exact Hr|]. destruct He; [left | right]; now apply ends_with_app.
Qed.

Lemma never_true_bind {A} (m : M A) (k : A -> M bool) :
  (forall a, never_true (k a)) -> never_true (bind (W:=W) m k).
Proof.
  intros Hk w. unfold bind. destruct (m w) as [[[a|e] w1] t1]; simpl; [|discriminate].
  specialize (Hk a w1). destruct (k a w1) as [[r w2] t2]. exact Hk.
Qed.

Lemma never_true_ret_false : never_true (ret (W:=W) false).
Proof. intros w. discriminate. Qed.

Lemma true_after_error_bind {A} (m : M A) (k : A -> M bool) :
  (forall a, true_after_error (k a)) -> true_after_error (bind (W:=W) m k).
Proof.
  intros Hk w. unfold bind. destruct (m w) as [[[a|e] w1] t1]; simpl; [|discriminate].
  specialize (Hk a w1). destruct (k a w1) as [[r w2] t2]. simpl in *.
  intros H. apply ends_with_app. now apply Hk.
Qed.

Lemma never_true_after_error (m : M bool) : never_true m -> true_after_error (W:=W) m.
Proof. intros H w E. now apply H in E. Qed.

Lemma aod_processing_true (script_dir d dat org stat cri : pystr) :
  true_after_error (aod_processing (W:=W) script_dir d dat org stat cri).
Proof.
  unfold aod_processing.
  apply true_after_error_bind; intros _.
  apply true_after_error_bind; intros ex.
  destruct (negb ex).
  - intros w _. exists []. reflexivity.
  - apply never_true_after_error.
    repeat first
      [ apply never_true_ret_false
      | apply never_true_bind; intros ?
      | match goal with |- never_true (if ?b then _ else _) => destruct b end ].
Qed.

Lemma closing_final (D : M bool) :
  true_after_error D -> returns D ->
  closing (bind (W:=W) D (fun returned =>
             if returned then ret tt else put status_event)).
Proof.
  intros Ht Hr w. unfold bind. specialize (Ht w). destruct (Hr w) as [b Hb].
  destruct (D w) as [[r w1] t1]. simpl in *. subst r.
  destruct b; simpl.
  - split; [reflexivity|]. right. rewrite app_nil_r. now apply Ht.
  - split; [reflexivity|]. left. exists t1. reflexivity.
Qed.

(** Post-processing always returns, and the last event it puts is its
    STATUS event, unless it left through the [return] of line 155, when
    the last event is the ERROR about the missing tool. *)
Lemma post_process_files_last_event (recovery_target patch_source script_dir : pystr) :
  closing (post_process_files (W:=W) recovery_target patch_source script_dir).
Proof.
  unfold post_process_files.
  apply closing_bind.
  { apply try_catch_returns. intros e. apply returns_log. }
  intros _. apply closing_bind.
  { destruct (truthy patch_source); [apply returns_query | apply returns_ret]. }
  intros has_patch. apply closing_bind.
  { destruct has_patch; [|apply returns_ret].
    apply returns_bind.
    - apply try_catch_returns. intros e. apply returns_log.
    - intros _. apply try_catch_returns. intros e.
      apply returns_bind; [apply returns_log | intros _; apply returns_ret]. }
  intros copied_cri_name. apply closing_final.
  - destruct (truthy_opt copied_cri_name);
      [|apply never_true_after_error, never_true_ret_false].
    apply true_after_error_bind; intros ex.
    destruct ex; [|apply never_true_after_error, never_true_ret_false].
    intros w0. unfold try_catch, try_except.
    match goal with
    | |- context [aod_processing ?a ?b ?c ?d ?e ?f w0] =>
        pose proof (aod_processing_true a b c d e f w0) as Ha;
        destruct (aod_processing a b c d e f w0) as [[[b0|e0] w1] t1]; simpl in *
    end.
    + exact Ha.
    + discriminate.
  - destruct (truthy_opt copied_cri_name); [|apply returns_ret].
    apply returns_bind; [apply returns_query|]. intros ex.
    destruct ex; [|apply returns_ret].
    apply try_catch_returns. intros e.
    apply returns_bind; [apply returns_log | intros _; apply returns_ret].
Qed.

End PostProcessEnd.

(** ** One create action *)

(** With its destination directory made, a create action puts one CREATE
    event, success or error, and returns: the loop goes on. *)
Lemma create_step_guarded {W : Type} {P : Platform W}
    (target_dir : pystr) (file_node : Element) (w w1 : W) :
  is_create_action file_node = true ->
  let name := from_opt (el_get file_node (str "name")) in
  let copypath_rel :=
    strip_chars (str "/\") (el_get_default file_node (str "copypath") []) in
  os_makedirs (path_dirname (path_join (path_join target_dir copypath_rel) name)) w
    = (Ret tt, w1) ->
  exists w2 t ev,
    create_step target_dir file_node w = (Ret tt, w2, t)
    /\ queue_of t = [ev]
    /\ action ev = str "CREATE" /\ filename ev = name.
Proof.
  intros Hc. cbv zeta. intros Hmk.
  unfold create_step. rewrite Hc. cbv zeta.
  unfold bind at 1. unfold op at 1. rewrite Hmk.
  unfold try_catch, try_except, bind, op, log, put.
  destruct (write_text _ _ w1) as [[[]|e] w2]; simpl;
    do 3 eexists; (split; [reflexivity|]); simpl; auto.
Qed.

(** When the directory cannot be made the exception leaves the loop body:
    no event of the action, and the loop stops. *)
Lemma create_step_unguarded {W : Type} {P : Platform W}
    (target_dir : pystr) (file_node : Element) (w w1 : W) (e : exn) :
  is_create_action file_node = true ->
  let name := from_opt (el_get file_node (str "name")) in
  let copypath_rel :=
    strip_chars (str "/\") (el_get_default file_node (str "copypath") []) in
  os_makedirs (path_dirname (path_join (path_join target_dir copypath_rel) name)) w
    = (Raise e, w1) ->
  create_step target_dir file_node w = (Raise e, w1, [])
  /\ forall rest,
       for_each (create_step target_dir) (file_node :: rest) w = (Raise e, w1, []).
Proof.
  intros Hc. cbv zeta. intros Hmk.
  assert (E : create_step target_dir file_node w = (Raise e, w1, [])).
  { unfold create_step. rewrite Hc. cbv zeta.
    unfold bind at 1. unfold op at 1. rewrite Hmk. reflexivity. }
  split; [exact E|]. intros rest. simpl. unfold bind. now rewrite E.
Qed.

(* ------------------------------------------------------------------ *)
(** * Further properties *)

(** ** The password transform forgets all but residues *)

(** X1. The transform reads each character only through its code point
    modulo 13: two keys of equal length whose characters agree modulo 13
    position by position get the same password. *)
Theorem encrypt_imz_password_residues :
  forall s t : pystr,
    length s = length t ->
    (forall i, (i < length s)%nat -> nth i s 0 mod 13 = nth i t 0 mod 13) ->
    encrypt_imz_password (Some s) = encrypt_imz_password (Some t).
Proof.
  intros s t Hl Hr. rewrite !encrypt_imz_password_closed, <- Hl. f_equal.
  apply map_ext_in. intros i Hi. apply in_seq in Hi.
  unfold cipher_code, ord. rewrite (Hr i) by lia. reflexivity.
Qed.

(** Two different keys with one password: ["an"] and ["na"]. *)
Lemma encrypt_imz_password_residues_witness :
  str "an" <> str "na"
  /\ encrypt_imz_password (Some (str "an")) = encrypt_imz_password (Some (str "na")).
Proof.
  split; [discriminate|].
  apply (encrypt_imz_password_residues (str "an") (str "na")); [reflexivity|].
  intros i Hi. destruct i as [|[|i]]; [reflexivity | reflexivity | simpl in Hi; lia].
Defined.

(** ** How a run ends *)

Section RunEnds.

Context {W : Type} {P : Platform W}.

(** X2. When the target directory cannot be made, the worker does nothing
    else: it puts FATAL with the text of the exception, then the done
    token, and leaves the machine as the failed [makedirs] left it. *)
Theorem target_root_failure (script_dir : pystr) (rmf_root : Element)
    (source_dir patch_dir target_dir : pystr) (w w1 : W) (e : exn) :
  os_makedirs target_dir w = (Raise e, w1) ->
  run_recovery_process script_dir rmf_root source_dir patch_dir target_dir w
  = (Ret tt, w1,
     [Caught 344 e; Emit (fatal_event e); Handled 344; Emit done_event]).
Proof.
  intros H. unfold run_recovery_process, try_finally, try_catch, try_except.
  unfold bind at 1. unfold op at 1. rewrite H. reflexivity.
Qed.

(** X3. A manifest root without a [recovery] element: the target
    directory is made, INIT is put, and the run ends there with FATAL
    carrying the text of the [AttributeError]; no action is run and
    post-processing is not entered. *)
Theorem manifest_without_recovery (script_dir : pystr) (rmf_root : Element)
    (source_dir patch_dir target_dir : pystr) (w w1 : W) :
  os_makedirs target_dir w = (Ret tt, w1) ->
  el_find rmf_root (str "recovery") = None ->
  run_recovery_process script_dir rmf_root source_dir patch_dir target_dir w
  = (Ret tt, w1,
     [Emit (init_event target_dir);
      Caught 344 (mkExn AttributeError (str "'NoneType' object has no attribute 'find'"));
      Emit (mkEvent (str "FATAL") (str "Main Loop") []
                    (str "'NoneType' object has no attribute 'find'"));
      Handled 344;
      Emit done_event]).
Proof.
  intros H N. unfold run_recovery_process, try_finally, try_catch, try_except.
  rewrite N. unfold bind at 1. unfold op at 1. rewrite H. reflexivity.
Qed.

End RunEnds.

Lemma target_root_failure_witness :
  exists e,
    Edge.run_into_file Scenario.empty_manifest
    = (Ret tt, Scenario.source_tree,
       [Caught 344 e; Emit (fatal_event e); Handled 344; Emit done_event]).
Proof.
  eexists.
  apply (target_root_failure (P:=Posix.platform) (str "APP") Scenario.empty_manifest
           (str "SRC") [] (str "SRC/a.bin") Scenario.source_tree Scenario.source_tree).
  vm_compute. reflexivity.
Defined.

Lemma manifest_without_recovery_witness :
  queue_of (snd (Scenario.run Edge.no_recovery "" Scenario.source_tree))
  = [init_event (str "USB");
     mkEvent (str "FATAL") (str "Main Loop") []
             (str "'NoneType' object has no attribute 'find'");
     done_event].
Proof.
  unfold Scenario.run.
  rewrite (manifest_without_recovery (P:=Posix.platform) (str "APP") Edge.no_recovery
             (str "SRC") (str "") (str "USB") Scenario.source_tree
             ((str "USB", Posix.Dir) :: Scenario.source_tree));
    [reflexivity | vm_compute; reflexivity | reflexivity].
Defined.

(** ** The tags of the events *)

Section Tags.

Context {W : Type} {P : Platform W}.

Variable Q : event -> bool.

Lemma emits_ret {A} (a : A) : emits Q (ret (W:=W) a).
Proof. intros w. reflexivity. Qed.

Lemma emits_op {A} (f : W -> outcome A * W) : emits Q (op f).
Proof. intros w. unfold op. destruct (f w). reflexivity. Qed.

Lemma emits_query {A} (f : W -> A) : emits Q (query f).
Proof. intros w. reflexivity. Qed.

Lemma emits_lift {A} (o : outcome A) : emits Q (lift (W:=W) o).
Proof. intros w. reflexivity. Qed.

Lemma emits_put (ev : event) : Q ev = true -> emits Q (put (W:=W) ev).
Proof. intros H w. simpl. now rewrite H. Qed.

Lemma emits_log (a : string) (f p r : pystr) :
  Q (mkEvent (str a) f p r) = true -> emits Q (log (W:=W) a f p r).
Proof. apply emits_put. Qed.

Lemma emits_bind {A B} (m : M A) (k : A -> M B) :
  emits Q m -> (forall a, emits Q (k a)) -> emits Q (bind (W:=W) m k).
Proof.
  intros Hm Hk w. unfold bind. specialize (Hm w).
  destruct (m w) as [[[a|e] w1] t1]; simpl in *; [|exact Hm].
  specialize (Hk a w1). destruct (k a w1) as [[r w2] t2]. simpl in *.
  now rewrite queue_of_app, forallb_app, Hm, Hk.
Qed.

Lemma emits_try_except {A} (m : M A) (clause : exn -> nat * M A) :
  emits Q m -> (forall e, emits Q (snd (clause e))) ->
  emits Q (try_except (W:=W) m clause).
Proof.
  intros Hm Hh w. unfold try_except. specialize (Hm w).
  destruct (m w) as [[[a|e] w1] t1]; simpl in *; [exact Hm|].
  specialize (Hh e w1). destruct (snd (clause e) w1) as [[r w2] t2]. simpl in *.
  rewrite queue_of_app, forallb_app, Hm. simpl.
  now rewrite queue_of_app, forallb_app, Hh.
Qed.

Lemma emits_try_catch {A} (line : nat) (m : M A) (h : exn -> M A) :
  emits Q m -> (forall e, emits Q (h e)) -> emits Q (try_catch (W:=W) line m h).
Proof. intros Hm Hh. now apply emits_try_except. Qed.

Lemma emits_for_each {A} (body : A -> M unit) (l : list A) :
  (forall x, emits Q (body x)) -> emits Q (for_each (W:=W) body l).
Proof.
  intros Hb. induction l as [|x r IH]; simpl.
  - apply emits_ret.
  - apply emits_bind; [apply Hb | intros _; exact IH].
Qed.

End Tags.

Section BodyTags.

Context {W : Type} {P : Platform W}.

Ltac emits_step :=
  lazymatch goal with
  | |- emits _ (bind _ _) => apply emits_bind; [| intros ?]
  | |- emits _ (ret _) => apply emits_ret
  | |- emits _ (op _) => apply emits_op
  | |- emits _ (query _) => apply emits_query
  | |- emits _ (lift _) => apply emits_lift
  | |- emits _ (log _ _ _ _) => apply emits_log; reflexivity
  | |- emits _ (put _) => apply emits_put; reflexivity
  | |- emits _ (try_catch _ _ _) => apply emits_try_catch; [| intros ?]
  | |- emits _ (try_except _ _) => apply emits_try_except; [| intros ?]
  | |- emits _ (for_each _ _) => apply emits_for_each; intros ?
  | |- emits _ (snd (match ?x with _ => _ end)) => destruct x; cbn [snd]
  | |- emits _ (if ?b then _ else _) => destruct b
  | |- emits _ (match ?x with _ => _ end) => destruct x
  end.

Ltac emits_tac := cbv zeta; repeat (emits_step; cbv zeta).

Lemma cri_loop_tags (patch_source target_rec_dir : pystr) (patch_files : list pystr) :
  emits (tagged body_tags) (cri_loop (W:=W) patch_source target_rec_dir patch_files).
Proof.
  induction patch_files as [|filename rest IH]; simpl.
  - apply emits_ret.
  - destruct (endswith _ _); [|exact IH].
    emits_tac; exact IH.
Qed.

Lemma post_process_files_tags (recovery_target patch_source script_dir : pystr) :
  emits (tagged body_tags)
        (post_process_files (W:=W) recovery_target patch_source script_dir).
Proof.
  unfold post_process_files, aod_processing. emits_tac; apply cri_loop_tags.
Qed.

Lemma create_step_tags (target_dir : pystr) (file_node : Element) :
  emits (tagged body_tags) (create_step (W:=W) target_dir file_node).
Proof. unfold create_step. emits_tac. Qed.

Lemma transfer_step_tags (source_dir target_dir : pystr) (file_node : Element) :
  emits (tagged body_tags) (transfer_step (W:=W) source_dir target_dir file_node).
Proof. unfold transfer_step. emits_tac. Qed.

Lemma forallb_last {A} (Q : A -> bool) (l : list A) (x : A) :
  forallb Q (l ++ [x]) = true -> forallb Q l = true /\ Q x = true.
Proof.
  rewrite forallb_app. simpl. rewrite andb_true_r. apply andb_prop.
Qed.

Lemma ends_in_bind {A B} (ev : event) (m : M A) (k : A -> M B) :
  (forall a, ends_in ev (k a)) -> ends_in ev (bind (W:=W) m k).
Proof.
  intros Hk w. unfold bind. destruct (m w) as [[[a|e] w1] t1]; simpl.
  - specialize (Hk a w1). destruct (k a w1) as [[r w2] t2]. simpl in *.
    intros H. apply ends_with_app. now apply Hk.
  - intros [a H]. discriminate.
Qed.

Lemma ends_in_put (ev : event) : ends_in ev (put (W:=W) ev).
Proof. intros w _. exists []. reflexivity. Qed.

(** The two ways a run ends, with the trace before its last event. *)
Lemma run_recovery_process_ends (script_dir : pystr) (rmf_root : Element)
    (source_dir patch_dir target_dir : pystr) (w : W) :
  exists t,
    forallb (tagged body_tags) (queue_of t) = true
    /\ (snd (run_recovery_process script_dir rmf_root source_dir patch_dir target_dir w)
          = t ++ [Emit completed_event; Emit done_event]
        \/ exists e,
             snd (run_recovery_process script_dir rmf_root source_dir patch_dir
                    target_dir w)
             = t ++ [Caught 344 e; Emit (fatal_event e); Handled 344; Emit done_event]).
Proof.
  unfold run_recovery_process, try_finally, try_catch, try_except.
  match goal with
  | |- context [match ?b w with _ => _ end] => set (body := b)
  end.
  assert (Hb : emits (tagged body_tags) body).
  { subst body. emits_tac;
      first [apply create_step_tags | apply transfer_step_tags
            | apply post_process_files_tags]. }
  assert (Hl : ends_in completed_event body).
  { subst body. cbv zeta.
    repeat (apply ends_in_bind; intros ?). apply ends_in_put. }
  specialize (Hb w). specialize (Hl w).
  destruct (body w) as [[[[]|e] w1] t1]; simpl in *.
  - destruct Hl as [t Et]; [now exists tt|]. subst t1.
    rewrite queue_of_app in Hb. apply forallb_last in Hb. destruct Hb as [Hb _].
    exists t. split; [exact Hb|]. left. now rewrite <- app_assoc.
  - exists t1. split; [exact Hb|]. right. exists e. now rewrite <- app_assoc.
Qed.

End BodyTags.

Lemma tagged_in (tags : list pystr) (ev : event) :
  tagged tags ev = true <-> In (action ev) tags.
Proof.
  unfold tagged. rewrite existsb_exists. split.
  - intros [tag [Hin Heq]]. apply pystr_eqb_eq in Heq. now rewrite Heq.
  - intros Hin. exists (action ev). split; [exact Hin | apply pystr_eqb_refl].
Qed.

Lemma forallb_impl {A} (f g : A -> bool) (l : list A) :
  (forall x, f x = true -> g x = true) -> forallb f l = true -> forallb g l = true.
Proof.
  intros H. rewrite !forallb_forall. intros Hf x Hx. apply H, Hf, Hx.
Qed.

Lemma body_tag_cases (ev : event) (Q : pystr -> Prop) :
  tagged body_tags ev = true ->
  (forall tag, In tag body_tags -> Q tag) -> Q (action ev).
Proof. intros H HQ. apply HQ. now apply tagged_in. Qed.

(** X4. Every event of a run carries one of twelve action tags: the ten
    of the executor and the post-processor, FATAL, and the done token;
    all but the done token have at most 8 characters, the width of the
    action column of the log. *)
Theorem run_tags_only :
  forall (W : Type) (P : Platform W) (script_dir : pystr) (rmf_root : Element)
         (source_dir patch_dir target_dir : pystr) (w : W),
    forallb (tagged run_tags)
      (queue_of (snd (run_recovery_process script_dir rmf_root source_dir patch_dir
                        target_dir w))) = true
    /\ forallb (fun ev => is_done ev || (length (action ev) <=? 8)%nat)
         (queue_of (snd (run_recovery_process script_dir rmf_root source_dir patch_dir
                           target_dir w))) = true.
Proof.
  intros W P script_dir rmf_root source_dir patch_dir target_dir w.
  assert (G1 : forall l, forallb (tagged body_tags) l = true ->
                 forallb (tagged run_tags) l = true).
  { intros l. apply forallb_impl. intros ev H. apply tagged_in.
    unfold run_tags. apply in_or_app. left. now apply tagged_in. }
  assert (G2 : forall l, forallb (tagged body_tags) l = true ->
                 forallb (fun ev => is_done ev || (length (action ev) <=? 8)%nat) l = true).
  { intros l. apply forallb_impl. intros ev H. apply orb_true_iff. right.
    apply (body_tag_cases ev (fun tag => (length tag <=? 8)%nat = true) H).
    intros tag Hin. simpl in Hin.
    repeat (destruct Hin as [<- | Hin]; [reflexivity|]). contradiction. }
  destruct (run_recovery_process_ends script_dir rmf_root source_dir patch_dir
              target_dir w) as [t [Ht [E | [e E]]]];
    rewrite E, queue_of_app, !forallb_app, (G1 _ Ht), (G2 _ Ht); split; reflexivity.
Qed.

(** X5. The worker ends in one of three ways. When line 250 raises
    (the working directory cannot be found) it dies there: the exception
    leaves the function, nothing is put on the queue and the machine is
    untouched. Otherwise it returns, and its queue ends with the STATUS
    event of completion followed by the done token, or with one FATAL
    event followed by the done token; before that no event is FATAL. *)
Theorem run_completed_or_fatal :
  forall (W : Type) (P : Platform W) (R : Process W) (rmf_root : Element)
         (source_dir patch_dir target_dir : pystr) (w : W),
    let r := run_recovery_process_thread rmf_root source_dir patch_dir target_dir w in
    match path_abspath sys_argv0 w with
    | Raise e => r = (Raise e, w, [])
    | Ret _ =>
        fst (fst r) = Ret tt
        /\ exists evs last,
             queue_of (snd r) = evs ++ [last; done_event]
             /\ forallb (fun ev => negb (has_action "FATAL" ev)) evs = true
             /\ (last = completed_event \/ exists e, last = fatal_event e)
    end.
Proof.
  intros W P R rmf_root source_dir patch_dir target_dir w r.
  pose proof (run_recovery_process_thread_cases rmf_root source_dir patch_dir
                target_dir w) as C.
  fold r in C. destruct (path_abspath sys_argv0 w) as [script_path|e0]; [|exact C].
  rewrite C. clear C r. set (script_dir := path_dirname script_path).
  split.
  { destruct (run_recovery_process_trace script_dir rmf_root source_dir patch_dir
                target_dir w) as [_ [_ [_ Hr]]]. exact Hr. }
  assert (G : forall l, forallb (tagged body_tags) l = true ->
                forallb (fun ev => negb (has_action "FATAL" ev)) l = true).
  { intros l. apply forallb_impl. intros ev H. unfold has_action.
    apply (body_tag_cases ev
             (fun tag => negb (pystr_eqb tag (str "FATAL")) = true) H).
    intros tag Hin. simpl in Hin.
    repeat (destruct Hin as [<- | Hin]; [reflexivity|]). contradiction. }
  destruct (run_recovery_process_ends script_dir rmf_root source_dir patch_dir
              target_dir w) as [t [Ht [E | [e E]]]]; rewrite E, queue_of_app.
  - exists (queue_of t), completed_event. simpl. auto.
  - exists (queue_of t), (fatal_event e). simpl. split; [reflexivity|].
    split; [now apply G | right; now exists e].
Qed.

(** ** One transfer action *)

Section TransferStep.

Context {W : Type} {P : Platform W}.

Variables source_dir target_dir : pystr.
Variable file_node : Element.
Variables w w1 : W.

Hypothesis Htransfer : is_transfer_action file_node = true.
Hypothesis Hmakedirs :
  os_makedirs (path_join target_dir (transfer_copypath file_node)) w = (Ret tt, w1).
Hypothesis Hexists :
  path_exists (path_join source_dir (transfer_source file_node)) w1 = true.

Ltac enter_transfer :=
  unfold transfer_step; rewrite Htransfer; cbv zeta; cbn [negb]; cbv iota;
  unfold transfer_source, transfer_copypath in *;
  unfold bind at 1; unfold op at 1; rewrite Hmakedirs;
  unfold bind at 1; unfold query at 1; rewrite Hexists; cbn [negb]; cbv iota.

(** X6. A copy action (copy="1") whose destination directory could be
    made and whose source exists calls [shutil.copy2] once, on the source
    and on the destination directory joined with the [name] attribute, or
    with the base name of the source when there is no name; whatever the
    copy does, the action returns and puts exactly one COPY event: Success,
    or the text of the exception. *)
Theorem copy_action_event (r : outcome unit) (w2 : W) :
  el_get file_node (str "copy") = Some (str "1") ->
  shutil_copy2 (path_join source_dir (transfer_source file_node))
               (path_join (path_join target_dir (transfer_copypath file_node))
                  (if truthy_opt (el_get file_node (str "name"))
                   then from_opt (el_get file_node (str "name"))
                   else path_basename (transfer_source file_node))) w1 = (r, w2) ->
  transfer_step source_dir target_dir file_node w
  = (Ret tt, w2, copy_event file_node r).
Proof.
  intros Hc Hcopy. enter_transfer. rewrite Hc.
  replace (pystr_eqb (str "1") (str "1")) with true by reflexivity.
  unfold try_catch, try_except, bind, op. rewrite Hcopy.
  unfold copy_event, transfer_source, transfer_copypath.
  destruct r as [[]|e]; reflexivity.
Qed.

(** X7. An unpack action (copy="0") whose destination directory could be
    made and whose source exists runs [7z x <source> -o<dir> -y], with
    [-p<password>] appended exactly when the [key] attribute is present
    and not empty, the password being the transformed key; whatever the
    tool does (exit code 0, another exit code, not found, any other
    exception) the action returns and puts exactly one UNPACK event. *)
Theorem unpack_action_event (r : outcome completed_process) (w2 : W) :
  el_get file_node (str "copy") = Some (str "0") ->
  subprocess_run
    (unpack_command (path_join source_dir (transfer_source file_node))
                    (path_join target_dir (transfer_copypath file_node))
                    (el_get file_node (str "key"))) None w1 = (r, w2) ->
  transfer_step source_dir target_dir file_node w
  = (Ret tt, w2, unpack_event file_node r).
Proof.
  intros Hc Hrun. enter_transfer. rewrite Hc.
  unfold unpack_event, transfer_source, transfer_copypath.
  replace (pystr_eqb (str "0") (str "1")) with false by reflexivity.
  replace (pystr_eqb (str "0") (str "0")) with true by reflexivity.
  assert (Hcmd : forall password,
             encrypt_imz_password (el_get file_node (str "key")) = Ret password ->
             (if truthy password
              then [str "7z"; str "x"; path_join source_dir (transfer_source file_node);
                    str "-o" ++ path_join target_dir (transfer_copypath file_node);
                    str "-y"] ++ [str "-p" ++ password]
              else [str "7z"; str "x"; path_join source_dir (transfer_source file_node);
                    str "-o" ++ path_join target_dir (transfer_copypath file_node);
                    str "-y"])
             = unpack_command (path_join source_dir (transfer_source file_node))
                              (path_join target_dir (transfer_copypath file_node))
                              (el_get file_node (str "key"))).
  { intros password Hp. unfold unpack_command.
    destruct (el_get file_node (str "key")) as [k|].
    - rewrite encrypt_imz_password_closed in Hp. inversion Hp; subst.
      destruct k as [|c k]; reflexivity.
    - simpl in Hp. inversion Hp; subst. reflexivity. }
  assert (Hp : exists password,
             encrypt_imz_password (el_get file_node (str "key")) = Ret password).
  { destruct (el_get file_node (str "key")) as [k|].
    - eexists. apply encrypt_imz_password_closed.
    - now exists []. }
  destruct Hp as [password Hp]. specialize (Hcmd password Hp).
  unfold transfer_source, transfer_copypath in Hcmd.
  unfold bind at 1. unfold lift at 1. rewrite Hp. cbv zeta. rewrite Hcmd.
  unfold try_except, bind, op. rewrite Hrun.
  destruct r as [proc|e]; simpl.
  - destruct (returncode proc =? 0); reflexivity.
  - destruct (exn_cls e); reflexivity.
Qed.

(** X8. A transfer node whose [copy] attribute is absent, or is neither
    "1" nor "0", and whose source exists: the destination directory is
    made and nothing else happens; no event is put. *)
Theorem unknown_copy_mode_silent :
  (forall c, el_get file_node (str "copy") = Some c -> c <> str "1" /\ c <> str "0") ->
  transfer_step source_dir target_dir file_node w = (Ret tt, w1, []).
Proof.
  intros Hc. enter_transfer.
  destruct (el_get file_node (str "copy")) as [c|]; [|reflexivity].
  destruct (Hc c eq_refl) as [H1 H0].
  apply pystr_eqb_neq in H1, H0. rewrite H1, H0. reflexivity.
Qed.

End TransferStep.

Lemma copy_action_event_witness :
  Transfer.step Transfer.copy_node
  = (Ret tt,
     (str "USB/RECOVERY/b.bin", Posix.File (str "payload") None)
       :: (str "USB/RECOVERY", Posix.Dir) :: Transfer.ready,
     [Emit (Scenario.ev "COPY" "a.bin" "RECOVERY" "Success")]).
Proof.
  apply (copy_action_event (P:=Posix.platform) (str "SRC") (str "USB") Transfer.copy_node
           Transfer.ready ((str "USB/RECOVERY", Posix.Dir) :: Transfer.ready)
           eq_refl eq_refl eq_refl (Ret tt));
    vm_compute; reflexivity.
Defined.

Lemma unpack_action_event_witness :
  unpack_command (str "SRC/a.bin") (str "USB/RECOVERY") (Some (str "an"))
  = [str "7z"; str "x"; str "SRC/a.bin"; str "-oUSB/RECOVERY"; str "-y"; str "-p21"]
  /\ Transfer.step Transfer.unpack_node
     = (Ret tt, (str "USB/RECOVERY", Posix.Dir) :: Transfer.ready,
        [Caught 334 (Posix.not_found (str "7z"));
         Emit (Scenario.ev "UNPACK" "7z.exe" "" "Not Found in Path");
         Handled 334]).
Proof.
  split; [reflexivity|].
  apply (unpack_action_event (P:=Posix.platform) (str "SRC") (str "USB")
           Transfer.unpack_node Transfer.ready
           ((str "USB/RECOVERY", Posix.Dir) :: Transfer.ready)
           eq_refl eq_refl eq_refl (Raise (Posix.not_found (str "7z"))));
    vm_compute; reflexivity.
Defined.

Lemma unknown_copy_mode_silent_witness :
  Transfer.step Transfer.odd_node
  = (Ret tt, (str "USB/RECOVERY", Posix.Dir) :: Transfer.ready, []).
Proof.
  apply (unknown_copy_mode_silent (P:=Posix.platform) (str "SRC") (str "USB")
           Transfer.odd_node Transfer.ready
           ((str "USB/RECOVERY", Posix.Dir) :: Transfer.ready)
           eq_refl eq_refl eq_refl).
  intros c Hc. vm_compute in Hc. inversion Hc; subst. split; discriminate.
Defined.

(** ** The loader never raises *)

(** X9. [parse_rmf_for_dialog] returns on every path and every machine.
    It gives no root exactly in three cases (the file is missing, it does
    not parse, it has no [recovery] element) and then gives no text and
    puts exactly one ERROR event named after the file; when it gives a
    root it puts no event. *)
Theorem parse_rmf_for_dialog_returns :
  forall (W : Type) (P : Platform W) (rmf_path : pystr) (w : W),
    exists root text w1 t,
      parse_rmf_for_dialog rmf_path w = (Ret (root, text), w1, t)
      /\ match root with
         | None =>
             text = None
             /\ exists result,
                  queue_of t = [loader_error rmf_path result]
                  /\ ((path_exists rmf_path w = false
                       /\ result = str "RMF file not found.")
                      \/ (exists e, path_exists rmf_path w = true
                                    /\ fst (et_parse rmf_path w) = Raise e
                                    /\ result = str "XML Parse Fail: " ++ exn_str e)
                      \/ (exists r, path_exists rmf_path w = true
                                    /\ fst (et_parse rmf_path w) = Ret r
                                    /\ el_find r (str "recovery") = None
                                    /\ result = str "Node 'recovery' not found in RMF."))
         | Some r =>
             t = []
             /\ path_exists rmf_path w = true
             /\ fst (et_parse rmf_path w) = Ret r
             /\ el_find r (str "recovery") <> None
         end.
Proof.
  intros W P rmf_path w.
  unfold parse_rmf_for_dialog, try_catch, try_except, bind, query, op, log, put, ret.
  destruct (path_exists rmf_path w) eqn:Hex; cbn [negb]; cbv iota.
  - destruct (et_parse rmf_path w) as [[r|e] w1] eqn:Hp.
    + destruct (el_find r (str "recovery")) as [rec|] eqn:Hr.
      * destruct (el_find rec (str "manualfiles")) as [mf|];
          do 4 eexists; (split; [reflexivity|]); cbn [fst queue_of];
          repeat split; auto; congruence.
      * do 4 eexists. split; [reflexivity|]. cbn [fst queue_of]. split; [reflexivity|].
        eexists. split; [reflexivity|]. right. right. exists r. auto.
    + do 4 eexists. split; [reflexivity|]. cbn [fst queue_of]. split; [reflexivity|].
      eexists. split; [reflexivity|]. right. left. exists e. auto.
  - do 4 eexists. split; [reflexivity|]. cbn [fst queue_of]. split; [reflexivity|].
    eexists. split; [reflexivity|]. left. auto.
Qed.

(** ** When the confirmation dialog has something to show *)

Lemma nonblank_nil : nonblank [] = false.
Proof. reflexivity. Qed.

Lemma existsb_lstrip (p q : Z -> bool) (s : pystr) :
  (forall c, q c = true -> p c = false) ->
  existsb q (lstrip_by p s) = existsb q s.
Proof.
  intros H. induction s as [|c r IH]; simpl; [reflexivity|].
  destruct (p c) eqn:Hp; [|reflexivity].
  rewrite IH. destruct (q c) eqn:Hq; [|reflexivity].
  rewrite (H c Hq) in Hp. discriminate.
Qed.

Lemma existsb_rev {A} (q : A -> bool) (s : list A) : existsb q (rev s) = existsb q s.
Proof.
  induction s as [|c r IH]; simpl; [reflexivity|].
  rewrite existsb_app, IH. simpl. rewrite orb_false_r. apply orb_comm.
Qed.

Lemma existsb_strip_by (p q : Z -> bool) (s : pystr) :
  (forall c, q c = true -> p c = false) ->
  existsb q (strip_by p s) = existsb q s.
Proof.
  intros H. unfold strip_by, rstrip_by.
  now rewrite existsb_rev, existsb_lstrip, existsb_rev, existsb_lstrip.
Qed.

Lemma nonblank_strip (s : pystr) : nonblank (strip s) = nonblank s.
Proof.
  rewrite !nonblank_spec. apply existsb_strip_by.
  intros c Hc. now apply negb_true_iff in Hc.
Qed.

Lemma nonblank_replace_tab (s : pystr) : nonblank (replace_char 9 32 s) = nonblank s.
Proof.
  rewrite !nonblank_spec. unfold replace_char.
  induction s as [|c r IH]; simpl; [reflexivity|].
  rewrite IH. f_equal. destruct (Z.eqb_spec c 9) as [->|]; reflexivity.
Qed.

Lemma split_on_nonempty (sep : Z) (s : pystr) : split_on sep s <> [].
Proof.
  destruct s as [|c r]; simpl; [discriminate|].
  destruct (c =? sep); [discriminate|].
  destruct (split_on sep r); discriminate.
Qed.

Lemma nonblank_cons (c : Z) (s : pystr) :
  nonblank (c :: s) = negb (py_isspace c) || nonblank s.
Proof. rewrite !nonblank_spec. reflexivity. Qed.

Lemma nonblank_split_lines (s : pystr) :
  existsb nonblank (split_on 10 s) = nonblank s.
Proof.
  induction s as [|c r IH]; [reflexivity|].
  cbn [split_on]. destruct (Z.eqb_spec c 10) as [->|Hc].
  - cbn [existsb]. rewrite IH, nonblank_nil, nonblank_cons. reflexivity.
  - pose proof (split_on_nonempty 10 r) as Hne.
    destruct (split_on 10 r) as [|h t]; [contradiction|].
    cbn [existsb] in *. rewrite !nonblank_cons, <- IH. now rewrite orb_assoc.
Qed.

Lemma rendered_nonempty (line out : pystr) : rendered line out -> out <> [] \/ nonblank line = false.
Proof.
  intros [Hc Hn]. destruct (nonblank line) eqn:Nb; [left | now right].
  destruct (in_dec Z.eq_dec 58 line) as [Hin | Hnot].
  - assert (D : exists label value, line = label ++ 58 :: value /\ ~ In 58 label).
    { clear -Hin. induction line as [|c r IH]; [contradiction|].
      destruct (Z.eq_dec c 58) as [->|Hc].
      - exists [], r. split; [reflexivity | intros []].
      - destruct Hin as [E|Hin]; [congruence|].
        destruct (IH Hin) as [label [value [E Hl]]].
        exists (c :: label), value. split; [simpl; now rewrite E|].
        intros [H|H]; [congruence | contradiction]. }
    destruct D as [label [value [E Hl]]]. rewrite (Hc label value E Hl).
    unfold ljust. intros H. apply app_eq_nil in H. destruct H as [_ H]. discriminate.
  - rewrite (Hn Hnot). intros H. unfold nonblank in Nb. rewrite H in Nb. discriminate.
Qed.

Lemma rendered_all_nonempty (lines outs : list pystr) :
  Forall2 rendered lines outs -> Forall (fun l => nonblank l = true) lines ->
  Forall (fun x => x <> []) outs.
Proof.
  induction 1 as [|line out ls os R F IH]; intros Hn; [constructor|].
  inversion Hn as [|? ? Nl Nr]; subst. constructor; [|now apply IH].
  destruct (rendered_nonempty line out R) as [H|H]; [exact H | congruence].
Qed.

Lemma existsb_filter {A} (f : A -> bool) (l : list A) :
  existsb f l = truthy_list (filter f l).
Proof.
  induction l as [|x r IH]; simpl; [reflexivity|].
  destruct (f x); simpl; [reflexivity | exact IH].
Qed.

(** X10. The confirmation text is empty exactly when the content of
    VALUES.TXT holds nothing but white space: the caller, which shows the
    dialog only for a non-empty text, then starts the build without
    asking. *)
Theorem format_values_empty_iff :
  forall text : pystr, truthy (format_values text) = nonblank text.
Proof.
  intros text. unfold format_values.
  destruct (fold_format_line (split_on 10 (replace_char 9 32 (strip text))) [])
    as [outs [E F]]. rewrite E. simpl.
  rewrite <- (nonblank_strip text), <- (nonblank_replace_tab (strip text)),
          <- nonblank_split_lines, existsb_filter.
  pose proof (rendered_all_nonempty _ _ F (Forall_filter_true _ _)) as Hne.
  destruct F as [|line out ls os R F]; [reflexivity|].
  inversion Hne as [|? ? Ho _]; subst. simpl.
  destruct os as [|o2 os]; simpl.
  - destruct out; [contradiction | reflexivity].
  - destruct out; [contradiction | reflexivity].
Qed.

(** ** Post-processing without a patch directory *)

(** X11. When no patch directory is given (an empty path), or the path
    does not exist at line 89, that is on the machine as step 1 left it,
    post-processing does one thing only: it renames the directory [MFG]
    of the target, if there is one, to [mfg], reports that (or the
    failure of the renaming) with one MODIFY event, and puts its STATUS
    event. The index and the EFI directory are not touched. *)
Theorem post_process_without_patch :
  forall (W : Type) (P : Platform W)
         (recovery_target patch_source script_dir : pystr) (w : W),
    let old_path := path_join recovery_target (str "MFG") in
    let new_path := path_join recovery_target (str "mfg") in
    let after_step_1 :=
      if path_isdir old_path w then snd (os_rename old_path new_path w) else w in
    (truthy patch_source = false \/ path_exists patch_source after_step_1 = false) ->
    post_process_files recovery_target patch_source script_dir w
    = if path_isdir old_path w then
        match os_rename old_path new_path w with
        | (Ret _, w1) =>
            (Ret tt, w1,
             [Emit (mkEvent (str "MODIFY") (str "Folder MFG") (str "root")
                            (str "Renamed to 'mfg'"));
              Emit status_event])
        | (Raise e, w1) =>
            (Ret tt, w1,
             [Caught 86 e;
              Emit (mkEvent (str "MODIFY") (str "Folder MFG") []
                            (str "Error: " ++ exn_str e));
              Handled 86;
              Emit status_event])
        end
      else (Ret tt, w, [Emit status_event]).
Proof.
  intros W P recovery_target patch_source script_dir w old_path new_path after_step_1 Hp.
  unfold post_process_files. fold old_path new_path.
  unfold bind, query, op, log, put, ret, try_catch, try_except.
  unfold after_step_1 in Hp. clear after_step_1.
  destruct (path_isdir old_path w).
  - destruct (os_rename old_path new_path w) as [[[]|e] w1]; cbn [fst snd] in *;
      (destruct Hp as [Hp|Hp];
       [rewrite Hp | destruct (truthy patch_source); rewrite ?Hp]; reflexivity).
  - destruct Hp as [Hp|Hp];
      [rewrite Hp | destruct (truthy patch_source); rewrite ?Hp]; reflexivity.
Qed.

(** A patch directory given as [USB/MFG/patch]: it is there when
    post-processing begins and gone at line 89, the renaming of step 1
    having moved it. *)
Lemma post_process_without_patch_witness :
  path_exists (Platform:=Posix.platform) (str "USB/MFG/patch")
    [(str "USB", Posix.Dir); (str "USB/MFG", Posix.Dir);
     (str "USB/MFG/patch", Posix.Dir)] = true
  /\ post_process_files (P:=Posix.platform) (str "USB") (str "USB/MFG/patch") (str "APP")
       [(str "USB", Posix.Dir); (str "USB/MFG", Posix.Dir);
        (str "USB/MFG/patch", Posix.Dir)]
     = (Ret tt,
        [(str "USB", Posix.Dir); (str "USB/mfg", Posix.Dir);
         (str "USB/mfg/patch", Posix.Dir)],
        [Emit (Scenario.ev "MODIFY" "Folder MFG" "root" "Renamed to 'mfg'");
         Emit status_event]).
Proof.
  split; [reflexivity|].
  rewrite (post_process_without_patch Posix.fs Posix.platform (str "USB")
             (str "USB/MFG/patch") (str "APP")
             [(str "USB", Posix.Dir); (str "USB/MFG", Posix.Dir);
              (str "USB/MFG/patch", Posix.Dir)] (or_intror eq_refl)).
  vm_compute. reflexivity.
Defined.

(** ** Which recipe is adopted *)

Section Adoption.

Context {W : Type} {P : Platform W}.

Lemma skips_only_nil (patch_files : list pystr) : skips_only patch_files [].
Proof. constructor. Qed.

Lemma skips_only_more (f : pystr) (patch_files : list pystr) (t : list item) :
  skips_only patch_files t -> skips_only (f :: patch_files) t.
Proof.
  unfold skips_only. apply Forall_impl. intros ev [g [Hin [He Hev]]].
  exists g. split; [now right | auto].
Qed.

Lemma skips_only_app (patch_files : list pystr) (t1 t2 : list item) :
  skips_only patch_files t1 -> skips_only patch_files t2 ->
  skips_only patch_files (t1 ++ t2).
Proof.
  unfold skips_only. rewrite queue_of_app. intros H1 H2. apply Forall_app. now split.
Qed.

Variables patch_source target_rec_dir : pystr.

Lemma adoption_prefix (patch_files : list pystr) (t0 : list item)
    (r : outcome (option pystr)) (w : W) (t : list item) :
  skips_only patch_files t0 ->
  adoption patch_source target_rec_dir patch_files (r, w, t) ->
  adoption patch_source target_rec_dir patch_files (r, w, t0 ++ t).
Proof.
  intros H0 H. destruct r as [[f|]|e]; cbn [adoption] in *;
    [| now apply skips_only_app | now apply skips_only_app].
  destruct H as [Hin [He [Hc [t' [Et Hs]]]]].
  split; [exact Hin|]. split; [exact He|]. split; [exact Hc|].
  exists (t0 ++ t'). split; [now rewrite Et, app_assoc | now apply skips_only_app].
Qed.

Lemma adoption_more (f : pystr) (patch_files : list pystr)
    (r : outcome (option pystr) * W * list item) :
  adoption patch_source target_rec_dir patch_files r ->
  adoption patch_source target_rec_dir (f :: patch_files) r.
Proof.
  destruct r as [[[[g|]|e] w] t]; cbn [adoption]; try apply skips_only_more.
  intros [Hin [He [Hc [t' [Et Hs]]]]].
  split; [now right|]. split; [exact He|]. split; [exact Hc|].
  exists t'. split; [exact Et | now apply skips_only_more].
Qed.

Lemma adoption_bind {A} (patch_files : list pystr) (m : M A)
    (k : A -> M (option pystr)) (w : W) (a : A) (w1 : W) (t1 : list item) :
  m w = (Ret a, w1, t1) -> skips_only patch_files t1 ->
  adoption patch_source target_rec_dir patch_files (k a w1) ->
  adoption patch_source target_rec_dir patch_files (bind m k w).
Proof.
  intros E H1 Hk. unfold bind. rewrite E.
  destruct (k a w1) as [[r w2] t2]. now apply adoption_prefix.
Qed.

(** X12. The loop over the patch directory adopts at most one recipe. If
    it returns a name, that name is one of the listed files and ends in
    [.cri] whatever the case; the image of the same base name was there,
    [shutil.copy2] returned for the recipe and then for the image, and
    the machine is as the second copy left it; the last event is the COPY
    event of the pair. Before it, and on every other outcome (nothing
    adopted, or an exception), the only events are SKIP events of listed
    recipe files. So a pair is reported as copied only if both copies
    succeeded. *)
Theorem cri_loop_adopts_one (patch_files : list pystr) (w : W) :
  adoption patch_source target_rec_dir patch_files
           (cri_loop patch_source target_rec_dir patch_files w).
Proof.
  revert w. induction patch_files as [|filename rest IH]; intros w.
  - simpl. apply skips_only_nil.
  - cbn [cri_loop].
    destruct (endswith (str ".cri") (str_lower filename)) eqn:Hcri;
      [| apply adoption_more, IH].
    match goal with
    | |- context [try_catch 119 ?b ?h] => set (cls := try_catch 119 b h)
    end.
    assert (Hcls : exists b w1 t1, cls w = (Ret b, w1, t1) /\ queue_of t1 = []).
    { subst cls. unfold try_catch, try_except, bind, op, ret.
      destruct (read_text_ignore _ w) as [[c|e] w1]; cbn [fst snd];
        do 3 eexists; split; reflexivity. }
    destruct Hcls as [is_arm [w1 [t1 [E Q]]]].
    apply (adoption_bind _ _ _ _ is_arm w1 t1 E).
    { unfold skips_only. rewrite Q. constructor. }
    destruct is_arm.
    + apply (adoption_bind _ _ _ _ tt w1 [Emit (skip_event filename)] eq_refl).
      * constructor; [|constructor]. exists filename. split; [now left | auto].
      * apply adoption_more, IH.
    + cbv zeta.
      apply (adoption_bind _ _ _ _ _ w1 [] eq_refl (skips_only_nil _)).
      destruct (path_exists _ w1) eqn:Hex; [|apply adoption_more, IH].
      unfold bind, op, log, put, ret.
      destruct (shutil_copy2 _ target_rec_dir w1) as [[[]|e] w2] eqn:C1;
        [| apply skips_only_nil].
      destruct (shutil_copy2 _ target_rec_dir w2) as [[[]|e] w3] eqn:C2;
        [| apply skips_only_nil].
      cbn [adoption app]. split; [now left|]. split; [exact Hcri|].
      split; [exists w1, w2; auto|].
      exists []. split; [reflexivity | apply skips_only_nil].
Qed.

End Adoption.

(** ** The header of the backup index *)

Lemma next_lines_short (n : nat) (l : list pystr) :
  (length l < n)%nat -> next_lines n l = Raise (mkExn StopIteration []).
Proof.
  revert l. induction n as [|n IH]; intros l Hn; [lia|].
  destruct l as [|x r]; [reflexivity|]. simpl.
  rewrite IH by (simpl in Hn; lia). reflexivity.
Qed.

Section SpliceStep.

Context {W : Type} {P : Platform W}.

Variables script_dir target_rec_dir aod_dat aod_org aod_stat copied_cri_name : pystr.

(** X13. The splice needs four lines of backup. When the tool has run,
    its output has taken the place of the index and the backup has been
    read, then with fewer than four lines of backup step 4 ends there
    with [StopIteration], whose text is empty: the machine is as the
    reading of the backup left it, so the rebuilt index is neither read
    nor written, and no MODIFY event is put. With four lines or more the
    step goes on: it reads the rebuilt index and, if that succeeds,
    writes the spliced text, and only then puts the MODIFY event. *)
Theorem splice_needs_four_lines :
  forall (w w1 w2 w3 w4 : W) (proc : completed_process) (org_text : pystr),
    os_rename aod_dat aod_org w = (Ret tt, w1) ->
    path_exists (path_join script_dir (str "aodbuild.exe")) w1 = true ->
    subprocess_run [path_join script_dir (str "aodbuild.exe");
                    str "/F:" ++ copied_cri_name; str "/P:AOD.ORG"]
                   (Some target_rec_dir) w1 = (Ret proc, w2) ->
    path_exists aod_stat w2 = true ->
    os_rename aod_stat aod_dat w2 = (Ret tt, w3) ->
    read_text aod_org w3 = (Ret org_text, w4) ->
    let step := aod_processing script_dir target_rec_dir aod_dat aod_org aod_stat
                               copied_cri_name w in
    if (length (readlines org_text) <? 4)%nat then
      step = (Raise (mkExn StopIteration []), w4, [Emit (exec_event proc)])
    else
      match read_text aod_dat w4 with
      | (Raise e, w5) => step = (Raise e, w5, [Emit (exec_event proc)])
      | (Ret dat_text, w5) =>
          exists out,
            splice org_text dat_text = Ret out
            /\ match write_text aod_dat out w5 with
               | (Ret _, w6) =>
                   step = (Ret false, w6,
                           [Emit (exec_event proc); Emit index_updated_event])
               | (Raise e, w6) => step = (Raise e, w6, [Emit (exec_event proc)])
               end
      end.
Proof.
  intros w w1 w2 w3 w4 proc org_text R1 X1 T X2 R2 Rd step.
  assert (Hstep : step
    = match read_header org_text with
      | Raise e => (Raise e, w4, [Emit (exec_event proc)])
      | Ret header_lines =>
          match read_text aod_dat w4 with
          | (Raise e, w5) => (Raise e, w5, [Emit (exec_event proc)])
          | (Ret dat_text, w5) =>
              match write_text aod_dat
                      (writelines (final_lines header_lines (readlines dat_text))) w5 with
              | (Ret _, w6) =>
                  (Ret false, w6, [Emit (exec_event proc); Emit index_updated_event])
              | (Raise e, w6) => (Raise e, w6, [Emit (exec_event proc)])
              end
          end
      end).
  { unfold step, aod_processing. cbv zeta.
    unfold bind, op, query, lift, log, put, ret.
    rewrite R1, X1. cbn [negb]. cbv iota. rewrite T.
    unfold exec_event.
    destruct (returncode proc =? 0); cbv iota; rewrite X2; cbv iota;
      rewrite R2, Rd;
      (destruct (read_header org_text) as [header_lines|e]; [|reflexivity]);
      (destruct (read_text aod_dat w4) as [[dat_text|e] w5]; [|reflexivity]);
      destruct (write_text aod_dat _ w5) as [[[]|e] w6]; reflexivity. }
  destruct (Nat.ltb_spec (length (readlines org_text)) 4) as [Hlt|Hge].
  - rewrite Hstep. unfold read_header. now rewrite next_lines_short.
  - rewrite Hstep. unfold read_header. rewrite next_lines_firstn by exact Hge.
    destruct (read_text aod_dat w4) as [[dat_text|e] w5]; [|reflexivity].
    exists (writelines (final_lines (firstn 4 (readlines org_text)) (readlines dat_text))).
    split.
    + unfold splice, read_header. now rewrite next_lines_firstn.
    + destruct (write_text aod_dat _ w5) as [[[]|e] w6]; reflexivity.
Qed.

End SpliceStep.

(** On a target whose index has three lines, with the tool installed:
    the index is moved aside, the tool runs, its output takes the place
    of the index, and the step ends with [StopIteration]. *)
Lemma splice_needs_four_lines_witness :
  Workshop.step
  = (Raise (mkExn StopIteration []),
     [(str "USB/RECOVERY/AOD.DAT", Posix.File Workshop.rebuilt None);
      (str "USB", Posix.Dir);
      (str "USB/RECOVERY", Posix.Dir);
      (str "USB/RECOVERY/AOD.ORG",
       Posix.File (str "A" ++ [10] ++ str "B" ++ [10] ++ str "C" ++ [10]) None);
      (str "APP", Posix.Dir);
      (str "APP/aodbuild.exe", Posix.File (str "MZ") None)],
     [Emit (Scenario.ev "EXEC" "aodbuild.exe" "RECOVERY" "Success")]).
Proof.
  pose proof (fun w1 w2 w3 w4 proc org_text =>
    splice_needs_four_lines (P:=Workshop.platform) (str "APP") (str "USB/RECOVERY")
      (str "USB/RECOVERY/AOD.DAT") (str "USB/RECOVERY/AOD.ORG")
      (str "USB/RECOVERY/aodstat.dat") (str "a.cri")
      Workshop.short_index w1 w2 w3 w4 proc org_text) as H.
  specialize (H _ _ _ _ _ _ eq_refl eq_refl eq_refl eq_refl eq_refl eq_refl).
  cbv zeta in H.
  match type of H with
  | if ?c then _ else _ => let v := eval vm_compute in c in change c with v in H
  end.
  cbv iota in H. unfold Workshop.step. rewrite H. vm_compute. reflexivity.
Defined.

Lemma concat_readlines (s : pystr) : concat (readlines s) = s.
Proof.
  induction s as [|c r IH]; [reflexivity|].
  cbn [readlines]. destruct (Z.eqb_spec c 10) as [->|Hc].
  - simpl. now rewrite IH.
  - destruct (readlines r) as [|h t]; simpl in *; now rewrite <- IH.
Qed.

(** X14. The splice leaves a finished index alone: when the rebuilt
    index already starts with the four header lines of the backup and
    has no blank line, the text written is the text read. *)
Theorem splice_fixed_point :
  forall org_text dat_text : pystr,
    (4 <= length (readlines org_text))%nat ->
    firstn 4 (readlines dat_text) = firstn 4 (readlines org_text) ->
    forallb nonblank (readlines dat_text) = true ->
    splice org_text dat_text = Ret dat_text.
Proof.
  intros org_text dat_text H4 Hh Hn.
  unfold splice, read_header. rewrite next_lines_firstn by exact H4. cbn [obind].
  unfold final_lines, slice_assign_prefix, writelines.
  rewrite <- Hh, firstn_skipn. fold nonblank.
  rewrite (filter_all _ _ Hn), concat_readlines. reflexivity.
Qed.

Lemma splice_fixed_point_witness :
  splice Sample.org_full (Sample.org_full ++ str "F" ++ Sample.nl)
  = Ret (Sample.org_full ++ str "F" ++ Sample.nl).
Proof.
  apply splice_fixed_point; vm_compute; first [reflexivity | lia].
Defined.

(** ** The lines of the log *)

Lemma ljust_length (w : nat) (s : pystr) : length (ljust w s) = Nat.max w (length s).
Proof. unfold ljust. rewrite length_app, repeat_length. lia. Qed.

Lemma ljust_short (w : nat) (s : pystr) : (length s <= w)%nat -> length (ljust w s) = w.
Proof. intros H. rewrite ljust_length. lia. Qed.

Lemma firstn_app_exact {A} (a b : list A) (n : nat) :
  length a = n -> firstn n (a ++ b) = a.
Proof.
  intros <-. rewrite firstn_app, Nat.sub_diag, firstn_all. simpl. apply app_nil_r.
Qed.

Lemma skipn_app_exact {A} (a b : list A) (n : nat) :
  length a = n -> skipn n (a ++ b) = b.
Proof.
  intros <-. rewrite skipn_app, Nat.sub_diag, skipn_all. reflexivity.
Qed.

Lemma field25_length (s : pystr) : length (ljust 25 (firstn 25 s)) = 25%nat.
Proof. apply ljust_short. rewrite length_firstn. lia. Qed.

(** The columns of a log line. *)
Lemma format_log_layout :
  forall item : dict,
    let action := dict_get item (str "action") [] in
    let filename := dict_get item (str "filename") [] in
    let path := dict_get item (str "path") [] in
    let result := dict_get item (str "result") [] in
    (length action <= 8)%nat ->
    let line := format_log item in
    firstn 8 line = ljust 8 action
    /\ firstn 25 (skipn 9 line) = ljust 25 (firstn 25 filename)
    /\ firstn 25 (skipn 35 line) = ljust 25 (firstn 25 path)
    /\ skipn 61 line = result ++ repeat 32 (20 - length result)
    /\ length line = (61 + Nat.max 20 (length result))%nat.
Proof.
  intros item action filename path result Ha line.
  unfold line, format_log. fold action filename path result.
  set (a := ljust 8 action). set (f := ljust 25 (firstn 25 filename)).
  set (p := ljust 25 (firstn 25 path)). set (r := ljust 20 result).
  assert (La : length a = 8%nat) by (apply ljust_short; exact Ha).
  assert (Lf : length f = 25%nat) by apply field25_length.
  assert (Lp : length p = 25%nat) by apply field25_length.
  assert (S9 : skipn 9 (a ++ str " " ++ f ++ str " " ++ p ++ str " " ++ r)
               = f ++ str " " ++ p ++ str " " ++ r).
  { change (a ++ str " " ++ f ++ str " " ++ p ++ str " " ++ r)
      with (a ++ [32] ++ (f ++ str " " ++ p ++ str " " ++ r)).
    rewrite app_assoc. apply skipn_app_exact. rewrite length_app, La. reflexivity. }
  assert (S35 : skipn 35 (a ++ str " " ++ f ++ str " " ++ p ++ str " " ++ r)
                = p ++ str " " ++ r).
  { change 35%nat with (26 + 9)%nat. rewrite <- skipn_skipn, S9.
    change (f ++ str " " ++ p ++ str " " ++ r) with (f ++ [32] ++ (p ++ str " " ++ r)).
    rewrite app_assoc. apply skipn_app_exact. rewrite length_app, Lf. reflexivity. }
  assert (S61 : skipn 61 (a ++ str " " ++ f ++ str " " ++ p ++ str " " ++ r) = r).
  { change 61%nat with (26 + 35)%nat. rewrite <- skipn_skipn, S35.
    change (p ++ str " " ++ r) with (p ++ [32] ++ r).
    rewrite app_assoc. apply skipn_app_exact. rewrite length_app, Lp. reflexivity. }
  split; [now apply firstn_app_exact|].
  split; [rewrite S9; now apply firstn_app_exact|].
  split; [rewrite S35; now apply firstn_app_exact|].
  split; [exact S61|].
  rewrite !length_app, La, Lf, Lp. unfold r. rewrite ljust_length. simpl. lia.
Qed.

(** X15. [format_log] lays an item out in columns: when the action has
    at most 8 characters, it stands at column 0, the first 25 characters
    of the file name at column 9, the first 25 characters of the path at
    column 35 and the whole result, never cut, from column 61; each
    field is padded with spaces; a key the item lacks counts as the empty
    string. *)
Theorem format_log_columns :
  forall item : dict,
    let action := dict_get item (str "action") [] in
    let filename := dict_get item (str "filename") [] in
    let path := dict_get item (str "path") [] in
    let result := dict_get item (str "result") [] in
    (length action <= 8)%nat ->
    let line := format_log item in
    firstn 8 line = ljust 8 action
    /\ firstn 25 (skipn 9 line) = ljust 25 (firstn 25 filename)
    /\ firstn 25 (skipn 35 line) = ljust 25 (firstn 25 path)
    /\ skipn 61 line = result ++ repeat 32 (20 - length result)
    /\ length line = (61 + Nat.max 20 (length result))%nat.
Proof. exact format_log_layout. Qed.

Lemma format_log_columns_witness :
  firstn 8 (format_log (event_dict (Scenario.ev "MISSING" "missing.bin" "" "Source not found")))
  = str "MISSING "
  /\ skipn 61 (format_log (event_dict (Scenario.ev "MISSING" "missing.bin" ""
                                         "Source not found")))
     = str "Source not found    ".
Proof.
  destruct (format_log_columns
              (event_dict (Scenario.ev "MISSING" "missing.bin" "" "Source not found")))
    as [H1 [_ [_ [H4 _]]]].
  - vm_compute. lia.
  - split; [exact H1 | exact H4].
Defined.

(** ** Emptying the queue *)

Lemma take_log_item_effect (h : Z) (st : ui_state) (ms : Z) (log_item : event) :
  let r := take_log_item h (st, ms) log_item in
  log_lines (fst r) = log_lines st ++ [line_of log_item]
  /\ is_running (fst r) = is_running st && negb (is_done log_item)
  /\ focus_index (fst r) = focus_index st
  /\ input_values (fst r) = input_values st
  /\ user_scrolled (fst r) = user_scrolled st
  /\ snd r = Z.max 0 (len (log_lines (fst r)) - h)
  /\ log_scroll_offset (fst r)
     = if user_scrolled st then log_scroll_offset st else snd r.
Proof.
  unfold take_log_item, line_of, is_done. cbn [fst].
  destruct (pystr_eqb (action log_item) ACTION_DONE_TOKEN);
    destruct (user_scrolled st) eqn:U; cbn; rewrite ?U, ?andb_false_r, ?andb_true_r;
    repeat split; reflexivity.
Qed.

(** What emptying the queue does. *)
Lemma process_log_queue_spec :
  forall (log_content_h : Z) (st : ui_state) (batch : list event),
    let r := process_log_queue log_content_h st batch in
    log_lines (fst r) = log_lines st ++ map line_of batch
    /\ is_running (fst r) = is_running st && forallb (fun ev => negb (is_done ev)) batch
    /\ focus_index (fst r) = focus_index st
    /\ input_values (fst r) = input_values st
    /\ user_scrolled (fst r) = user_scrolled st
    /\ snd r = Z.max 0 (len (log_lines (fst r)) - log_content_h)
    /\ log_scroll_offset (fst r)
       = if user_scrolled st || negb (truthy_list batch) then log_scroll_offset st
         else snd r.
Proof.
  intros h st batch. unfold process_log_queue.
  set (ms := Z.max 0 (len (log_lines st) - h)).
  assert (Hms : ms = Z.max 0 (len (log_lines st) - h)) by reflexivity.
  clearbody ms. revert st ms Hms.
  induction batch as [|ev rest IH]; intros st ms Hms; cbn [fold_left].
  - cbn. rewrite app_nil_r, andb_true_r, orb_true_r. repeat split; auto.
  - destruct (take_log_item_effect h st ms ev) as [L [R [F [I [U [M O]]]]]].
    destruct (take_log_item h (st, ms) ev) as [st1 ms1]. cbn [fst snd] in *.
    destruct (IH st1 ms1 M) as [L' [R' [F' [I' [U' [M' O']]]]]].
    cbn zeta in *.
    split; [rewrite L', L, <- app_assoc; reflexivity|].
    split; [rewrite R', R; cbn [forallb]; now rewrite andb_assoc|].
    split; [now rewrite F', F|]. split; [now rewrite I', I|].
    split; [now rewrite U', U|]. split; [exact M'|].
    rewrite O', U. cbn [truthy_list negb]. rewrite orb_false_r.
    destruct (user_scrolled st); cbn [orb]; [exact O|].
    destruct rest as [|ev2 rest]; cbn [truthy_list negb fold_left snd];
      [exact O | reflexivity].
Qed.

(** X16. Emptying the queue appends one line per item, in order (the done
    token gives the line "Finished."); it clears [is_running] exactly
    when the done token was among the items and never sets it; it leaves
    the focus and the input fields alone; and it keeps the view at the
    bottom of the log unless the user has scrolled, in which case the
    offset does not move. *)
Theorem process_log_queue_effect :
  forall (log_content_h : Z) (st : ui_state) (batch : list event),
    let r := process_log_queue log_content_h st batch in
    log_lines (fst r) = log_lines st ++ map line_of batch
    /\ is_running (fst r) = is_running st && forallb (fun ev => negb (is_done ev)) batch
    /\ focus_index (fst r) = focus_index st
    /\ input_values (fst r) = input_values st
    /\ user_scrolled (fst r) = user_scrolled st
    /\ snd r = Z.max 0 (len (log_lines (fst r)) - log_content_h)
    /\ log_scroll_offset (fst r)
       = if user_scrolled st || negb (truthy_list batch) then log_scroll_offset st
         else snd r.
Proof. exact process_log_queue_spec. Qed.

Lemma line_of_result (ev : event) :
  is_done ev = true \/ (length (action ev) <= 8)%nat ->
  skipn 61 (line_of ev)
  = ljust 20 (if is_done ev then str "Finished." else result ev).
Proof.
  intros H. unfold line_of. destruct (is_done ev) eqn:D.
  - reflexivity.
  - destruct H as [H|H]; [discriminate|].
    destruct (format_log_layout (event_dict ev)) as [_ [_ [_ [S _]]]].
    + exact H.
    + exact S.
Qed.

(** The queue of a worker that got past line 250, emptied by the front
    end. *)
Lemma run_drained :
  forall (W : Type) (P : Platform W) (script_dir : pystr) (rmf_root : Element)
         (source_dir patch_dir target_dir : pystr) (w : W)
         (log_content_h : Z) (st : ui_state),
    let q := queue_of (snd (run_recovery_process script_dir rmf_root source_dir
                              patch_dir target_dir w)) in
    let r := process_log_queue log_content_h st q in
    is_running (fst r) = false
    /\ log_lines (fst r) = log_lines st ++ map line_of q
    /\ last (log_lines (fst r)) [] = format_log finished_item
    /\ Forall (fun ev => skipn 61 (line_of ev)
                         = ljust 20 (if is_done ev then str "Finished." else result ev)) q.
Proof.
  intros W P script_dir rmf_root source_dir patch_dir target_dir w h st q r.
  destruct (process_log_queue_spec h st q) as [L [R _]]. fold r in L, R.
  assert (Hq : exists evs last_ev,
             q = evs ++ [last_ev; done_event]
             /\ forallb (tagged (body_tags ++ [str "FATAL"])) (evs ++ [last_ev]) = true).
  { unfold q.
    destruct (run_recovery_process_ends script_dir rmf_root source_dir patch_dir
                target_dir w) as [t [Ht [E | [e E]]]]; rewrite E, queue_of_app.
    - exists (queue_of t), completed_event. split; [reflexivity|].
      rewrite forallb_app. apply andb_true_iff. split; [|reflexivity].
      revert Ht. apply forallb_impl. intros ev H. apply tagged_in.
      apply in_or_app. left. now apply tagged_in.
    - exists (queue_of t), (fatal_event e). split; [reflexivity|].
      rewrite forallb_app. apply andb_true_iff. split; [|reflexivity].
      revert Ht. apply forallb_impl. intros ev H. apply tagged_in.
      apply in_or_app. left. now apply tagged_in. }
  destruct Hq as [evs [last_ev [Eq Ht]]].
  assert (Hshort : forall ev, tagged (body_tags ++ [str "FATAL"]) ev = true ->
             is_done ev = false /\ (length (action ev) <= 8)%nat).
  { intros ev H. apply tagged_in in H. unfold is_done.
    set (a := action ev) in *. clearbody a. simpl in H.
    repeat (destruct H as [<- | H]; [split; [reflexivity | simpl; lia]|]).
    contradiction. }
  split.
  { rewrite R, Eq, forallb_app. cbn. now rewrite !andb_false_r. }
  split; [exact L|]. split.
  { rewrite L, Eq, map_app. cbn [map].
    change [line_of last_ev; line_of done_event]
      with ([line_of last_ev] ++ [line_of done_event]).
    rewrite !app_assoc, last_last. reflexivity. }
  rewrite Eq. change [last_ev; done_event] with ([last_ev] ++ [done_event]).
  rewrite app_assoc. apply Forall_app. split.
  - rewrite forallb_forall in Ht. apply Forall_forall. intros ev Hin.
    apply line_of_result. right. now apply Hshort, Ht.
  - constructor; [|constructor]. apply line_of_result. now left.
Qed.

(** X17. After the front end has emptied the whole queue of a worker,
    whatever the platform did and whatever the state was: if the worker
    got past line 250, [is_running] is false, the log has one more line
    per event, the last being the "Finished." line, and each of these
    lines carries the result text of its event from column 61 on; if the
    worker died at line 250, the queue is empty, the log is as it was and
    [is_running] keeps its value, so a front end that set it on starting
    the worker still has it set. *)
Theorem run_then_drain :
  forall (W : Type) (P : Platform W) (R : Process W) (rmf_root : Element)
         (source_dir patch_dir target_dir : pystr) (w : W)
         (log_content_h : Z) (st : ui_state),
    let q := queue_of (snd (run_recovery_process_thread rmf_root source_dir
                              patch_dir target_dir w)) in
    let r := process_log_queue log_content_h st q in
    match path_abspath sys_argv0 w with
    | Raise _ =>
        q = []
        /\ is_running (fst r) = is_running st
        /\ log_lines (fst r) = log_lines st
    | Ret _ =>
        is_running (fst r) = false
        /\ log_lines (fst r) = log_lines st ++ map line_of q
        /\ last (log_lines (fst r)) [] = format_log finished_item
        /\ Forall (fun ev => skipn 61 (line_of ev)
                             = ljust 20 (if is_done ev then str "Finished."
                                         else result ev)) q
    end.
Proof.
  intros W P R rmf_root source_dir patch_dir target_dir w h st q r.
  pose proof (run_recovery_process_thread_cases rmf_root source_dir patch_dir
                target_dir w) as C.
  destruct (path_abspath sys_argv0 w) as [script_path|e].
  - unfold r, q. rewrite C.
    apply (run_drained W P (path_dirname script_path)).
  - assert (Eq : q = []) by (unfold q; now rewrite C).
    destruct (process_log_queue_spec h st q) as [L [Rn _]]. fold r in L, Rn.
    rewrite Eq in L, Rn. cbn [map forallb] in L, Rn.
    rewrite app_nil_r in L. rewrite andb_true_r in Rn. auto.
Qed.

(** ** The confirmation dialog *)

Section ModalProperties.

Context {K : Keys}.



End ModalProperties.


(** ** The main loop *)

Section MainProperties.

Context {W : Type} {P : Platform W} {K : Keys}.

Lemma process_log_queue_keeps (h : Z) (st : ui_state) (batch : list event) :
  focus_index (fst (process_log_queue h st batch)) = focus_index st
  /\ input_values (fst (process_log_queue h st batch)) = input_values st
  /\ is_running (fst (process_log_queue h st batch))
     = is_running st && forallb (fun ev => negb (is_done ev)) batch.
Proof.
  destruct (process_log_queue_spec h st batch) as [_ [R [F [I _]]]]. auto.
Qed.

Lemma main_iteration_handlers (st : ui_state) (m : moment W) :
  let r := unhandled st m in
  let r' := main_iteration st m in
  h_spawn r' = h_spawn r /\ h_puts r' = h_puts r /\ h_world r' = h_world r
  /\ focus_index (h_state r') = focus_index (h_state r)
  /\ input_values (h_state r') = input_values (h_state r)
  /\ (h_control r' = Next -> is_running (h_state r') = is_running (h_state r))
  /\ (h_control r' = Next ->
      h_control r = Next \/ h_control r = Thrown CursesError).
Proof.
  unfold main_iteration. fold (unhandled st m).
  destruct (unhandled st m) as [s c sp pu w]. cbn.
  destruct c as [| |[|e]|]; cbn; try (repeat split; auto; fail).
  destruct (m_fatal_draw m); cbn; repeat split; auto; discriminate.
Qed.

Lemma handle_input_busy (st : ui_state) (max_scroll : Z) (m : moment W) :
  is_running st = true ->
  let r := handle_input st max_scroll m in
  h_spawn r = None /\ h_puts r = []
  /\ input_values (h_state r) = input_values st
  /\ focus_index (h_state r) = focus_index st
  /\ is_running (h_state r) = true.
Proof.
  intros Hr. unfold handle_input. rewrite Hr.
  destruct (m_key m =? -1); [cbn; auto|].
  destruct ((m_key m =? 113) || (m_key m =? 81)); [cbn; auto|].
  destruct (m_key m =? KEY_RESIZE); [destruct (m_clear m); cbn; auto|].
  destruct (m_key m =? KEY_UP); [cbn; auto|].
  destruct (m_key m =? KEY_DOWN); cbn; auto.
Qed.

(** X19. While a build is in flight, that is while [is_running] is set
    and the done token has not come, an iteration of the main loop starts
    no worker, puts nothing on the queue, and changes neither the input
    fields nor the focus, whatever key is pressed; and if the loop goes
    on, [is_running] is still set. *)
Theorem no_second_build :
  forall (st : ui_state) (m : moment W),
    is_running st = true ->
    forallb (fun ev => negb (is_done ev)) (m_batch m) = true ->
    let r := main_iteration st m in
    h_spawn r = None /\ h_puts r = []
    /\ input_values (h_state r) = input_values st
    /\ focus_index (h_state r) = focus_index st
    /\ (h_control r = Next -> is_running (h_state r) = true).
Proof.
  intros st m Hr Hb r.
  destruct (main_iteration_handlers st m) as [S [Pu [_ [F [I [R _]]]]]].
  fold r in S, Pu, F, I, R.
  assert (U : h_spawn (unhandled st m) = None /\ h_puts (unhandled st m) = []
              /\ input_values (h_state (unhandled st m)) = input_values st
              /\ focus_index (h_state (unhandled st m)) = focus_index st
              /\ is_running (h_state (unhandled st m)) = true).
  { unfold unhandled. destruct (m_draw m); [cbn; auto|].
    destruct (process_log_queue_keeps (fst (m_size m) - input_h - title_h - 3) st
                (m_batch m)) as [F1 [I1 R1]].
    destruct (process_log_queue _ st (m_batch m)) as [st1 ms]. cbn [fst] in *.
    rewrite Hr, Hb in R1.
    destruct (handle_input_busy st1 ms m R1) as [A [B [C [D E]]]].
    rewrite <- F1, <- I1. auto. }
  destruct U as [A [B [C [D E]]]].
  rewrite S, Pu, F, I. repeat split; auto.
  intros Hn. rewrite (R Hn). exact E.
Qed.

Lemma text_editing_keeps (st : ui_state) (c : Z) (m : moment W)
    (spawn : option worker_args) (puts : list event) (w : W) :
  let r := text_editing st c m spawn puts w in
  h_spawn r = spawn /\ h_puts r = puts /\ h_world r = w
  /\ focus_index (h_state r) = focus_index st
  /\ is_running (h_state r) = is_running st
  /\ log_lines (h_state r) = log_lines st.
Proof.
  unfold text_editing.
  destruct ((0 <=? focus_index st) && (focus_index st <? NUM_INPUTS)
            && negb (is_running st)); [|cbn; repeat split; reflexivity].
  destruct ((32 <=? c) && (c <=? 126));
    [destruct (m_draw_input m); cbn; repeat split; reflexivity|].
  destruct ((c =? KEY_BACKSPACE) || (c =? 127) || (c =? 8));
    destruct (m_draw_input m); cbn; repeat split; reflexivity.
Qed.

Lemma text_editing_at_button (st : ui_state) (c : Z) (m : moment W)
    (spawn : option worker_args) (puts : list event) (w : W) :
  focus_index st = NUM_INPUTS ->
  text_editing st c m spawn puts w = mkHandled st Next spawn puts w.
Proof.
  intros H. unfold text_editing. rewrite H.
  replace (NUM_INPUTS <? NUM_INPUTS) with false by reflexivity.
  now rewrite andb_false_r.
Qed.

Lemma start_pressed_spawn (st : ui_state) (m : moment W) (args : worker_args)
    (st' : ui_state) (puts : list event) (w1 : W) :
  start_pressed st m = Fall st' (Some args) puts w1 ->
  let w := m_world m in
  let rmf := strip (dict_get (input_values st) (str "rmf_path") []) in
  let src := strip (dict_get (input_values st) (str "source_dir") []) in
  let patch := strip (dict_get (input_values st) (str "patch_dir") []) in
  let target := strip (dict_get (input_values st) (str "target_dir") []) in
  truthy rmf = true /\ path_exists rmf w = true
  /\ truthy src = true /\ path_exists src w = true
  /\ m_start m = None
  /\ is_running st' = true /\ focus_index st' = focus_index st
  /\ input_values st' = input_values st
  /\ exists rmf_root text t,
       args = (rmf_root, src, patch, target)
       /\ parse_rmf_for_dialog rmf w = (Ret (Some rmf_root, text), w1, t)
       /\ puts = queue_of t
       /\ (truthy_opt text = false
           \/ show_modal_dialog (fst (m_modal_size m)) (snd (m_modal_size m))
                (str "RMF Metadata Verification") (from_opt text)
                (str "Proceed? (Y/N)") true (m_newwin m) (m_passes m)
              = Returned (Some true)).
Proof.
  unfold start_pressed. cbv zeta.
  set (w := m_world m).
  set (rmf := strip (dict_get (input_values st) (str "rmf_path") [])).
  set (src := strip (dict_get (input_values st) (str "source_dir") [])).
  set (patch := strip (dict_get (input_values st) (str "patch_dir") [])).
  set (target := strip (dict_get (input_values st) (str "target_dir") [])).
  destruct (truthy rmf) eqn:T1; cbn [negb orb]; [|discriminate].
  destruct (path_exists rmf w) eqn:E1; cbn [negb orb]; [|discriminate].
  destruct (truthy src) eqn:T2; cbn [negb orb]; [|discriminate].
  destruct (path_exists src w) eqn:E2; cbn [negb orb]; [|discriminate].
  destruct (m_draw_log m); [discriminate|].
  destruct (parse_rmf_for_dialog rmf w) as [[[[root text]|e] w2] t] eqn:Pa;
    [|discriminate].
  destruct root as [root|]; [|discriminate].
  destruct (truthy_opt text) eqn:Tt.
  - destruct (show_modal_dialog _ _ _ _ _ _ _ _) as [[[|]|]|e|f] eqn:D;
      try discriminate.
    + destruct (m_restore m); [discriminate|].
      destruct (m_start m) eqn:S; [discriminate|].
      intros H. inversion H; subst. cbn.
      repeat split; auto. exists root, text, t. repeat split; auto.
    + destruct (m_restore m); discriminate.
    + destruct (m_restore m); discriminate.
  - destruct (m_start m) eqn:S; [discriminate|].
    intros H. inversion H; subst. cbn.
    repeat split; auto. exists root, text, t. repeat split; auto.
Qed.

Lemma start_pressed_keeps (st : ui_state) (m : moment W) :
  match start_pressed st m with
  | End_ h =>
      h_spawn h = None
      /\ focus_index (h_state h) = focus_index st
      /\ input_values (h_state h) = input_values st
  | Fall st' _ _ _ =>
      focus_index st' = focus_index st /\ input_values st' = input_values st
  end.
Proof.
  unfold start_pressed. cbv zeta.
  destruct (negb _ || negb _ || negb _ || negb _); [cbn; auto|].
  destruct (m_draw_log m); [cbn; auto|].
  destruct (parse_rmf_for_dialog _ (m_world m)) as [[[[root text]|e] w2] t];
    [|cbn; auto].
  destruct root as [root|]; [|cbn; auto].
  destruct (truthy_opt text).
  - destruct (show_modal_dialog _ _ _ _ _ _ _ _) as [[[|]|]|e|f]; cbn; auto;
      destruct (m_restore m); cbn; auto; destruct (m_start m); cbn; auto.
  - destruct (m_start m); cbn; auto.
Qed.

Lemma handle_input_spawn (st : ui_state) (max_scroll : Z) (m : moment W)
    (args : worker_args) :
  h_spawn (handle_input st max_scroll m) = Some args ->
  is_running st = false
  /\ focus_index st = NUM_INPUTS
  /\ (m_key m = KEY_ENTER \/ m_key m = 10 \/ m_key m = 13)
  /\ exists st' puts w1,
       start_pressed st m = Fall st' (Some args) puts w1
       /\ handle_input st max_scroll m = mkHandled st' Next (Some args) puts w1.
Proof.
  unfold handle_input.
  destruct (m_key m =? -1); [discriminate|].
  destruct ((m_key m =? 113) || (m_key m =? 81)); [discriminate|].
  destruct (m_key m =? KEY_RESIZE); [destruct (m_clear m); discriminate|].
  destruct (is_running st); [discriminate|].
  assert (Hno : forall s w0, h_spawn (text_editing s (m_key m) m None [] w0) = Some args
                            -> False).
  { intros s w0 H. destruct (text_editing_keeps s (m_key m) m None [] w0) as [E _].
    rewrite E in H. discriminate. }
  destruct (m_key m =? KEY_UP); [intros H; exfalso; eapply Hno, H|].
  destruct ((m_key m =? KEY_DOWN) || (m_key m =? 9)); [intros H; exfalso; eapply Hno, H|].
  destruct ((m_key m =? KEY_ENTER) || (m_key m =? 10) || (m_key m =? 13)) eqn:En;
    [|intros H; exfalso; eapply Hno, H].
  destruct (Z.eqb_spec (focus_index st) NUM_INPUTS) as [Hf|Hf].
  - pose proof (start_pressed_keeps st m) as Hk.
    destruct (start_pressed st m) as [st' spawn puts w1 | h] eqn:Sp.
    + destruct Hk as [F _]. rewrite text_editing_at_button by congruence.
      cbn. intros H. subst spawn.
      split; [reflexivity|]. split; [exact Hf|]. split.
      * apply orb_true_iff in En. destruct En as [En|En];
          [apply orb_true_iff in En; destruct En as [En|En]|];
          apply Z.eqb_eq in En; auto.
      * exists st', puts, w1. split; reflexivity.
    + destruct Hk as [S _]. intros H. rewrite S in H. discriminate.
  - destruct ((0 <=? focus_index st) && (focus_index st <? NUM_INPUTS));
      intros H; exfalso; eapply Hno, H.
Qed.

(** X20. An iteration of the main loop starts a worker only from the
    START button: no build is in flight once the queue is emptied, START
    has the focus, the key is Enter, the manifest path and the source
    path are not blank and exist, the loader returned the manifest, the
    dialog, if a confirmation text was found, was answered Yes, and the
    thread could be started. The worker gets the manifest and the three
    stripped paths; [is_running] is then set and the loop goes on. A
    dialog answered No, or left with q, starts nothing. *)
Theorem worker_started_only_when :
  forall (st : ui_state) (m : moment W) (args : worker_args),
    h_spawn (main_iteration st m) = Some args ->
    start_conditions st m args
    /\ is_running (h_state (main_iteration st m)) = true
    /\ h_control (main_iteration st m) = Next.
Proof.
  intros st m args H.
  assert (U : h_spawn (unhandled st m) = Some args).
  { destruct (main_iteration_handlers st m) as [S _]. now rewrite <- S. }
  unfold main_iteration. fold (unhandled st m).
  unfold unhandled in U |- *.
  destruct (m_draw m) eqn:Dr; [discriminate|].
  destruct (process_log_queue_keeps (fst (m_size m) - input_h - title_h - 3) st
              (m_batch m)) as [F1 [I1 R1]].
  destruct (process_log_queue _ st (m_batch m)) as [st1 ms]. cbn [fst] in *.
  destruct (handle_input_spawn st1 ms m args U) as [Hr [Hf [Hk [st' [puts [w1 [Sp E]]]]]]].
  rewrite E. cbn.
  destruct (start_pressed_spawn st1 m args st' puts w1 Sp)
    as [T1 [E1 [T2 [E2 [S [R' [_ [_ [root [text [t [Ea [Pa [_ Dl]]]]]]]]]]]]]].
  split; [|split; [exact R' | reflexivity]].
  unfold start_conditions. rewrite <- I1, <- F1, <- R1.
  repeat split; auto. exists root, text, w1, t. auto.
Qed.

(** X21. In one iteration the input fields change in one of two ways
    only: a printable character (code 32 to 126) is appended to the field
    in focus, or the last character of that field is removed by a
    backspace key; no other field changes. The field is the one in focus
    when the iteration ends, and that is the one that was in focus when
    it began unless the key is one of the keys that move the focus (up,
    down, tab, Enter). The character is never q or Q: these two keys
    leave the loop before any field is touched, so a path holding one of
    them cannot be typed. *)
Theorem fields_edited_by_keys :
  forall (st : ui_state) (m : moment W),
    let st' := h_state (main_iteration st m) in
    field_edit (focus_index st') (input_values st) (input_values st') (m_key m)
    /\ (focus_index st' = focus_index st
        \/ m_key m = KEY_UP \/ m_key m = KEY_DOWN \/ m_key m = 9
        \/ m_key m = KEY_ENTER \/ m_key m = 10 \/ m_key m = 13).
Proof.
  intros st m st'. unfold st'. clear st'.
  destruct (main_iteration_handlers st m) as [_ [_ [_ [F [I _]]]]]. rewrite F, I.
  unfold unhandled. destruct (m_draw m); [split; now left|].
  destruct (process_log_queue_keeps (fst (m_size m) - input_h - title_h - 3) st
              (m_batch m)) as [F1 [I1 _]].
  destruct (process_log_queue _ st (m_batch m)) as [st1 ms]. cbn [fst] in *.
  rewrite <- I1, <- F1. clear F I F1 I1 st.
  unfold handle_input.
  destruct (m_key m =? -1); [split; now left|].
  destruct ((m_key m =? 113) || (m_key m =? 81)) eqn:Q; [split; now left|].
  apply orb_false_elim in Q. destruct Q as [Q1 Q2].
  apply Z.eqb_neq in Q1, Q2.
  destruct (m_key m =? KEY_RESIZE); [destruct (m_clear m); split; now left|].
  destruct (is_running st1);
    [destruct (m_key m =? KEY_UP); [split; now left|];
     destruct (m_key m =? KEY_DOWN); split; now left|].
  assert (Hed : forall s sp pu w0,
             input_values s = input_values st1 ->
             field_edit (focus_index (h_state (text_editing s (m_key m) m sp pu w0)))
               (input_values st1)
               (input_values (h_state (text_editing s (m_key m) m sp pu w0))) (m_key m)
             /\ focus_index (h_state (text_editing s (m_key m) m sp pu w0))
                = focus_index s).
  { intros s sp pu w0 Hs.
    destruct (text_editing_keeps s (m_key m) m sp pu w0) as [_ [_ [_ [E _]]]].
    split; [|exact E]. rewrite E. clear E. unfold text_editing.
    destruct ((0 <=? focus_index s) && (focus_index s <? NUM_INPUTS)
              && negb (is_running s)) eqn:C; [|left; now rewrite <- Hs].
    apply andb_prop in C. destruct C as [C _]. apply andb_prop in C.
    destruct C as [C1 C2]. apply Z.leb_le in C1. apply Z.ltb_lt in C2.
    destruct ((32 <=? m_key m) && (m_key m <=? 126)) eqn:Pr.
    - apply andb_prop in Pr. destruct Pr as [P1 P2].
      apply Z.leb_le in P1. apply Z.leb_le in P2.
      right. split; [lia|]. left.
      repeat split; auto. destruct (m_draw_input m); cbn; now rewrite Hs.
    - destruct ((m_key m =? KEY_BACKSPACE) || (m_key m =? 127) || (m_key m =? 8)) eqn:B.
      + right. split; [lia|]. right. split.
        * apply orb_true_iff in B. destruct B as [B|B];
            [apply orb_true_iff in B; destruct B as [B|B]|];
            apply Z.eqb_eq in B; auto.
        * destruct (m_draw_input m); cbn; now rewrite Hs.
      + left. destruct (m_draw_input m); cbn; now rewrite Hs. }
  destruct (Z.eqb_spec (m_key m) KEY_UP) as [Ku|_].
  { destruct (Hed (set_focus st1 (Z.max 0 (focus_index st1 - 1))) None []
                  (m_world m) eq_refl) as [A _].
    split; [exact A | auto]. }
  destruct ((m_key m =? KEY_DOWN) || (m_key m =? 9)) eqn:Kd.
  { destruct (Hed (set_focus st1 (Z.min NUM_INPUTS (focus_index st1 + 1))) None []
                  (m_world m) eq_refl) as [A _].
    split; [exact A|]. apply orb_true_iff in Kd.
    destruct Kd as [Kd|Kd]; apply Z.eqb_eq in Kd; auto. }
  destruct ((m_key m =? KEY_ENTER) || (m_key m =? 10) || (m_key m =? 13)) eqn:Ke.
  2:{ destruct (Hed st1 None [] (m_world m) eq_refl) as [A B].
      split; [exact A | left; exact B]. }
  assert (Hk : m_key m = KEY_ENTER \/ m_key m = 10 \/ m_key m = 13).
  { apply orb_true_iff in Ke. destruct Ke as [Ke|Ke];
      [apply orb_true_iff in Ke; destruct Ke as [Ke|Ke]|];
      apply Z.eqb_eq in Ke; auto. }
  assert (Hnav : forall x : Z,
             x = focus_index st1 \/ m_key m = KEY_UP \/ m_key m = KEY_DOWN \/ m_key m = 9
             \/ m_key m = KEY_ENTER \/ m_key m = 10 \/ m_key m = 13).
  { intros x. right. right. right. right. exact Hk. }
  destruct (focus_index st1 =? NUM_INPUTS).
  - pose proof (start_pressed_keeps st1 m) as Hs.
    destruct (start_pressed st1 m) as [st2 spawn puts w1 | h].
    + destruct Hs as [_ Hi]. destruct (Hed st2 spawn puts w1 Hi) as [A _].
      split; [exact A | apply Hnav].
    + destruct Hs as [_ [_ Hi]]. split; [left; exact Hi | apply Hnav].
  - destruct ((0 <=? focus_index st1) && (focus_index st1 <? NUM_INPUTS)).
    + destruct (Hed (set_focus st1 (Z.min NUM_INPUTS (focus_index st1 + 1))) None []
                    (m_world m) eq_refl) as [A _].
      split; [exact A | apply Hnav].
    + destruct (Hed st1 None [] (m_world m) eq_refl) as [A _].
      split; [exact A | apply Hnav].
Qed.

(** X22. The focus stays on one of the four fields or on the START
    button: an index between 0 and [NUM_INPUTS] is still so after any
    iteration. *)
Theorem focus_stays_in_range :
  forall (st : ui_state) (m : moment W),
    0 <= focus_index st <= NUM_INPUTS ->
    0 <= focus_index (h_state (main_iteration st m)) <= NUM_INPUTS.
Proof.
  intros st m Hf.
  destruct (main_iteration_handlers st m) as [_ [_ [_ [F _]]]]. rewrite F.
  unfold unhandled. destruct (m_draw m); [exact Hf|].
  destruct (process_log_queue_keeps (fst (m_size m) - input_h - title_h - 3) st
              (m_batch m)) as [F1 _].
  destruct (process_log_queue _ st (m_batch m)) as [st1 ms]. cbn [fst] in *.
  rewrite <- F1 in Hf. clear F F1 st.
  assert (N : NUM_INPUTS = 4) by reflexivity.
  unfold handle_input.
  destruct (m_key m =? -1); [exact Hf|].
  destruct ((m_key m =? 113) || (m_key m =? 81)); [exact Hf|].
  destruct (m_key m =? KEY_RESIZE); [destruct (m_clear m); exact Hf|].
  destruct (is_running st1);
    [destruct (m_key m =? KEY_UP); [exact Hf|];
     destruct (m_key m =? KEY_DOWN); exact Hf|].
  assert (Hed : forall s sp pu w0,
             0 <= focus_index s <= NUM_INPUTS ->
             0 <= focus_index (h_state (text_editing s (m_key m) m sp pu w0))
               <= NUM_INPUTS).
  { intros s sp pu w0 Hs.
    destruct (text_editing_keeps s (m_key m) m sp pu w0) as [_ [_ [_ [E _]]]].
    now rewrite E. }
  destruct (m_key m =? KEY_UP); [apply Hed; cbn; lia|].
  destruct ((m_key m =? KEY_DOWN) || (m_key m =? 9)); [apply Hed; cbn; lia|].
  destruct ((m_key m =? KEY_ENTER) || (m_key m =? 10) || (m_key m =? 13));
    [|now apply Hed].
  destruct (focus_index st1 =? NUM_INPUTS).
  - pose proof (start_pressed_keeps st1 m) as Hk.
    destruct (start_pressed st1 m) as [st' spawn puts w1 | h].
    + destruct Hk as [Hi _]. apply Hed. now rewrite Hi.
    + destruct Hk as [_ [Hi _]]. now rewrite Hi.
  - destruct ((0 <=? focus_index st1) && (focus_index st1 <? NUM_INPUTS));
      apply Hed; cbn; lia.
Qed.

End MainProperties.

Lemma no_second_build_witness :
  h_spawn (main_iteration (P:=Posix.platform) (K:=ncurses_keys) Session.busy
             (Session.enter_then [(None, 121)])) = None
  /\ is_running (h_state (main_iteration (P:=Posix.platform) (K:=ncurses_keys)
                            Session.busy (Session.enter_then [(None, 121)]))) = true.
Proof.
  destruct (no_second_build (P:=Posix.platform) (K:=ncurses_keys) Session.busy
              (Session.enter_then [(None, 121)]) eq_refl eq_refl)
    as [A [_ [_ [_ R]]]].
  split; [exact A | apply R; reflexivity].
Defined.

Lemma worker_started_only_when_witness :
  start_conditions (P:=Posix.platform) (K:=ncurses_keys) Session.at_start
    (Session.enter_then [(None, 121)])
    (Sample.values_manifest, str "SRC", [], str "USB").
Proof.
  apply (worker_started_only_when (P:=Posix.platform) (K:=ncurses_keys) Session.at_start
           (Session.enter_then [(None, 121)])).
  vm_compute. reflexivity.
Defined.

Lemma focus_stays_in_range_witness :
  0 <= focus_index (h_state (main_iteration (P:=Posix.platform) (K:=ncurses_keys)
                               Session.on_field (Session.typing 258))) <= NUM_INPUTS.
Proof.
  apply (focus_stays_in_range (P:=Posix.platform) (K:=ncurses_keys)).
  vm_compute. split; discriminate.
Defined.

(** ** The input panel *)

Lemma len_length {A} (l : list A) : len l = Z.of_nat (length l).
Proof. reflexivity. Qed.

Lemma fit_length (w : Z) (s : pystr) : 0 <= w -> length (fit w s) = Z.to_nat w.
Proof.
  intros Hw. unfold fit, py_slice, slice_bound.
  rewrite len_length, ljust_length.
  replace (0 <? 0) with false by reflexivity.
  replace (w <? 0) with false by (symmetry; apply Z.ltb_ge; lia).
  rewrite length_firstn, length_skipn, ljust_length. lia.
Qed.

(** The part of a value shown in the box in focus is its end. *)
Lemma focused_view (value : pystr) (iw : Z) :
  1 <= iw ->
  let display_start := Z.max 0 (len value - iw + 1) in
  py_slice value display_start (display_start + iw)
  = lastn (Z.to_nat (Z.min (len value) (iw - 1))) value
  /\ 0 <= len value - display_start <= iw - 1.
Proof.
  intros Hw ds. unfold py_slice, slice_bound, lastn.
  pose proof (Zle_0_nat (length value)) as Hn. rewrite !len_length in *.
  fold (len value) in *.
  assert (Hds : 0 <= ds <= len value) by (unfold ds, len; lia).
  replace (ds <? 0) with false by (symmetry; apply Z.ltb_ge; lia).
  replace (ds + iw <? 0) with false by (symmetry; apply Z.ltb_ge; lia).
  split; [|unfold ds, len in *; lia].
  replace (Z.min ds (len value)) with ds by lia.
  replace (Z.min (ds + iw) (len value)) with (len value) by (unfold ds, len in *; lia).
  rewrite firstn_all2 by (rewrite length_skipn; unfold len; lia).
  f_equal. unfold ds, len. lia.
Qed.

Section InputPanelProperties.

Context {T : Attrs}.

(** X23. On a window wide enough for a box of at least one column, the
    input panel puts the cursor inside the box of the field in focus,
    draws in every box a text of exactly the width of the box, and shows
    in the box in focus the end of the value, the cursor standing right
    after it. *)
Theorem input_panel_boxes :
  forall (DEFAULT_TARGET : pystr) (input_values : dict) (focus max_width : Z),
    1 <= input_width max_width ->
    let calls := draw_input_panel DEFAULT_TARGET input_values focus max_width in
    let iw := input_width max_width in
    (forall y x, In (Move y x) calls ->
       input_start_col <= x <= input_start_col + iw - 1)
    /\ (forall y text attr,
          In (Addstr y input_start_col text attr) calls -> 1 <= y <= 7 ->
          length text = Z.to_nat iw)
    /\ (0 <= focus < NUM_INPUTS ->
        let value := dict_get input_values (field_key focus) [] in
        let shown := lastn (Z.to_nat (Z.min (len value) (iw - 1))) value in
        In (Addstr (focus * 2 + 1) input_start_col (fit iw shown)
                   (Some (Z.lor A_REVERSE A_BOLD))) calls
        /\ In (Move (focus * 2 + 1) (input_start_col + len shown)) calls).
Proof.
  intros DT iv focus mw Hw calls iw.
  unfold calls, draw_input_panel.
  replace (fold_right Z.max 0 (map (fun f => len (fst (fst f))) (INPUT_FIELDS DT)))
    with 37 by reflexivity.
  change (37 + 4) with input_start_col.
  change (mw - input_start_col - 2) with iw.
  cbv zeta.
  match goal with
  | |- context [ [CursSet 0] ++ ?a ++ _ ++ ?b ++ _ ] =>
      set (first_loop := a); set (second_loop := b)
  end.
  assert (Hview : forall value : pystr,
             py_slice value (Z.max 0 (len value - iw + 1))
                      (Z.max 0 (len value - iw + 1) + iw)
             = lastn (Z.to_nat (Z.min (len value) (iw - 1))) value
             /\ 0 <= len value - Z.max 0 (len value - iw + 1) <= iw - 1).
  { intros value. apply focused_view. exact Hw. }
  assert (L1 : forall c, In c first_loop ->
             match c with
             | Move _ x => input_start_col <= x <= input_start_col + iw - 1
             | Addstr _ x _ _ => x = 2
             | _ => True
             end).
  { intros c H. unfold first_loop in H. apply in_flat_map in H.
    destruct H as [entry [_ H]]. apply in_app_or in H. destruct H as [H|H].
    - destruct H as [<-|[]]. reflexivity.
    - destruct (fst entry =? focus); [|contradiction].
      destruct H as [<-|[<-|[]]]; [exact I|].
      destruct (Hview (dict_get iv (snd (fst (snd entry))) [])) as [_ B]. lia. }
  assert (L2 : forall c, In c second_loop ->
             match c with
             | Move _ x => input_start_col <= x <= input_start_col + iw - 1
             | Addstr _ x text _ =>
                 x = 2 \/ x = input_start_col - 1 \/ x = input_start_col + iw
                 \/ length text = Z.to_nat iw
             | _ => True
             end).
  { intros c H. unfold second_loop in H. apply in_flat_map in H.
    destruct H as [entry [_ H]]. apply in_app_or in H. destruct H as [H|H].
    - destruct H as [<-|[]]. left. reflexivity.
    - destruct (fst entry =? focus).
      + destruct H as [<-|[<-|[<-|[<-|[<-|[]]]]]]; auto.
        * destruct (Hview (dict_get iv (snd (fst (snd entry))) [])) as [_ B]. lia.
        * right. right. right. apply fit_length. lia.
      + destruct H as [<-|[<-|[<-|[]]]]; auto.
        right. right. right. apply fit_length. lia. }
  assert (L3 : 0 <= focus < NUM_INPUTS ->
             let value := dict_get iv (field_key focus) [] in
             let shown := lastn (Z.to_nat (Z.min (len value) (iw - 1))) value in
             In (Addstr (focus * 2 + 1) input_start_col (fit iw shown)
                        (Some (Z.lor A_REVERSE A_BOLD))) second_loop
             /\ In (Move (focus * 2 + 1) (input_start_col + len shown)) second_loop).
  { intros Hf value shown.
    assert (N : NUM_INPUTS = 4) by reflexivity.
    assert (C : focus = 0 \/ focus = 1 \/ focus = 2 \/ focus = 3) by lia.
    assert (Hentry : In (focus, nth (Z.to_nat focus) (INPUT_FIELDS DT) ([], [], []))
                        (enumerate (INPUT_FIELDS DT))).
    { destruct C as [ -> | [ -> | [ -> | -> ] ] ]; cbn; auto. }
    assert (Hkey : snd (fst (nth (Z.to_nat focus) (INPUT_FIELDS DT) ([], [], [])))
                   = field_key focus).
    { destruct C as [ -> | [ -> | [ -> | -> ] ] ]; reflexivity. }
    destruct (Hview value) as [V B].
    assert (Hlen : len shown = len value - Z.max 0 (len value - iw + 1)).
    { unfold shown, lastn, len. rewrite length_skipn. unfold len in *. lia. }
    assert (Hin : forall c,
              In c [CursSet 1;
                    Move (focus * 2 + 1) (input_start_col + len shown);
                    Addstr (focus * 2 + 1) (input_start_col - 1) (str "[") (Some A_BOLD);
                    Addstr (focus * 2 + 1) input_start_col (fit iw shown)
                           (Some (Z.lor A_REVERSE A_BOLD));
                    Addstr (focus * 2 + 1) (input_start_col + iw) (str "]") (Some A_BOLD)]
              -> In c second_loop).
    { intros c Hc. unfold second_loop. apply in_flat_map.
      eexists. split; [exact Hentry|]. cbn [fst snd]. rewrite Hkey.
      fold value. rewrite Z.eqb_refl. apply in_or_app. right. rewrite V. fold shown.
      rewrite <- Hlen. exact Hc. }
    split; apply Hin; cbn; auto. }
  clearbody first_loop second_loop.
  assert (Hiw : 1 <= iw) by exact Hw.
  assert (Hrow : NUM_INPUTS * 2 + 2 = 10) by reflexivity.
  assert (Hisc : input_start_col = 41) by reflexivity.
  split; [|split].
  - intros y x H. rewrite !in_app_iff in H.
    destruct H as [H|[H|[H|[H|[H|H]]]]].
    + destruct H as [H|[]]. discriminate.
    + apply (L1 _ H).
    + destruct H as [H|[H|[H|[]]]]; discriminate.
    + apply (L2 _ H).
    + destruct (focus =? NUM_INPUTS); [destruct H as [H|[H|[]]] | destruct H as [H|[]]];
        discriminate.
    + destruct H as [H|[]]. discriminate.
  - intros y text attr H Hy. rewrite !in_app_iff in H.
    destruct H as [H|[H|[H|[H|[H|H]]]]].
    + destruct H as [H|[]]. discriminate.
    + pose proof (L1 _ H) as B. cbv beta iota in B. lia.
    + destruct H as [H|[H|[H|[]]]]; try discriminate; inversion H; lia.
    + pose proof (L2 _ H) as B. cbv beta iota in B. destruct B as [B|[B|[B|B]]]; [lia|lia|lia|exact B].
    + destruct (focus =? NUM_INPUTS); [destruct H as [H|[H|[]]] | destruct H as [H|[]]];
        try discriminate; inversion H; lia.
    + destruct H as [H|[]]. discriminate.
  - intros Hf. pose proof (L3 Hf) as L. cbv zeta in L. destruct L as [A B].
    split; rewrite !in_app_iff; auto.
Qed.

End InputPanelProperties.

Lemma input_panel_boxes_witness :
  1 <= input_width 80
  /\ In (Move 3 (input_start_col + 3))
        (draw_input_panel (T:=ncurses_attrs) [] [(str "source_dir", str "abc")] 1 80).
Proof.
  split; [vm_compute; discriminate|].
  assert (Hw : 1 <= input_width 80) by (vm_compute; discriminate).
  assert (Hf : 0 <= 1 < NUM_INPUTS) by (vm_compute; split; [discriminate|reflexivity]).
  exact (proj2 (proj2 (proj2 (input_panel_boxes (T:=ncurses_attrs) []
                                [(str "source_dir", str "abc")] 1 80 Hw)) Hf)).
Defined.

(* ------------------------------------------------------------------ *)
(** * The panes of RecoveryLite *)

Lemma startswith_cut (p s : pystr) :
  startswith p s = true -> s = p ++ skipn (length p) s.
Proof.
  revert s. induction p as [|a p IH]; intros s H; [reflexivity|].
  destruct s as [|b s]; [discriminate|]. cbn in H.
  apply andb_true_iff in H. destruct H as [E H]. apply Z.eqb_eq in E. subst b.
  cbn. f_equal. now apply IH.
Qed.

Lemma startswith_longer (p x y : pystr) :
  startswith p x = true -> startswith p (x ++ y) = true.
Proof.
  intros H. rewrite (startswith_cut _ _ H), <- app_assoc. apply startswith_app.
Qed.

Lemma contains_app (sep a b : pystr) : contains sep (a ++ sep ++ b) = true.
Proof.
  induction a as [|c a IH].
  - destruct (sep ++ b) eqn:E; cbn [app contains]; rewrite <- E, startswith_app; reflexivity.
  - cbn [app contains]. rewrite IH. apply orb_true_r.
Qed.

Lemma removelast_prefix {A} (l : list A) : exists t, l = removelast l ++ t.
Proof.
  destruct l as [|x l] using rev_ind; [exists []; reflexivity|].
  exists [x]. now rewrite removelast_last.
Qed.

(** [split_first] cuts at the first occurrence of the separator. *)
Lemma split_first_spec (sep s : pystr) :
  sep <> [] ->
  (contains sep s = true
   /\ exists a b, Lite.split_first sep s = [a; b] /\ s = a ++ sep ++ b
                  /\ contains sep (a ++ removelast sep) = false)
  \/ (contains sep s = false /\ Lite.split_first sep s = [s]).
Proof.
  intros Hsep. induction s as [|c s IH].
  - right. destruct sep; [congruence|]. split; reflexivity.
  - cbn [Lite.split_first contains]. destruct (startswith sep (c :: s)) eqn:E.
    + left. split; [reflexivity|]. exists [], (skipn (length sep) (c :: s)).
      split; [reflexivity|]. split; [now apply startswith_cut|].
      cbn [app]. clear -Hsep.
      destruct (removelast_prefix sep) as [t Ht].
      assert (Hlen : (length (removelast sep) < length sep)%nat).
      { destruct sep as [|x l] using rev_ind; [congruence|].
        rewrite removelast_last, length_app. cbn. lia. }
      clear Ht t Hsep. revert Hlen. generalize (removelast sep) as r.
      intros r. revert sep. induction r as [|x r IH]; intros sep Hlen.
      * destruct sep; [cbn in Hlen; lia|reflexivity].
      * cbn [contains]. rewrite (IH sep) by (cbn in Hlen; lia).
        rewrite orb_false_r.
        destruct (startswith sep (x :: r)) eqn:E; [|reflexivity].
        apply startswith_cut in E. apply (f_equal (@length Z)) in E.
        rewrite length_app in E. cbn [length] in *. lia.
    + cbn [orb]. destruct IH as [[C [a [b [S [Es F]]]]]|[C S]].
      * left. split; [exact C|]. exists (c :: a), b. rewrite S.
        split; [reflexivity|]. split; [cbn; now rewrite Es|].
        cbn [app contains]. rewrite F, orb_false_r.
        destruct (startswith sep (c :: a ++ removelast sep)) eqn:E'; [|reflexivity].
        destruct (removelast_prefix sep) as [t Ht].
        apply (startswith_longer _ _ (t ++ b)) in E'.
        change (c :: a ++ removelast sep) with ((c :: a) ++ removelast sep) in E'.
        rewrite <- !app_assoc in E'. rewrite (app_assoc (removelast sep)), <- Ht in E'.
        cbn [app] in E'. rewrite <- Es in E'. congruence.
      * right. split; [exact C|]. now rewrite S.
Qed.

Section LitePanes.

Import Lite.

(** X24. Splitting a row gives back the row: the two parts, put side by
    side, are the row as it was. When the row holds the separator
    [" - "], the first part ends with the first occurrence of it; when it
    does not, the first part is the whole row and the second is empty. *)
Theorem split_prefix_desc_recombines :
  forall row_text : pystr,
    let prefix := fst (_split_prefix_desc row_text) in
    let desc := snd (_split_prefix_desc row_text) in
    prefix ++ desc = row_text
    /\ (if contains (str " - ") row_text
        then endswith (str " - ") prefix = true
             /\ contains (str " - ") (removelast prefix) = false
        else prefix = row_text /\ desc = []).
Proof.
  intros row. unfold _split_prefix_desc.
  destruct (split_first_spec (str " - ") row) as [[C [a [b [S [E F]]]]]|[C S]];
    [discriminate| |]; rewrite S, C; cbn [fst snd].
  - split; [now rewrite <- app_assoc|]. split; [apply endswith_app|].
    replace (removelast (a ++ str " - ")) with (a ++ removelast (str " - ")); [exact F|].
    symmetry. apply removelast_app. discriminate.
  - destruct row as [|c row]; [cbn; auto|].
    split; [apply app_nil_r|]. split; reflexivity.
Qed.

(** X25. Moving the cursor in a pane that has items leaves it on an item
    and on a row of the viewport: whatever the cursor, the scroll
    position and the step were, afterwards the cursor is an index of the
    list, the scroll position lies between 0 and the largest useful one,
    and the cursor is one of the rows shown. The other pane, the focus
    and the lists are untouched. *)
Theorem move_cursor_keeps_cursor_visible :
  forall (self : RecoveryUI) (delta content_h : Z),
    fst (fst (_current_list self)) <> [] ->
    let moved := _move_cursor self delta content_h in
    cursor_visible moved content_h
    /\ other_list moved = other_list self
    /\ focus_archives moved = focus_archives self
    /\ recovery_items moved = recovery_items self
    /\ archive_items moved = archive_items self.
Proof.
  intros [rec arc foc cl cr sl sr] delta content_h H.
  unfold _move_cursor, _current_list, cursor_visible, other_list,
    _set_current_cursor_scroll in *.
  cbn [focus_archives recovery_items archive_items cursor_idx_left cursor_idx_right
       scroll_left scroll_right] in *.
  destruct foc; cbn [fst] in H.
  - destruct arc as [|x arc]; [congruence|]. cbv zeta.
    set (n := len (x :: arc)).
    assert (Hn : 1 <= n) by (unfold n, len; cbn [length]; lia).
    cbn [focus_archives recovery_items archive_items cursor_idx_left cursor_idx_right
         scroll_left scroll_right].
    repeat split; try reflexivity;
      destruct (Z.ltb_spec (Z.max 0 (Z.min (cr + delta) (n - 1))) sr);
      destruct (Z.geb_spec (Z.max 0 (Z.min (cr + delta) (n - 1)))
                           (sr + Z.max 1 (content_h - 1)));
      cbn [focus_archives recovery_items archive_items cursor_idx_left cursor_idx_right
           scroll_left scroll_right]; try reflexivity; lia.
  - destruct rec as [|x rec]; [congruence|]. cbv zeta.
    set (n := len (x :: rec)).
    assert (Hn : 1 <= n) by (unfold n, len; cbn [length]; lia).
    cbn [focus_archives recovery_items archive_items cursor_idx_left cursor_idx_right
         scroll_left scroll_right].
    repeat split; try reflexivity;
      destruct (Z.ltb_spec (Z.max 0 (Z.min (cl + delta) (n - 1))) sl);
      destruct (Z.geb_spec (Z.max 0 (Z.min (cl + delta) (n - 1)))
                           (sl + Z.max 1 (content_h - 1)));
      cbn [focus_archives recovery_items archive_items cursor_idx_left cursor_idx_right
           scroll_left scroll_right]; try reflexivity; lia.
Qed.

Lemma move_cursor_keeps_cursor_visible_witness :
  let self := mkRecoveryUI
                [mkItem (str "a.cri") None [] [] [] [] false;
                 mkItem (str "b.cri") None [] [] [] [] false;
                 mkItem (str "c.cri") None [] [] [] [] false]
                [] false 0 0 0 0 in
  fst (fst (_current_list self)) <> []
  /\ cursor_visible (_move_cursor self 10 3) 3.
Proof.
  split; [discriminate|].
  apply (move_cursor_keeps_cursor_visible
           (mkRecoveryUI
                [mkItem (str "a.cri") None [] [] [] [] false;
                 mkItem (str "b.cri") None [] [] [] [] false;
                 mkItem (str "c.cri") None [] [] [] [] false]
                [] false 0 0 0 0) 10 3).
  discriminate.
Defined.

Lemma clamp_index_within (idx n : Z) : within n (_clamp_index idx n).
Proof. unfold within, _clamp_index. destruct (Z.leb_spec n 0); lia. Qed.

Lemma clamp_index_fixed (idx n : Z) : _clamp_index idx n = idx <-> within n idx.
Proof. unfold within, _clamp_index. destruct (Z.leb_spec n 0); lia. Qed.

(** X26. [_clamp_cursors] brings both cursors and both scroll positions
    within their lists (between 0 and the last index, 0 for an empty
    list), and the states it leaves as they are are exactly the states
    where they already were. *)
Theorem clamp_cursors_closure :
  forall self : RecoveryUI,
    clamped (_clamp_cursors self)
    /\ (_clamp_cursors self = self <-> clamped self).
Proof.
  intros [rec arc foc cl cr sl sr]. unfold clamped, _clamp_cursors.
  cbn [focus_archives recovery_items archive_items cursor_idx_left cursor_idx_right
       scroll_left scroll_right].
  split; [|split].
  - repeat split; try apply clamp_index_within; unfold within; lia.
  - intros H. injection H as H1 H2 H3 H4.
    apply clamp_index_fixed in H1, H2. unfold within in *. lia.
  - intros (H1 & H2 & H3 & H4).
    apply clamp_index_fixed in H1, H2. rewrite H1, H2. unfold within in *.
    f_equal; lia.
Qed.

Lemma update_nth_twice {A} (f : A -> A) (i : nat) (l : list A) :
  (forall x, f (f x) = x) -> update_nth i f (update_nth i f l) = l.
Proof.
  intros Hf. revert i. induction l as [|x l IH]; intros [|i]; cbn; try reflexivity.
  - now rewrite Hf.
  - now rewrite IH.
Qed.

Lemma update_nth_length {A} (f : A -> A) (i : nat) (l : list A) :
  length (update_nth i f l) = length l.
Proof. revert i. induction l as [|x l IH]; intros [|i]; cbn; auto. Qed.

Lemma update_nth_map {A B} (g : A -> B) (f : A -> A) (i : nat) (l : list A) :
  (forall x, g (f x) = g x) -> map g (update_nth i f l) = map g l.
Proof.
  intros Hf. revert i. induction l as [|x l IH]; intros [|i]; cbn; try reflexivity.
  - now rewrite Hf.
  - now rewrite IH.
Qed.

Lemma toggle_twice (item : RecoveryItem) :
  set_selected (negb (selected (set_selected (negb (selected item)) item)))
               (set_selected (negb (selected item)) item) = item.
Proof. destruct item as [a b c d e f s]. unfold set_selected. cbn. now rewrite negb_involutive. Qed.

Lemma toggle_selection_frame :
  forall self : RecoveryUI,
    _toggle_selection (_toggle_selection self) = self
    /\ map cri_path (recovery_items (_toggle_selection self))
       = map cri_path (recovery_items self)
    /\ map cri_path (archive_items (_toggle_selection self))
       = map cri_path (archive_items self)
    /\ other_list (_toggle_selection self) = other_list self
    /\ focus_archives (_toggle_selection self) = focus_archives self
    /\ cursor_idx_left (_toggle_selection self) = cursor_idx_left self
    /\ cursor_idx_right (_toggle_selection self) = cursor_idx_right self
    /\ scroll_left (_toggle_selection self) = scroll_left self
    /\ scroll_right (_toggle_selection self) = scroll_right self.
Proof.
  intros [rec arc foc cl cr sl sr].
  unfold _toggle_selection, _current_list, other_list.
  cbn [focus_archives recovery_items archive_items cursor_idx_left cursor_idx_right
       scroll_left scroll_right].
  destruct foc.
  - destruct arc as [|x arc]; [repeat split; reflexivity|].
    destruct ((0 <=? cr) && (cr <? len (x :: arc))) eqn:E.
    + unfold set_current_items.
      cbn [focus_archives recovery_items archive_items cursor_idx_left cursor_idx_right
           scroll_left scroll_right fst snd].
      set (f := fun item => set_selected (negb (selected item)) item).
      destruct (update_nth (Z.to_nat cr) f (x :: arc)) as [|y l] eqn:U.
      { apply (f_equal (@length _)) in U. rewrite update_nth_length in U. discriminate. }
      assert (L : len (y :: l) = len (x :: arc)).
      { unfold len. rewrite <- U, update_nth_length. reflexivity. }
      rewrite L, E.
      cbn [focus_archives recovery_items archive_items cursor_idx_left cursor_idx_right
           scroll_left scroll_right fst snd].
      rewrite <- U at 1. rewrite update_nth_twice by (intros; apply toggle_twice).
      repeat split; try reflexivity.
      rewrite <- U. apply update_nth_map. reflexivity.
    + cbn [focus_archives recovery_items archive_items cursor_idx_left cursor_idx_right
           scroll_left scroll_right fst snd]. rewrite E. repeat split; reflexivity.
  - destruct rec as [|x rec]; [repeat split; reflexivity|].
    destruct ((0 <=? cl) && (cl <? len (x :: rec))) eqn:E.
    + unfold set_current_items.
      cbn [focus_archives recovery_items archive_items cursor_idx_left cursor_idx_right
           scroll_left scroll_right fst snd].
      set (f := fun item => set_selected (negb (selected item)) item).
      destruct (update_nth (Z.to_nat cl) f (x :: rec)) as [|y l] eqn:U.
      { apply (f_equal (@length _)) in U. rewrite update_nth_length in U. discriminate. }
      assert (L : len (y :: l) = len (x :: rec)).
      { unfold len. rewrite <- U, update_nth_length. reflexivity. }
      rewrite L, E.
      cbn [focus_archives recovery_items archive_items cursor_idx_left cursor_idx_right
           scroll_left scroll_right fst snd].
      rewrite <- U at 1. rewrite update_nth_twice by (intros; apply toggle_twice).
      repeat split; try reflexivity.
      rewrite <- U. apply update_nth_map. reflexivity.
    + cbn [focus_archives recovery_items archive_items cursor_idx_left cursor_idx_right
           scroll_left scroll_right fst snd]. rewrite E. repeat split; reflexivity.
Qed.

Lemma update_nth_nth_error {A} (f : A -> A) (k i : nat) (l : list A) :
  nth_error (update_nth k f l) i
  = option_map (fun x => if (i =? k)%nat then f x else x) (nth_error l i).
Proof.
  revert k i. induction l as [|x l IH]; intros [|k] [|i]; cbn; try reflexivity.
  - now destruct (nth_error l i).
  - apply IH.
Qed.

(** The list in focus after a toggle. *)
Lemma toggle_selection_items (self : RecoveryUI) :
  let items := fst (fst (_current_list self)) in
  let cursor_idx := snd (fst (_current_list self)) in
  fst (fst (_current_list (_toggle_selection self)))
  = if (0 <=? cursor_idx) && (cursor_idx <? len items)
    then update_nth (Z.to_nat cursor_idx)
                    (fun item => set_selected (negb (selected item)) item) items
    else items.
Proof.
  destruct self as [rec arc foc cl cr sl sr].
  unfold _toggle_selection, _current_list.
  cbn [focus_archives recovery_items archive_items cursor_idx_left cursor_idx_right
       scroll_left scroll_right fst snd].
  destruct foc; cbn [fst snd].
  - destruct arc as [|x arc];
      [destruct ((0 <=? cr) && (cr <? len [])); [destruct (Z.to_nat cr)|]; reflexivity|].
    destruct ((0 <=? cr) && (cr <? len (x :: arc))); reflexivity.
  - destruct rec as [|x rec];
      [destruct ((0 <=? cl) && (cl <? len [])); [destruct (Z.to_nat cl)|]; reflexivity|].
    destruct ((0 <=? cl) && (cl <? len (x :: rec))); reflexivity.
Qed.

(** X27. Toggling the selection twice gives back the state as it was. One
    toggle leaves the pane out of focus, the cursors, the scroll
    positions and the focus alone; in the pane in focus it keeps the
    number of items and every field of every item but the mark: the mark
    of the item under the cursor becomes the opposite one, the marks of
    the others stay. *)
Theorem toggle_selection_involutive :
  forall self : RecoveryUI,
    let toggled := _toggle_selection self in
    let items := fst (fst (_current_list self)) in
    let cursor_idx := snd (fst (_current_list self)) in
    let items' := fst (fst (_current_list toggled)) in
    _toggle_selection toggled = self
    /\ other_list toggled = other_list self
    /\ focus_archives toggled = focus_archives self
    /\ cursor_idx_left toggled = cursor_idx_left self
    /\ cursor_idx_right toggled = cursor_idx_right self
    /\ scroll_left toggled = scroll_left self
    /\ scroll_right toggled = scroll_right self
    /\ length items' = length items
    /\ forall (i : nat) (item : RecoveryItem),
         nth_error items i = Some item ->
         exists item',
           nth_error items' i = Some item'
           /\ same_but_mark (Z.of_nat i =? cursor_idx) item item'.
Proof.
  intros self toggled items cursor_idx items'.
  destruct (toggle_selection_frame self)
    as (T & _ & _ & O & F & C1 & C2 & S1 & S2).
  fold toggled in T, O, F, C1, C2, S1, S2.
  do 7 (split; [assumption|]).
  pose proof (toggle_selection_items self) as E. cbv zeta in E.
  fold toggled items cursor_idx in E. fold items' in E. rewrite E. clear E.
  destruct ((0 <=? cursor_idx) && (cursor_idx <? len items)) eqn:R.
  - apply andb_prop in R. destruct R as [R1 R2].
    apply Z.leb_le in R1. apply Z.ltb_lt in R2.
    split; [apply update_nth_length|].
    intros i item Hi. rewrite update_nth_nth_error, Hi. cbn [option_map].
    destruct (Nat.eqb_spec i (Z.to_nat cursor_idx)) as [Ei|Ei].
    + eexists. split; [reflexivity|].
      replace (Z.of_nat i =? cursor_idx) with true by (symmetry; apply Z.eqb_eq; lia).
      destruct item. unfold same_but_mark, set_selected. cbn. repeat split; reflexivity.
    + exists item. split; [reflexivity|].
      replace (Z.of_nat i =? cursor_idx) with false by (symmetry; apply Z.eqb_neq; lia).
      unfold same_but_mark. repeat split; reflexivity.
  - split; [reflexivity|]. intros i item Hi. exists item. split; [exact Hi|].
    assert (Hlt : (i < length items)%nat) by (apply nth_error_Some; congruence).
    replace (Z.of_nat i =? cursor_idx) with false.
    + unfold same_but_mark. repeat split; reflexivity.
    + symmetry. apply Z.eqb_neq. intros Hc.
      apply andb_false_iff in R. unfold len in R.
      destruct R as [R|R]; [apply Z.leb_gt in R | apply Z.ltb_ge in R]; lia.
Qed.

End LitePanes.

Section LiteRows.

Import Lite.

Context {W : Type} {P : Platform W}.

(** X28. The row of an item always splits in two: whatever its fields,
    the first part ends with [" - "], begins with the check box that
    tells whether the item is selected, and the two parts give the row
    back. *)
Theorem display_row_splits :
  forall item : RecoveryItem,
    let row_text := display_text item in
    let prefix := fst (_split_prefix_desc row_text) in
    let desc := snd (_split_prefix_desc row_text) in
    prefix ++ desc = row_text
    /\ endswith (str " - ") prefix = true
    /\ startswith (if selected item then str "[X] " else str "[ ] ") prefix = true.
Proof.
  intros item row_text. unfold _split_prefix_desc.
  assert (C : contains (str " - ") row_text = true).
  { unfold row_text, display_text. cbv zeta.
    match goal with
    | |- contains _ (?c ++ ?s ++ ?m ++ ?sep ++ ?r) = true =>
        replace (c ++ s ++ m ++ sep ++ r) with ((c ++ s ++ m) ++ sep ++ r)
          by (now rewrite <- !app_assoc)
    end.
    apply contains_app. }
  destruct (split_first_spec (str " - ") row_text) as [[_ [a [b [S [E F]]]]]|[C' _]];
    [discriminate| |congruence].
  rewrite S. cbn [fst snd].
  split; [now rewrite <- app_assoc, E|]. split; [apply endswith_app|].
  (* the check box and the blank after it hold no separator, so they come
     before the cut *)
  set (box := if selected item then str "[X] " else str "[ ] ").
  assert (R : exists rest, row_text = box ++ rest).
  { unfold row_text, display_text, box. destruct (selected item); eexists; cbn; reflexivity. }
  destruct R as [rest R]. rewrite E in R.
  assert (Hbox : length box = 4%nat) by (unfold box; destruct (selected item); reflexivity).
  assert (Hlen : (4 <= length (a ++ str " - "))%nat).
  { rewrite length_app. cbn [length str].
    destruct a as [|a0 [|a1 a]]; [| |cbn; lia].
    - exfalso. unfold box in R. destruct (selected item); cbn in R; discriminate.
    - exfalso. unfold box in R. destruct (selected item); cbn in R;
        inversion R. }
  rewrite app_assoc in R.
  assert (Hp : firstn 4 ((a ++ str " - ") ++ b) = firstn 4 (box ++ rest)) by now rewrite R.
  rewrite firstn_app, (firstn_app _ box), Hbox in Hp.
  replace (4 - length (a ++ str " - "))%nat with 0%nat in Hp by lia.
  replace (4 - 4)%nat with 0%nat in Hp by reflexivity.
  rewrite !firstn_O, !app_nil_r in Hp.
  rewrite <- Hbox in Hp at 2. rewrite firstn_all in Hp.
  rewrite <- (firstn_skipn 4 (a ++ str " - ")), Hp. apply startswith_app.
Qed.

End LiteRows.
